(** * Transcript writers and PDF metadata normalisation

    A shallow embedding of

    - [faster_whisper/utils.py]: [format_timestamp] and the result writers
      [WriteTXT], [WriteVTT], [WriteSRT], [WriteTSV], [WriteJSON];
    - [text-converter/metadata.py]: [to_date] and [get_document_metadata].

    Python values are modelled as follows.  A [str] is a list of Unicode
    code points, [bytes] a list of octets, an [int] is a [Z], a [float] is an
    IEEE 754 binary64 number ([spec_float] with precision 53 and maximal
    exponent 1024), a [dict] used as a record is a [gmap].  A computation that
    can raise returns an [outcome]. *)

From Stdlib Require Import ZArith NArith List Bool Lia String Ascii.
From Stdlib Require Import Floats.SpecFloat.
From Stdlib Require Strings.Byte.
From stdpp Require Import gmap strings list.

Local Open Scope Z_scope.
#[local] Set Warnings "-register-all".

(** ** Python strings *)

(** A [str] is a sequence of code points; a literal of the source is written
    [pys "..."] (the literals of the two files are all ASCII). *)
Abbreviation str := (list N).

Definition pys (s : string) : str :=
  map (fun a : ascii => N_of_ascii a) (list_ascii_of_string s).

(** ** Exceptions *)

Inductive exn :=
| ValueError
| UnicodeDecodeError
| OverflowError
| AttributeError
| KeyError
| TypeError
| OSError
| NotImplementedError.

(** [except ValueError] also catches its subclass [UnicodeDecodeError]. *)
Definition is_ValueError (e : exn) : bool :=
  match e with
  | ValueError | UnicodeDecodeError => true
  | _ => false
  end.

Inductive outcome (A : Type) :=
| Ok (a : A)
| Raise (e : exn).
Arguments Ok {A} a.
Arguments Raise {A} e.

#[global] Instance outcome_ret : MRet outcome := fun A a => Ok a.
#[global] Instance outcome_bind : MBind outcome := fun A B f r =>
  match r with
  | Ok a => f a
  | Raise e => Raise e
  end.
#[global] Instance outcome_fmap : FMap outcome := fun A B f r =>
  match r with
  | Ok a => Ok (f a)
  | Raise e => Raise e
  end.

(** ** Floats *)

Abbreviation float := spec_float.

Definition float_mul : float -> float -> float := SFmul 53 1024.

(** The float nearest to [m * 2^e]. *)
Definition float_of (m e : Z) : float := binary_normalize 53 1024 m e false.

(** The literal [1000.0], and the integer [1000] converted for [1000 * x]. *)
Definition f1000 : float := S754_finite false 8796093022208000 (-43).

Definition float_is_finite (x : float) : bool :=
  match x with
  | S754_zero _ | S754_finite _ _ _ => true
  | _ => false
  end.

(** [x >= 0.0] *)
Definition float_nonneg (x : float) : bool :=
  match x with
  | S754_zero _ => true
  | S754_finite s _ _ | S754_infinity s => negb s
  | S754_nan => false
  end.

(** The integer nearest to [m * 2^e], ties to the even one. *)
Definition round_half_even (m : positive) (e : Z) : Z :=
  match e with
  | Zneg p =>
      let d := 2 ^ Zpos p in
      let q := Zpos m / d in
      let r := Zpos m mod d in
      match 2 * r ?= d with
      | Lt => q
      | Gt => q + 1
      | Eq => if Z.even q then q else q + 1
      end
  | _ => Zpos m * 2 ^ e
  end.

(** The builtin [round(x)] of a float: the nearest [int], ties to even;
    [OverflowError] on an infinity and [ValueError] on a NaN. *)
Definition py_round (x : float) : outcome Z :=
  match x with
  | S754_zero _ => Ok 0
  | S754_finite s m e => Ok (cond_Zopp s (round_half_even m e))
  | S754_infinity _ => Raise OverflowError
  | S754_nan => Raise ValueError
  end.

(** ** Printing integers *)

Definition digit_char (d : Z) : N := (48 + Z.to_N d)%N.

(** The decimal digits of [n >= 0], most significant first, in front of
    [acc]; [fuel] bounds the number of digits. *)
Fixpoint digits_from (fuel : nat) (n : Z) (acc : str) : str :=
  match fuel with
  | O => acc
  | S fuel' =>
      let acc' := digit_char (n mod 10) :: acc in
      if n <? 10 then acc' else digits_from fuel' (n / 10) acc'
  end.

Definition dec_digits (n : Z) : str :=
  digits_from (S (Z.to_nat (Z.log2 n))) n [].

(** [str(z)] *)
Definition str_of_int (z : Z) : str :=
  (if z <? 0 then pys "-" else []) ++ dec_digits (Z.abs z).

(** [f"{z:0{width}d}"]: the sign, then the digits padded with zeros on the
    left up to [width] characters in all; never shortened. *)
Definition format_0d (width : nat) (z : Z) : str :=
  let sign := if z <? 0 then pys "-" else [] in
  let digits := dec_digits (Z.abs z) in
  sign ++ repeat 48%N (width - length sign - length digits)%nat ++ digits.

(** ** utils.py *)

Definition format_timestamp (seconds : float) (always_include_hours : bool)
    (decimal_marker : str) : outcome str :=
  milliseconds ← py_round (float_mul seconds f1000);
  let hours := milliseconds / 3600000 in
  let milliseconds := milliseconds - hours * 3600000 in
  let minutes := milliseconds / 60000 in
  let milliseconds := milliseconds - minutes * 60000 in
  let seconds := milliseconds / 1000 in
  let milliseconds := milliseconds - seconds * 1000 in
  let hours_marker :=
    if always_include_hours || (0 <? hours)
    then format_0d 2 hours ++ pys ":" else [] in
  Ok (hours_marker ++ format_0d 2 minutes ++ pys ":" ++ format_0d 2 seconds
        ++ decimal_marker ++ format_0d 3 milliseconds).


(** ** String methods *)

(** [c.isspace()]: the code points Python treats as whitespace. *)
Definition isspace (c : N) : bool :=
  ((9 <=? c) && (c <=? 13) || (28 <=? c) && (c <=? 32) || (c =? 133)
   || (c =? 160) || (c =? 5760) || (8192 <=? c) && (c <=? 8202)
   || (c =? 8232) || (c =? 8233) || (c =? 8239) || (c =? 8287)
   || (c =? 12288))%N.

Fixpoint lstrip (s : str) : str :=
  match s with
  | c :: s' => if isspace c then lstrip s' else s
  | [] => []
  end.

Definition rstrip (s : str) : str := rev (lstrip (rev s)).

(** [s.strip()] *)
Definition strip (s : str) : str := rstrip (lstrip s).

(** [s.startswith(p)] *)
Fixpoint startswith (p s : str) : bool :=
  match p, s with
  | [], _ => true
  | a :: p', b :: s' => (a =? b)%N && startswith p' s'
  | _ :: _, [] => false
  end.

(** [s.replace(old, new)] for a non-empty [old]: the occurrences of [old]
    are found from the left and do not overlap; [skip] counts the characters
    of the occurrence being replaced that are still to be dropped. *)
Fixpoint replace_from (old new : str) (skip : nat) (s : str) : str :=
  match s with
  | [] => []
  | c :: s' =>
      match skip with
      | S k => replace_from old new k s'
      | O =>
          if startswith old s
          then new ++ replace_from old new (length old - 1) s'
          else c :: replace_from old new 0 s'
      end
  end.

Definition replace (old new s : str) : str := replace_from old new 0 s.

(** [s.split(sep)] for a non-empty [sep]; [cur] is the part being read,
    last character first. *)
Fixpoint split_from (sep : str) (skip : nat) (cur : str) (s : str) : list str :=
  match s with
  | [] => [rev cur]
  | c :: s' =>
      match skip with
      | S k => split_from sep k cur s'
      | O =>
          if startswith sep s
          then rev cur :: split_from sep (length sep - 1) [] s'
          else split_from sep 0 (c :: cur) s'
      end
  end.

Definition split (sep s : str) : list str := split_from sep 0 [] s.

(** [sep.join(parts)] *)
Fixpoint join (sep : str) (parts : list str) : str :=
  match parts with
  | [] => []
  | [p] => p
  | p :: ps => p ++ sep ++ join sep ps
  end.

(** [sub in s] *)
Fixpoint contains (sub s : str) : bool :=
  startswith sub s || match s with [] => false | _ :: s' => contains sub s' end.

(** [s[start:stop]] *)
Definition clamp_index (len i : Z) : Z :=
  if i <? 0 then Z.max 0 (len + i) else Z.min len i.

Definition py_slice (s : str) (start stop : Z) : str :=
  let len := Z.of_nat (length s) in
  let a := clamp_index len start in
  let b := clamp_index len stop in
  take (Z.to_nat (b - a)) (drop (Z.to_nat a) s).

(** ** Text files *)

(** A writer runs on a text file opened for writing: the state is what has
    been written so far, and it is kept when an exception ends the run. *)
Definition IO (A : Type) : Type := str -> str * outcome A.

#[global] Instance IO_ret : MRet IO := fun A a f => (f, Ok a).
#[global] Instance IO_bind : MBind IO := fun A B k m f =>
  match m f with
  | (f', Ok a) => k a f'
  | (f', Raise e) => (f', Raise e)
  end.

Definition lift {A} (r : outcome A) : IO A := fun f => (f, r).

(** [print(s, file=file, end=e)] *)
Definition print (s e : str) : IO unit := fun f => (f ++ s ++ e, Ok tt).

Definition nl : str := [10%N].
Definition tab : str := [9%N].

(** [for x in l: body(x)] *)
Fixpoint for_each {A} (l : list A) (body : A -> IO unit) : IO unit :=
  match l with
  | [] => mret tt
  | x :: l' => _ ← body x; for_each l' body
  end.

(** [enumerate(l, start)] *)
Fixpoint enumerate {A} (l : list A) (start : Z) : list (Z * A) :=
  match l with
  | [] => []
  | x :: l' => (start, x) :: enumerate l' (start + 1)
  end.

(** [d[key]] *)
Definition getitem {A} (d : gmap string A) (key : string) : outcome A :=
  match d !! key with
  | Some a => Ok a
  | None => Raise KeyError
  end.

(** ** The writers *)

(** A segment of the transcription: the writers read its attributes
    [start], [end] and [text]. *)
Record Segment := { start : float; end_ : float; text : str }.

Module ResultWriter.
Definition write_result (result : gmap string (list Segment)) : IO unit :=
  lift (Raise NotImplementedError).
End ResultWriter.

Module WriteTXT.
Definition extension : str := pys "txt".

Definition write_result (result : gmap string (list Segment)) : IO unit :=
  segments ← lift (getitem result "segments");
  for_each segments (fun segment => print (strip (text segment)) nl).
End WriteTXT.

Module WriteVTT.
Definition extension : str := pys "vtt".

(** The text of a cue as it is written. *)
Definition cue_text (segment : Segment) : str :=
  replace (pys "-->") (pys "->") (strip (text segment)).

Definition write_result (result : gmap string (list Segment)) : IO unit :=
  _ ← print (pys "WEBVTT" ++ nl) nl;
  segments ← lift (getitem result "segments");
  for_each segments (fun segment =>
    t0 ← lift (format_timestamp (start segment) false (pys "."));
    t1 ← lift (format_timestamp (end_ segment) false (pys "."));
    print (t0 ++ pys " --> " ++ t1 ++ nl ++ cue_text segment ++ nl) nl).
End WriteVTT.

Module WriteSRT.
Definition extension : str := pys "srt".

Definition cue_text (segment : Segment) : str :=
  replace (pys "-->") (pys "->") (strip (text segment)).

Definition write_result (result : gmap string (list Segment)) : IO unit :=
  segments ← lift (getitem result "segments");
  for_each (enumerate segments 1) (fun '(i, segment) =>
    t0 ← lift (format_timestamp (start segment) true (pys ","));
    t1 ← lift (format_timestamp (end_ segment) true (pys ","));
    print (str_of_int i ++ nl ++ t0 ++ pys " --> " ++ t1 ++ nl
             ++ cue_text segment ++ nl) nl).
End WriteSRT.

Module WriteTSV.
Definition extension : str := pys "tsv".

Definition text_field (segment : Segment) : str :=
  replace tab (pys " ") (strip (text segment)).

Definition write_result (result : gmap string (list Segment)) : IO unit :=
  _ ← print (pys "start" ++ tab ++ pys "end" ++ tab ++ pys "text") nl;
  segments ← lift (getitem result "segments");
  for_each segments (fun segment =>
    a ← lift (py_round (float_mul f1000 (start segment)));
    _ ← print (str_of_int a) tab;
    b ← lift (py_round (float_mul f1000 (end_ segment)));
    _ ← print (str_of_int b) tab;
    print (text_field segment) nl).
End WriteTSV.

Module WriteJSON.
Definition extension : str := pys "json".

(** The objects [json.dump] is given: [PyOther] stands for an object of
    any other class. A [dict] lists its items in insertion order. *)
Inductive pyobj :=
| PyNone
| PyBool (b : bool)
| PyInt (z : Z)
| PyFloat (x : float)
| PyStr (s : str)
| PyList (l : list pyobj)
| PyTuple (l : list pyobj)
| PyDict (d : list (pyobj * pyobj))
| PyOther.

(** A JSON document. The text of a number tells an integer from a float
    (the [repr] of a float has a point, an exponent, or is [NaN] or
    [Infinity]). *)
Inductive json :=
| JNull
| JBool (b : bool)
| JInt (z : Z)
| JFloat (x : float)
| JString (s : str)
| JArray (l : list json)
| JObject (members : list (str * json)).

(** Induction on objects, with the hypothesis for the members of a list, a
    tuple or a dict. *)
Section pyobj_nested_ind.
Variable P : pyobj -> Prop.
Hypothesis HNone : P PyNone.
Hypothesis HBool : forall b, P (PyBool b).
Hypothesis HInt : forall z, P (PyInt z).
Hypothesis HFloat : forall x, P (PyFloat x).
Hypothesis HStr : forall s, P (PyStr s).
Hypothesis HList : forall l, Forall P l -> P (PyList l).
Hypothesis HTuple : forall l, Forall P l -> P (PyTuple l).
Hypothesis HDict : forall d, Forall (fun kv => P (snd kv)) d -> P (PyDict d).
Hypothesis HOther : P PyOther.

Fixpoint pyobj_nested_ind (obj : pyobj) : P obj :=
  let all := fix all (l : list pyobj) : Forall P l :=
    match l with
    | [] => List.Forall_nil P
    | o :: l' => List.Forall_cons P o l' (pyobj_nested_ind o) (all l')
    end in
  match obj with
  | PyNone => HNone
  | PyBool b => HBool b
  | PyInt z => HInt z
  | PyFloat x => HFloat x
  | PyStr s => HStr s
  | PyList l => HList l (all l)
  | PyTuple l => HTuple l (all l)
  | PyDict d =>
      HDict d ((fix all_values (d : list (pyobj * pyobj))
                  : Forall (fun kv => P (snd kv)) d :=
                  match d with
                  | [] => List.Forall_nil _
                  | kv :: d' =>
                      List.Forall_cons (fun kv => P (snd kv)) kv d'
                        (pyobj_nested_ind (snd kv)) (all_values d')
                  end) d)
  | PyOther => HOther
  end.
End pyobj_nested_ind.

(** The results of a list of computations, up to the first that raises. *)
Fixpoint sequence {A} (l : list (outcome A)) : outcome (list A) :=
  match l with
  | [] => Ok []
  | r :: l' => a ← r; as' ← sequence l'; Ok (a :: as')
  end.

Section Codec.
(** [float.__repr__], used for a float that is the key of a dict. *)
Variable float_repr : float -> str.

(** The name of a member: a key that is not a [str] is converted. *)
Definition key_name (k : pyobj) : outcome str :=
  match k with
  | PyStr s => Ok s
  | PyFloat x => Ok (float_repr x)
  | PyBool true => Ok (pys "true")
  | PyBool false => Ok (pys "false")
  | PyNone => Ok (pys "null")
  | PyInt z => Ok (str_of_int z)
  | _ => Raise TypeError
  end.

(** The document [json.dump(obj, file)] writes, with the default options;
    the text itself is not modelled. A list and a tuple both give an array. *)
Fixpoint dump (obj : pyobj) : outcome json :=
  match obj with
  | PyNone => Ok JNull
  | PyBool b => Ok (JBool b)
  | PyInt z => Ok (JInt z)
  | PyFloat x => Ok (JFloat x)
  | PyStr s => Ok (JString s)
  | PyList l | PyTuple l => js ← sequence (map dump l); Ok (JArray js)
  | PyDict d =>
      ms ← sequence (map (fun kv => name ← key_name (fst kv);
                                    j ← dump (snd kv);
                                    Ok (name, j)) d);
      Ok (JObject ms)
  | PyOther => Raise TypeError
  end.

Definition is_key (name : str) (k : pyobj) : bool :=
  match k with
  | PyStr s => bool_decide (s = name)
  | _ => false
  end.

(** [d[name] = v]: the value of a key that is there is replaced where it
    stands, a new key comes last. *)
Fixpoint setitem (d : list (pyobj * pyobj)) (name : str) (v : pyobj)
    : list (pyobj * pyobj) :=
  match d with
  | [] => [(PyStr name, v)]
  | (k, w) :: d' =>
      if is_key name k then (k, v) :: d'
      else (k, w) :: setitem d' name v
  end.

(** The object [json.load] builds from a document: an array gives a list,
    an object a dict whose keys are the names. *)
Fixpoint load (j : json) : pyobj :=
  match j with
  | JNull => PyNone
  | JBool b => PyBool b
  | JInt z => PyInt z
  | JFloat x => PyFloat x
  | JString s => PyStr s
  | JArray l => PyList (map load l)
  | JObject members =>
      PyDict (fold_left (fun d m => setitem d (fst m) (load (snd m))) members [])
  end.

(** [json.dump(result, file)]: the document the file receives. *)
Definition write_result (result : pyobj) : outcome json := dump result.

(** Reading the file back. *)
Definition read_back (result : pyobj) : outcome pyobj :=
  load <$> write_result result.
End Codec.

(** The name of a key that is a string. *)
Definition str_key (k : pyobj) : option str :=
  match k with
  | PyStr s => Some s
  | _ => None
  end.

(** The objects JSON has a form of its own for: [None], booleans, integers,
    floats, strings, lists, and dicts whose keys are strings. (The keys of a
    dict are distinct.) *)
Fixpoint native (obj : pyobj) : bool :=
  match obj with
  | PyNone | PyBool _ | PyInt _ | PyFloat _ | PyStr _ => true
  | PyList l => forallb native l
  | PyDict d =>
      forallb (fun kv => match str_key (fst kv) with Some _ => true | None => false end) d
      && bool_decide (NoDup (map (fun kv => str_key (fst kv)) d))
      && forallb (fun kv => native (snd kv)) d
  | PyTuple _ | PyOther => false
  end.

(** Stands for [float.__repr__] where no key is a float. *)
Definition no_repr : float -> str := fun _ => [].

(** A result whose segment is a tuple [(0.0, 1.0, " hi ")]. *)
Definition tuple_result : pyobj :=
  PyDict [(PyStr (pys "segments"),
           PyList [PyTuple [PyFloat (S754_zero false); PyFloat (float_of 1 0);
                            PyStr (pys " hi ")]])].

(** A result whose segment is a dict. *)
Definition dict_result : pyobj :=
  PyDict [(PyStr (pys "segments"),
           PyList [PyDict [(PyStr (pys "start"), PyFloat (S754_zero false));
                           (PyStr (pys "end"), PyFloat (float_of 1 0));
                           (PyStr (pys "text"), PyStr (pys " hi "))]])].
End WriteJSON.

(** ** Library functions used by metadata.py *)

(** [bytes.decode('utf-8')]: the strict decoder, which refuses overlong
    forms, surrogates and code points above U+10FFFF. *)
Definition is_cont (b : Byte.byte) : bool :=
  ((128 <=? Byte.to_N b) && (Byte.to_N b <=? 191))%N.

Definition cont_bits (b : Byte.byte) : N := (Byte.to_N b - 128)%N.

Fixpoint utf8_decode (b : list Byte.byte) : outcome str :=
  match b with
  | [] => Ok []
  | b0 :: r0 =>
      let n0 := Byte.to_N b0 in
      if (n0 <? 128)%N then cons n0 <$> utf8_decode r0
      else if ((194 <=? n0) && (n0 <=? 223))%N then
        match r0 with
        | b1 :: r1 =>
            if is_cont b1
            then cons ((n0 - 192) * 64 + cont_bits b1)%N <$> utf8_decode r1
            else Raise UnicodeDecodeError
        | _ => Raise UnicodeDecodeError
        end
      else if ((224 <=? n0) && (n0 <=? 239))%N then
        match r0 with
        | b1 :: b2 :: r2 =>
            let lo := if (n0 =? 224)%N then 160%N else 128%N in
            let hi := if (n0 =? 237)%N then 159%N else 191%N in
            if (lo <=? Byte.to_N b1)%N && (Byte.to_N b1 <=? hi)%N && is_cont b2
            then cons (((n0 - 224) * 64 + cont_bits b1) * 64 + cont_bits b2)%N
                   <$> utf8_decode r2
            else Raise UnicodeDecodeError
        | _ => Raise UnicodeDecodeError
        end
      else if ((240 <=? n0) && (n0 <=? 244))%N then
        match r0 with
        | b1 :: b2 :: b3 :: r3 =>
            let lo := if (n0 =? 240)%N then 144%N else 128%N in
            let hi := if (n0 =? 244)%N then 143%N else 191%N in
            if (lo <=? Byte.to_N b1)%N && (Byte.to_N b1 <=? hi)%N
               && is_cont b2 && is_cont b3
            then cons ((((n0 - 240) * 64 + cont_bits b1) * 64 + cont_bits b2) * 64
                         + cont_bits b3)%N <$> utf8_decode r3
            else Raise UnicodeDecodeError
        | _ => Raise UnicodeDecodeError
        end
      else Raise UnicodeDecodeError
  end.

(** The bytes of an ASCII literal. *)
Definition pyb (s : string) : list Byte.byte := list_byte_of_string s.

(** The zero digit of each block of Unicode decimal digits (category Nd,
    Unicode 14.0): [\d] matches the ten code points from each on, and
    [int] reads them as 0 to 9. *)
Definition decimal_zeros : list N :=
  [
    48; 1632; 1776; 1984; 2406; 2534; 2662; 2790; 2918; 3046; 3174; 3302;
    3430; 3558; 3664; 3792; 3872; 4160; 4240; 6112; 6160; 6470; 6608; 6784;
    6800; 6992; 7088; 7232; 7248; 42528; 43216; 43264; 43472; 43504; 43600;
    44016; 65296; 66720; 68912; 69734; 69872; 69942; 70096; 70384; 70736;
    70864; 71248; 71360; 71472; 71904; 72016; 72784; 73040; 73120; 92768;
    92864; 93008; 120782; 120792; 120802; 120812; 120822; 123200; 123632;
    125264; 130032
  ]%N.

Definition decimal_value (c : N) : option Z :=
  match find (fun z => (z <=? c) && (c <? z + 10))%N decimal_zeros with
  | Some z => Some (Z.of_N (c - z))
  | None => None
  end.

Definition is_decimal (c : N) : bool :=
  match decimal_value c with Some _ => true | None => false end.

(** The value of a string of decimal digits read after [acc]. *)
Fixpoint digits_value (acc : Z) (s : str) : option Z :=
  match s with
  | [] => Some acc
  | c :: s' =>
      match decimal_value c with
      | Some d => digits_value (acc * 10 + d) s'
      | None => None
      end
  end.

(** [int(s)] on a string of digits, surrounding whitespace allowed. Signs
    and underscores are left out: no group of the pattern below holds one. *)
Definition py_int (s : str) : outcome Z :=
  match strip s with
  | [] => Raise ValueError
  | t =>
      match digits_value 0 t with
      | Some v => Ok v
      | None => Raise ValueError
      end
  end.

(** Regular expressions without repetition, as [time.strptime] builds them:
    a character class, a sequence, an alternative, a named group. *)
Inductive regex :=
| Cls (p : N -> bool)
| Cat (r1 r2 : regex)
| Alt (r1 r2 : regex)
| Group (name : string) (r : regex).

(** The matches of [r] at the start of [s], in the order in which the
    backtracking engine tries them: the groups, the text matched, and what
    follows it. *)
Fixpoint rmatch (r : regex) (s : str) : list (list (string * str) * str * str) :=
  match r with
  | Cls p =>
      match s with
      | c :: s' => if p c then [([], [c], s')] else []
      | [] => []
      end
  | Cat r1 r2 =>
      flat_map (fun '(g1, m1, s1) =>
                  map (fun '(g2, m2, s2) => (g1 ++ g2, m1 ++ m2, s2)) (rmatch r2 s1))
               (rmatch r1 s)
  | Alt r1 r2 => rmatch r1 s ++ rmatch r2 s
  | Group name r' =>
      map (fun '(g, m, s') => ((name, m) :: g, m, s')) (rmatch r' s)
  end.

Definition chr (a : string) : regex := Cls (fun c => bool_decide ([c] = pys a)).
Definition rng (a b : string) : regex :=
  Cls (fun c => match pys a, pys b with
                | [lo], [hi] => (lo <=? c)%N && (c <=? hi)%N
                | _, _ => false
                end).
Definition dig : regex := Cls is_decimal.

Declare Scope regex_scope.
Delimit Scope regex_scope with re.
Bind Scope regex_scope with regex.
Infix "·" := Cat (at level 40, left associativity) : regex_scope.
Infix "|||" := Alt (at level 50, left associativity) : regex_scope.

(** The pattern of the format ["%Y%m%d%H%M%S"]:
[(?P<Y>\d\d\d\d)(?P<m>1[0-2]|0[1-9]|[1-9])(?P<d>3[0-1]|[1-2]\d|0[1-9]|[1-9]| [1-9])(?P<H>2[0-3]|[0-1]\d|\d)(?P<M>[0-5]\d|\d)(?P<S>6[0-1]|[0-5]\d|\d)]
    (the pattern is case-insensitive, which changes nothing for digits and
    the space). *)
Definition re_Y : regex := Group "Y" (dig · dig · dig · dig)%re.
Definition re_m : regex :=
  Group "m" (chr "1" · rng "0" "2" ||| chr "0" · rng "1" "9" ||| rng "1" "9")%re.
Definition re_d : regex :=
  Group "d" (chr "3" · rng "0" "1" ||| rng "1" "2" · dig ||| chr "0" · rng "1" "9"
             ||| rng "1" "9" ||| chr " " · rng "1" "9")%re.
Definition re_H : regex :=
  Group "H" (chr "2" · rng "0" "3" ||| rng "0" "1" · dig ||| dig)%re.
Definition re_M : regex := Group "M" (rng "0" "5" · dig ||| dig)%re.
Definition re_S : regex :=
  Group "S" (chr "6" · rng "0" "1" ||| rng "0" "5" · dig ||| dig)%re.

Definition format_regex : regex := (re_Y · re_m · re_d · re_H · re_M · re_S)%re.

(** [found.groupdict()[name]] *)
Fixpoint group (name : string) (groups : list (string * str)) : str :=
  match groups with
  | [] => []
  | (n, m) :: groups' => if bool_decide (n = name) then m else group name groups'
  end.

(** The fields of a [time.struct_time] on which [mktime] depends. *)
Record struct_time := {
  tm_year : Z; tm_mon : Z; tm_mday : Z; tm_hour : Z; tm_min : Z; tm_sec : Z
}.

Definition is_leap (y : Z) : bool :=
  (y mod 4 =? 0) && (negb (y mod 100 =? 0) || (y mod 400 =? 0)).

Definition days_in_month (y m : Z) : Z :=
  if m =? 2 then (if is_leap y then 29 else 28)
  else if (m =? 4) || (m =? 6) || (m =? 9) || (m =? 11) then 30
  else 31.

(** [datetime.date(y, m, d)] is defined: the date exists in years 1 to 9999. *)
Definition date_exists (y m d : Z) : bool :=
  (1 <=? y) && (y <=? 9999) && (1 <=? m) && (m <=? 12)
  && (1 <=? d) && (d <=? days_in_month y m).

(** [time.strptime(data_string, "%Y%m%d%H%M%S")]: the first match of the
    pattern must end where the string ends, and the date must exist. *)
Definition strptime (data_string : str) : outcome struct_time :=
  match rmatch format_regex data_string with
  | [] => Raise ValueError
  | (groups, _, rest) :: _ =>
      match rest with
      | _ :: _ => Raise ValueError
      | [] =>
          year ← py_int (group "Y" groups);
          month ← py_int (group "m" groups);
          day ← py_int (group "d" groups);
          hour ← py_int (group "H" groups);
          minute ← py_int (group "M" groups);
          second ← py_int (group "S" groups);
          if date_exists year month day
          then Ok {| tm_year := year; tm_mon := month; tm_mday := day;
                     tm_hour := hour; tm_min := minute; tm_sec := second |}
          else Raise ValueError
      end
  end.

(** A naive [datetime.datetime] with no microseconds. *)
Record datetime := {
  year : Z; month : Z; day : Z; hour : Z; minute : Z; second : Z
}.

(** [dt.isoformat()] *)
Definition isoformat (dt : datetime) : str :=
  format_0d 4 (year dt) ++ pys "-" ++ format_0d 2 (month dt) ++ pys "-"
  ++ format_0d 2 (day dt) ++ pys "T" ++ format_0d 2 (hour dt) ++ pys ":"
  ++ format_0d 2 (minute dt) ++ pys ":" ++ format_0d 2 (second dt).

(** The local time of the host: [time.mktime] turns a local broken-down
    time into seconds since the epoch (a float holding an integer), and
    [datetime.datetime.fromtimestamp] turns these back into a local time.
    Both depend on the time zone of the host and both can raise. *)
Class LocalTime := {
  mktime : struct_time -> outcome Z;
  fromtimestamp : Z -> outcome datetime
}.

(** ** metadata.py *)

Section Metadata.
Context `{LocalTime}.

Definition to_date (date_str : str) : outcome (option datetime) :=
  let attempt :=
    let datestring := py_slice date_str 2 (-7) in
    ts ← strptime datestring;
    t ← mktime ts;
    dt ← fromtimestamp t;
    Ok (Some dt) in
  match attempt with
  | Raise e => if is_ValueError e then Ok None else Raise e
  | Ok date => Ok date
  end.

(** A value of the document information dictionary: a byte string, or an
    object of another class (a reference, a number, a name, a [str]),
    which has no method [decode]. *)
Inductive pdfvalue :=
| PBytes (b : list Byte.byte)
| PObject.

(** [value.decode('utf-8')] *)
Definition decode (value : pdfvalue) : outcome str :=
  match value with
  | PBytes b => utf8_decode b
  | PObject => Raise AttributeError
  end.

(** [doc.info] is the list of the information dictionaries of the
    document; nothing else of the document is read.  A dictionary is a finite
    map: its keys are distinct, and the order of its items, which the loop of
    [get_document_metadata] follows, has no effect on the record. *)
Record PDFDocument := { info : list (gmap str pdfvalue) }.

(** The values of the metadata record. *)
Inductive mdvalue :=
| MInt (z : Z)
| MStr (s : str)
| MList (l : list str)
| MDict (d : gmap string mdvalue).

(** [try: body  except: pass] around a body that ends by updating
    [metadata]. *)
Definition try_pass (metadata : gmap string mdvalue)
    (body : outcome (gmap string mdvalue)) : gmap string mdvalue :=
  match body with
  | Ok metadata' => metadata'
  | Raise _ => metadata
  end.

(** One turn of the loop over the items of the dictionary. *)
Definition visit (key : str) (value : pdfvalue)
    (metadata : gmap string mdvalue) : gmap string mdvalue :=
  if bool_decide (key = pys "Author") then
    try_pass metadata (
      stripped_value ← strip <$> decode value;
      if (0 <? length stripped_value)%nat
      then Ok (<["authors" := MList (map strip (split (pys ";") stripped_value))]> metadata)
      else Ok metadata)
  else if bool_decide (key = pys "Title") then
    try_pass metadata (
      stripped_value ← strip <$> decode value;
      if (0 <? length stripped_value)%nat
      then Ok (<["title" := MStr stripped_value]> metadata)
      else Ok metadata)
  else if bool_decide (key = pys "Keywords") then
    try_pass metadata (
      stripped_value ← strip <$> decode value;
      if (0 <? length stripped_value)%nat
      then Ok (<["keywords" := MList (map strip (split (pys ",") stripped_value))]> metadata)
      else Ok metadata)
  else if bool_decide (key = pys "CreationDate") then
    try_pass metadata (
      date ← decode value ≫= to_date;
      match date with
      | Some dt => Ok (<["createdAt" := MStr (isoformat dt)]> metadata)
      | None => Ok metadata
      end)
  else if bool_decide (key = pys "ModDate") then
    try_pass metadata (
      date ← decode value ≫= to_date;
      match date with
      | Some dt => Ok (<["updatedAt" := MStr (isoformat dt)]> metadata)
      | None => Ok metadata
      end)
  else metadata.

Definition get_document_metadata (doc : PDFDocument) (pages : Z)
    : gmap string mdvalue :=
  let metadata : gmap string mdvalue :=
    {[ "properties" :=
         MDict {[ "kind" := MStr (pys "text");
                  "attrs" := MDict {[ "pages" := MInt pages ]} ]} ]} in
  match info doc with
  | items :: _ => map_fold visit metadata items
  | [] => metadata
  end.
End Metadata.

(** ** A host in the UTC time zone *)

Module UTC.
(** Days from 1970-01-01 to the civil date [y]-[m]-[d]. *)
Definition days_from_civil (y m d : Z) : Z :=
  let y := if m <=? 2 then y - 1 else y in
  let era := y / 400 in
  let yoe := y - era * 400 in
  let doy := (153 * (if 2 <? m then m - 3 else m + 9) + 2) / 5 + d - 1 in
  let doe := yoe * 365 + yoe / 4 - yoe / 100 + doy in
  era * 146097 + doe - 719468.

Definition civil_from_days (z : Z) : Z * Z * Z :=
  let z := z + 719468 in
  let era := z / 146097 in
  let doe := z - era * 146097 in
  let yoe := (doe - doe / 1460 + doe / 36524 - doe / 146096) / 365 in
  let y := yoe + era * 400 in
  let doy := doe - (365 * yoe + yoe / 4 - yoe / 100) in
  let mp := (5 * doy + 2) / 153 in
  let d := doy - (153 * mp + 2) / 5 + 1 in
  let m := if mp <? 10 then mp + 3 else mp - 9 in
  (if m <=? 2 then y + 1 else y, m, d).

(** [fromtimestamp] also reads the local time one day earlier, to tell
    a repeated hour, and raises [ValueError] when a year is out of 1 to 9999. *)
#[export] Instance local_time : LocalTime := {|
  mktime ts :=
    Ok (days_from_civil (tm_year ts) (tm_mon ts) (tm_mday ts) * 86400
        + tm_hour ts * 3600 + tm_min ts * 60 + tm_sec ts);
  fromtimestamp t :=
    let '(y, m, d) := civil_from_days (t / 86400) in
    let '(y0, _, _) := civil_from_days ((t - 86400) / 86400) in
    let r := t mod 86400 in
    if (1 <=? y0) && (y <=? 9999)
    then Ok {| year := y; month := m; day := d;
               hour := r / 3600; minute := r mod 3600 / 60; second := r mod 60 |}
    else Raise ValueError
|}.
End UTC.

(** ** Fixed-width fields *)

(** Two and three decimal digits, written out. *)
Definition two_digits (n : Z) : str :=
  [digit_char (n / 10); digit_char (n mod 10)].

Definition three_digits (n : Z) : str :=
  [digit_char (n / 100); digit_char (n / 10 mod 10); digit_char (n mod 10)].

(** The fixed pattern [MM:SS<marker>mmm], or [HH:MM:SS<marker>mmm] when the
    hours are shown: the length of the string and the places of the colons
    and of the decimal marker. *)
Definition fits_fixed_pattern (hours_shown : bool) (marker s : str) : Prop :=
  let off := if hours_shown then 3%nat else 0%nat in
  length s = (off + 5 + length marker + 3)%nat
  /\ (hours_shown = true -> s !! 2%nat = Some 58%N)
  /\ s !! (off + 2)%nat = Some 58%N
  /\ take (length marker) (drop (off + 5) s) = marker.

(** A string with every tab turned into a space. *)
Definition untab (s : str) : str :=
  map (fun c => if (c =? 9)%N then 32%N else c) s.

(** A segment whose times stay finite in milliseconds. *)
Definition finite_times (segment : Segment) : Prop :=
  float_is_finite (float_mul f1000 (start segment)) = true
  /\ float_is_finite (float_mul f1000 (end_ segment)) = true.

(** The milliseconds [round(1000 * x)] of a time whose rounding is defined. *)
Definition millis (x : float) : Z :=
  match py_round (float_mul f1000 x) with
  | Ok a => a
  | Raise _ => 0
  end.

(** The line of a segment in the TSV file. *)
Definition tsv_row (segment : Segment) : str :=
  str_of_int (millis (start segment)) ++ tab
  ++ str_of_int (millis (end_ segment)) ++ tab
  ++ untab (strip (text segment)) ++ nl.

(** A segment from 1.5 s to 2.5 s whose text has a tab inside and spaces
    around. *)
Definition tsv_sample : Segment :=
  {| start := float_of 3 (-1); end_ := float_of 5 (-1);
     text := pys " a" ++ tab ++ pys "b " |}.

(** ** The metadata record, field by field *)

Section Fields.
Context `{LocalTime}.

(** The local [datetime] of a broken-down time: [mktime], then
    [fromtimestamp], inside [try ... except ValueError: return None]. *)
Definition local_datetime (ts : struct_time) : outcome (option datetime) :=
  match mktime ts ≫= fromtimestamp with
  | Ok dt => Ok (Some dt)
  | Raise e => if is_ValueError e then Ok None else Raise e
  end.

(** The names held by a value: trimmed, split at [sep], each part trimmed;
    nothing when the value does not decode or is blank. *)
Definition names_of (sep : str) (value : pdfvalue) : option mdvalue :=
  match decode value with
  | Ok s =>
      if (0 <? length (strip s))%nat
      then Some (MList (map strip (split sep (strip s))))
      else None
  | Raise _ => None
  end.

Definition title_of (value : pdfvalue) : option mdvalue :=
  match decode value with
  | Ok s => if (0 <? length (strip s))%nat then Some (MStr (strip s)) else None
  | Raise _ => None
  end.

Definition date_of (value : pdfvalue) : option mdvalue :=
  match decode value ≫= to_date with
  | Ok (Some dt) => Some (MStr (isoformat dt))
  | _ => None
  end.

Definition properties_of (pages : Z) : mdvalue :=
  MDict {[ "kind" := MStr (pys "text");
           "attrs" := MDict {[ "pages" := MInt pages ]} ]}.

(** What the record holds under [k] for the dictionary [items]: each
    optional field is a function of the value of its own key. *)
Definition expected (items : gmap str pdfvalue) (pages : Z) (k : string)
    : option mdvalue :=
  if decide (k = "properties") then Some (properties_of pages)
  else if decide (k = "authors") then items !! pys "Author" ≫= names_of (pys ";")
  else if decide (k = "title") then items !! pys "Title" ≫= title_of
  else if decide (k = "keywords") then items !! pys "Keywords" ≫= names_of (pys ",")
  else if decide (k = "createdAt") then items !! pys "CreationDate" ≫= date_of
  else if decide (k = "updatedAt") then items !! pys "ModDate" ≫= date_of
  else None.

(** [metadata[name] = v] when there is a [v]. *)
Definition set_field (name : string) (o : option mdvalue)
    (metadata : gmap string mdvalue) : gmap string mdvalue :=
  match o with
  | Some v => <[name := v]> metadata
  | None => metadata
  end.

(** The dictionary the loop runs over: the first of [doc.info], if any. *)
Definition items_of (doc : PDFDocument) : gmap str pdfvalue :=
  match info doc with
  | items :: _ => items
  | [] => ∅
  end.
End Fields.

(** ** Measures of a pattern *)

(** The least and the greatest number of characters a pattern matches. *)
Fixpoint min_len (r : regex) : nat :=
  match r with
  | Cls _ => 1
  | Cat r1 r2 => min_len r1 + min_len r2
  | Alt r1 r2 => Nat.min (min_len r1) (min_len r2)
  | Group _ r' => min_len r'
  end.

Fixpoint max_len (r : regex) : nat :=
  match r with
  | Cls _ => 1
  | Cat r1 r2 => max_len r1 + max_len r2
  | Alt r1 r2 => Nat.max (max_len r1) (max_len r2)
  | Group _ r' => max_len r'
  end.

(** Every class of the pattern holds only characters with the property. *)
Fixpoint classes_within (P : N -> Prop) (r : regex) : Prop :=
  match r with
  | Cls p => forall c, p c = true -> P c
  | Cat r1 r2 | Alt r1 r2 => classes_within P r1 /\ classes_within P r2
  | Group _ r' => classes_within P r'
  end.

(** The matches of a field on two ASCII digits [a] and [b]: the two digits
    when [two] holds, then the first digit alone when [one] holds. *)
Definition field_matches (name : string) (two one : bool) (a b : Z) (rest : str)
    : list (list (string * str) * str * str) :=
  (if two then [([(name, [digit_char a; digit_char b])],
                 [digit_char a; digit_char b], rest)] else [])
  ++ (if one then [([(name, [digit_char a])], [digit_char a],
                    digit_char b :: rest)] else []).

(** The text of four digits. *)
Definition four_digits (n : Z) : str :=
  [digit_char (n / 1000); digit_char (n / 100 mod 10);
   digit_char (n / 10 mod 10); digit_char (n mod 10)].

(** The fourteen digits of a date and a time. *)
Definition core (Y m d H M S : Z) : str :=
  four_digits Y ++ two_digits m ++ two_digits d
  ++ two_digits H ++ two_digits M ++ two_digits S.

(** The fields are those of a date that exists and of a time of the day
    (with up to 61 seconds, as [%S] allows). *)
Definition fields_valid (Y m d H M S : Z) : bool :=
  date_exists Y m d && (H <=? 23) && (M <=? 59) && (S <=? 61).

(** The text of a list of digits. *)
Definition digits_text (ds : list Z) : str := map digit_char ds.

(** The two digits of month, day, hour, minute and second are values the
    pattern takes as two digits. *)
Definition pattern_allows (m1 m2 d1 d2 h1 h2 n1 n2 s1 s2 : Z) : bool :=
  ((1 <=? 10 * m1 + m2) && (10 * m1 + m2 <=? 12))
  && ((1 <=? 10 * d1 + d2) && (10 * d1 + d2 <=? 31))
  && (10 * h1 + h2 <=? 23) && (10 * n1 + n2 <=? 59) && (10 * s1 + s2 <=? 61).

(** Dumping and loading gives the object back. *)
Definition round_trips (float_repr : float -> str) (obj : WriteJSON.pyobj) : Prop :=
  WriteJSON.native obj = true ->
  exists j, WriteJSON.dump float_repr obj = Ok j /\ WriteJSON.load j = obj.

(** ** Naming the output file *)

(** [os.path.basename(p)] on a POSIX host: what follows the last ['/'];
    [cur] is the component being read, last character first. *)
Fixpoint basename_from (cur : str) (p : str) : str :=
  match p with
  | [] => rev cur
  | c :: p' =>
      if (c =? 47)%N then basename_from [] p' else basename_from (c :: cur) p'
  end.

Definition basename (p : str) : str := basename_from [] p.

(** [s.endswith(p)] *)
Definition endswith (p s : str) : bool := startswith (rev p) (rev s).

(** [os.path.join(a, b)] on a POSIX host. *)
Definition path_join (a b : str) : str :=
  if startswith (pys "/") b then b
  else if bool_decide (a = []) || endswith (pys "/") a then a ++ b
  else a ++ pys "/" ++ b.

(** The classes of writers. The base class declares [extension] without
    giving it a value, so reading it raises [AttributeError]. *)
Inductive writer :=
| Base
| TXT
| VTT
| SRT
| TSV
| JSON.

(** [self.extension] *)
Definition extension_of (w : writer) : outcome str :=
  match w with
  | Base => Raise AttributeError
  | TXT => Ok WriteTXT.extension
  | VTT => Ok WriteVTT.extension
  | SRT => Ok WriteSRT.extension
  | TSV => Ok WriteTSV.extension
  | JSON => Ok WriteJSON.extension
  end.

(** The path [ResultWriter.__call__] opens for writing. *)
Definition output_path (w : writer) (output_dir audio_path : str) : outcome str :=
  let audio_basename := basename audio_path in
  extension ← extension_of w;
  Ok (path_join output_dir (audio_basename ++ pys "." ++ extension)).

(** ** What the writers print *)

(** The timestamp of a number of milliseconds. *)
Definition clock (ms : Z) (always_include_hours : bool) (marker : str) : str :=
  (if always_include_hours || (0 <? ms / 3600000)
   then format_0d 2 (ms / 3600000) ++ pys ":" else [])
  ++ two_digits (ms mod 3600000 / 60000) ++ pys ":"
  ++ two_digits (ms mod 60000 / 1000) ++ marker ++ three_digits (ms mod 1000).

(** The line of a segment in the text file. *)
Definition txt_line (segment : Segment) : str := strip (text segment) ++ nl.

(** The cue of a segment in the WebVTT file. *)
Definition vtt_cue (segment : Segment) : str :=
  clock (millis (start segment)) false (pys ".") ++ pys " --> "
  ++ clock (millis (end_ segment)) false (pys ".") ++ nl
  ++ WriteVTT.cue_text segment ++ nl ++ nl.

(** The cue of a numbered segment in the SubRip file. *)
Definition srt_cue (numbered : Z * Segment) : str :=
  str_of_int (fst numbered) ++ nl
  ++ clock (millis (start (snd numbered))) true (pys ",") ++ pys " --> "
  ++ clock (millis (end_ (snd numbered))) true (pys ",") ++ nl
  ++ WriteSRT.cue_text (snd numbered) ++ nl ++ nl.

(** The exception [round] raises on a float that is not finite. *)
Definition round_error (x : float) : exn :=
  match x with
  | S754_nan => ValueError
  | _ => OverflowError
  end.

(** A string with no whitespace at either end. *)
Definition trimmed (s : str) : Prop :=
  match s with c :: _ => isspace c = false | [] => True end
  /\ match rev s with c :: _ => isspace c = false | [] => True end.

(** The exception the first time of a segment that is not finite in
    milliseconds makes [round] raise, if there is one. *)
Definition time_error (segment : Segment) : option exn :=
  if negb (float_is_finite (float_mul f1000 (start segment)))
  then Some (round_error (float_mul f1000 (start segment)))
  else if negb (float_is_finite (float_mul f1000 (end_ segment)))
  then Some (round_error (float_mul f1000 (end_ segment)))
  else None.

(** The header lines of the WebVTT and of the TSV file. *)
Definition vtt_header : str := pys "WEBVTT" ++ nl ++ nl.
Definition tsv_header : str :=
  pys "start" ++ tab ++ pys "end" ++ tab ++ pys "text" ++ nl.

(** What the TSV writer has written of the row of a segment when a time of
    the segment makes [round] raise: nothing when it is [start], the integer
    of [start] and a tab when it is [end]. *)
Definition tsv_partial (segment : Segment) : str :=
  if float_is_finite (float_mul f1000 (start segment))
  then str_of_int (millis (start segment)) ++ tab
  else [].

(** A segment that ends at infinity, and one that starts there. *)
Definition endless_sample : Segment :=
  {| start := float_of 7 (-1); end_ := S754_infinity false; text := pys "z" |}.

Definition startless_sample : Segment :=
  {| start := S754_infinity false; end_ := float_of 7 (-1); text := pys "z" |}.

(** ** The shape of the record *)

(** A list of names as the record holds it: not empty, each name without
    whitespace at either end and without the separator (a name can be
    empty). *)
Definition names_shape (sep : N) (v : mdvalue) : Prop :=
  exists l, v = MList l /\ l <> []
            /\ Forall (fun name => trimmed name /\ sep ∉ name) l.

(** What a key of the record can hold. *)
Definition field_shape (pages : Z) (k : string) (v : mdvalue) : Prop :=
  if decide (k = "properties") then v = properties_of pages
  else if decide (k = "authors") then names_shape 59 v
  else if decide (k = "title") then exists s, v = MStr s /\ s <> [] /\ trimmed s
  else if decide (k = "keywords") then names_shape 44 v
  else if decide (k = "createdAt") then exists dt, v = MStr (isoformat dt)
  else if decide (k = "updatedAt") then exists dt, v = MStr (isoformat dt)
  else False.

(** The keys of the information dictionary the loop looks at. *)
Definition read_keys : list str :=
  [pys "Author"; pys "Title"; pys "Keywords"; pys "CreationDate"; pys "ModDate"].

(** ** What [json.dump] accepts *)

(** Induction on documents, with the hypothesis for the elements of an
    array and the values of an object. *)
Section json_nested_ind.
Variable P : WriteJSON.json -> Prop.
Hypothesis HNull : P WriteJSON.JNull.
Hypothesis HBool : forall b, P (WriteJSON.JBool b).
Hypothesis HInt : forall z, P (WriteJSON.JInt z).
Hypothesis HFloat : forall x, P (WriteJSON.JFloat x).
Hypothesis HString : forall s, P (WriteJSON.JString s).
Hypothesis HArray : forall l, Forall P l -> P (WriteJSON.JArray l).
Hypothesis HObject :
  forall members, Forall (fun m => P (snd m)) members -> P (WriteJSON.JObject members).

Fixpoint json_nested_ind (j : WriteJSON.json) : P j :=
  match j with
  | WriteJSON.JNull => HNull
  | WriteJSON.JBool b => HBool b
  | WriteJSON.JInt z => HInt z
  | WriteJSON.JFloat x => HFloat x
  | WriteJSON.JString s => HString s
  | WriteJSON.JArray l =>
      HArray l ((fix all (l : list WriteJSON.json) : Forall P l :=
                   match l with
                   | [] => List.Forall_nil P
                   | x :: l' => List.Forall_cons P x l' (json_nested_ind x) (all l')
                   end) l)
  | WriteJSON.JObject members =>
      HObject members
        ((fix all (ms : list (str * WriteJSON.json))
            : Forall (fun m => P (snd m)) ms :=
            match ms with
            | [] => List.Forall_nil _
            | m :: ms' =>
                List.Forall_cons (fun m => P (snd m)) m ms'
                  (json_nested_ind (snd m)) (all ms')
            end) members)
  end.
End json_nested_ind.





(** A dict as [json.load] builds it: its keys are strings and distinct,
    its values native. *)
Definition normal (obj : WriteJSON.pyobj) : Prop :=
  match obj with
  | WriteJSON.PyDict d =>
      Forall (fun kv => exists s, fst kv = WriteJSON.PyStr s) d
      /\ NoDup (map (fun kv => WriteJSON.str_key (fst kv)) d)
      /\ Forall (fun kv => WriteJSON.native (snd kv) = true) d
  | _ => False
  end.

(** * Properties *)

(** ** Examples *)

Example f1000_is_1000 : float_of 1000 0 = f1000.
Proof. reflexivity. Qed.

Example format_timestamp_zero : format_timestamp (S754_zero false) false (pys ".") = Ok (pys "00:00.000").
Proof. reflexivity. Qed.

Example format_timestamp_hour_minute_second : format_timestamp (float_of 7323 (-1)) true (pys ".") = Ok (pys "01:01:01.500").
Proof. vm_compute. reflexivity. Qed.

Example to_date_full :
  to_date (H := UTC.local_time) (pys "D:20230101120000+00'00'")
  = Ok (Some {| year := 2023; month := 1; day := 1; hour := 12; minute := 0; second := 0 |}).
Proof. vm_compute. reflexivity. Qed.

Example to_date_short :
  to_date (H := UTC.local_time) (pys "D:2023111111+00'00'")
  = Ok (Some {| year := 2023; month := 11; day := 1; hour := 1; minute := 1; second := 1 |}).
Proof. vm_compute. reflexivity. Qed.

Example to_date_no_suffix : to_date (H := UTC.local_time) (pys "D:20230101120000") = Ok None.
Proof. vm_compute. reflexivity. Qed.

Example metadata_keywords :
  get_document_metadata (H := UTC.local_time)
    {| info := [ {[ pys "Keywords" := PBytes (pyb "a, b ,c") ]} ] |} 3 !! "keywords"
  = Some (MList [pys "a"; pys "b"; pys "c"]).
Proof. vm_compute. reflexivity. Qed.

(** Linear arithmetic with division and remainder by constants. *)
Ltac euclid := Z.to_euclidean_division_equations; lia.

(** ** Decimal digits *)

Lemma digits_from_app fuel n acc :
  digits_from fuel n acc = digits_from fuel n [] ++ acc.
Proof.
  revert n acc. induction fuel as [|fuel IH]; intros n acc; cbn [digits_from].
  - reflexivity.
  - destruct (n <? 10); [reflexivity|].
    rewrite IH, (IH _ [_]), <- app_assoc. reflexivity.
Qed.

Lemma digits_from_fuel f1 f2 n acc :
  (0 < f1)%nat -> (0 < f2)%nat ->
  0 <= n < 2 ^ Z.of_nat f1 -> n < 2 ^ Z.of_nat f2 ->
  digits_from f1 n acc = digits_from f2 n acc.
Proof.
  revert f2 n acc. induction f1 as [|f1 IH]; intros f2 n acc H1 H2 Hn1 Hn2; [lia|].
  destruct f2 as [|f2]; [lia|]. cbn [digits_from].
  destruct (Z.ltb_spec n 10) as [Hlt|Hge]; [reflexivity|].
  rewrite !Nat2Z.inj_succ, !Z.pow_succ_r in * by lia.
  assert (1 <= n / 10) by (apply Z.div_le_lower_bound; lia).
  assert (n / 10 < 2 ^ Z.of_nat f1) by (apply Z.div_lt_upper_bound; lia).
  assert (n / 10 < 2 ^ Z.of_nat f2) by (apply Z.div_lt_upper_bound; lia).
  apply IH; try lia.
  - destruct f1; [simpl in *; lia | lia].
  - destruct f2; [simpl in *; lia | lia].
Qed.

Lemma dec_digits_small n : 0 <= n < 10 -> dec_digits n = [digit_char n].
Proof.
  intros Hn. unfold dec_digits. cbn [digits_from].
  destruct (Z.ltb_spec n 10); [|lia]. rewrite Z.mod_small by lia. reflexivity.
Qed.

Lemma dec_digits_step n :
  10 <= n -> dec_digits n = dec_digits (n / 10) ++ [digit_char (n mod 10)].
Proof.
  intros Hn. unfold dec_digits at 1. cbn [digits_from].
  destruct (Z.ltb_spec n 10); [lia|].
  rewrite digits_from_app. f_equal. unfold dec_digits.
  assert (1 <= n / 10) by (apply Z.div_le_lower_bound; lia).
  pose proof (Z.log2_spec n ltac:(lia)) as [_ Hhi].
  pose proof (Z.log2_spec (n / 10) ltac:(lia)) as [_ Hhi'].
  pose proof (Z.log2_nonneg n). pose proof (Z.log2_nonneg (n / 10)).
  assert (0 < Z.log2 n).
  { apply Z.log2_pos. lia. }
  rewrite Z.pow_succ_r in Hhi by lia.
  apply digits_from_fuel; try lia.
  - rewrite Z2Nat.id by lia. split; [lia|]. apply Z.div_lt_upper_bound; lia.
  - rewrite Nat2Z.inj_succ, Z2Nat.id by lia. exact Hhi'.
Qed.

Lemma dec_digits_length_le (k : nat) n :
  0 <= n < 10 ^ Z.of_nat (S k) -> (length (dec_digits n) <= S k)%nat.
Proof.
  revert n. induction k as [|k IH]; intros n Hn.
  - rewrite dec_digits_small by (simpl in Hn; lia). simpl. lia.
  - destruct (Z.ltb_spec n 10) as [Hlt|Hge].
    + rewrite dec_digits_small by lia. simpl. lia.
    + rewrite dec_digits_step, length_app by lia. simpl.
      rewrite Nat2Z.inj_succ, Z.pow_succ_r in Hn by lia.
      assert (0 <= n / 10) by (apply Z.div_pos; lia).
      assert (n / 10 < 10 ^ Z.of_nat (S k)) by (apply Z.div_lt_upper_bound; lia).
      specialize (IH (n / 10) ltac:(lia)). lia.
Qed.

Lemma dec_digits_length_gt (k : nat) n :
  10 ^ Z.of_nat k <= n -> (k < length (dec_digits n))%nat.
Proof.
  revert n. induction k as [|k IH]; intros n Hn.
  - simpl in Hn. destruct (Z.ltb_spec n 10) as [Hlt|Hge].
    + rewrite dec_digits_small by lia. simpl. lia.
    + rewrite dec_digits_step, length_app by lia. simpl. lia.
  - rewrite Nat2Z.inj_succ, Z.pow_succ_r in Hn by lia.
    assert (0 < 10 ^ Z.of_nat k) by (apply Z.pow_pos_nonneg; lia).
    rewrite dec_digits_step, length_app by lia. simpl.
    assert (10 ^ Z.of_nat k <= n / 10) by (apply Z.div_le_lower_bound; lia).
    specialize (IH (n / 10) ltac:(lia)). lia.
Qed.

Lemma format_0d_nonneg w n :
  0 <= n ->
  format_0d w n = repeat 48%N (w - length (dec_digits n)) ++ dec_digits n.
Proof.
  intros Hn. unfold format_0d. destruct (Z.ltb_spec n 0); [lia|].
  rewrite Z.abs_eq by lia. simpl. rewrite Nat.sub_0_r. reflexivity.
Qed.

Lemma format_0d_two n : 0 <= n < 100 -> format_0d 2 n = two_digits n.
Proof.
  intros Hn. rewrite format_0d_nonneg by lia. unfold two_digits.
  destruct (Z.ltb_spec n 10) as [Hlt|Hge].
  - rewrite dec_digits_small, Z.div_small, Z.mod_small by lia. reflexivity.
  - assert (0 <= n / 10 < 10)
      by (split; [apply Z.div_pos | apply Z.div_lt_upper_bound]; lia).
    rewrite dec_digits_step, dec_digits_small by lia. reflexivity.
Qed.

Lemma format_0d_three n : 0 <= n < 1000 -> format_0d 3 n = three_digits n.
Proof.
  intros Hn. rewrite format_0d_nonneg by lia. unfold three_digits.
  destruct (Z.ltb_spec n 10) as [Hlt|Hge].
  - rewrite dec_digits_small by lia.
    rewrite (Z.div_small n 100), (Z.div_small n 10), Z.mod_small by lia.
    rewrite Z.mod_small by lia. reflexivity.
  - assert (0 <= n / 10 < 100)
      by (split; [apply Z.div_pos | apply Z.div_lt_upper_bound]; lia).
    rewrite dec_digits_step by lia.
    replace (n / 100) with (n / 10 / 10) by (rewrite Z.div_div by lia; reflexivity).
    destruct (Z.ltb_spec (n / 10) 10) as [Hlt'|Hge'].
    + rewrite dec_digits_small by lia.
      rewrite (Z.div_small (n / 10)), (Z.mod_small (n / 10)) by lia. reflexivity.
    + assert (0 <= n / 10 / 10 < 10)
        by (split; [apply Z.div_pos | apply Z.div_lt_upper_bound]; lia).
      rewrite dec_digits_step, dec_digits_small by lia. reflexivity.
Qed.

Lemma format_0d_wide (w : nat) n :
  10 ^ Z.of_nat w <= n ->
  format_0d w n = dec_digits n /\ (w < length (dec_digits n))%nat.
Proof.
  intros Hn. assert (0 < 10 ^ Z.of_nat w) by (apply Z.pow_pos_nonneg; lia).
  pose proof (dec_digits_length_gt w n Hn) as Hlen.
  rewrite format_0d_nonneg by lia.
  replace (w - length (dec_digits n))%nat with 0%nat by lia. auto.
Qed.

(** ** Rounding a non-negative float *)

Lemma binary_round_aux_sign prec emax sx mx ex lx :
  match binary_round_aux prec emax sx mx ex lx with
  | S754_zero s | S754_infinity s | S754_finite s _ _ => s = sx
  | S754_nan => True
  end.
Proof.
  unfold binary_round_aux.
  destruct (shr_fexp prec emax mx ex lx) as [mrs' e'].
  destruct (shr_fexp prec emax _ e' loc_Exact) as [mrs'' e''].
  destruct (shr_m mrs''); [reflexivity | | exact I].
  destruct (e'' <=? emax - prec); reflexivity.
Qed.

Lemma round_half_even_nonneg m e : 0 <= round_half_even m e.
Proof.
  unfold round_half_even. destruct e as [|p|p].
  - lia.
  - assert (0 < 2 ^ Z.pos p) by (apply Z.pow_pos_nonneg; lia). lia.
  - assert (0 < 2 ^ Z.pos p) by (apply Z.pow_pos_nonneg; lia).
    assert (0 <= Z.pos m / 2 ^ Z.pos p) by (apply Z.div_pos; lia).
    destruct (2 * (Z.pos m mod 2 ^ Z.pos p) ?= 2 ^ Z.pos p); [|lia|lia].
    destruct (Z.even _); lia.
Qed.

(** The rounding is to a nearest integer, and to the even one of two. *)
Lemma round_half_even_nearest m p :
  let d := 2 ^ Z.pos p in
  let k := round_half_even m (Z.neg p) in
  Z.abs (2 * (k * d - Z.pos m)) <= d
  /\ (Z.abs (2 * (k * d - Z.pos m)) = d -> Z.even k = true).
Proof.
  intros d k. subst k. unfold round_half_even. fold d.
  assert (Hd : 0 < d) by (apply Z.pow_pos_nonneg; lia).
  pose proof (Z.div_mod (Z.pos m) d ltac:(lia)) as Hdm.
  pose proof (Z.mod_pos_bound (Z.pos m) d Hd) as Hr.
  set (q := Z.pos m / d) in *. set (r := Z.pos m mod d) in *.
  destruct (Z.compare_spec (2 * r) d) as [Heq|Hlt|Hgt].
  - destruct (Z.even q) eqn:Hq.
    + split; [nia|auto].
    + split; [nia|]. intros _. rewrite Z.even_add, Hq. reflexivity.
  - split; [nia|nia].
  - split; [nia|nia].
Qed.

Lemma py_round_mul_nonneg x y :
  float_nonneg x = true -> float_nonneg y = true ->
  float_is_finite (float_mul x y) = true ->
  exists ms, py_round (float_mul x y) = Ok ms /\ 0 <= ms.
Proof.
  intros Hx Hy Hfin. unfold float_mul in *.
  destruct x as [sx|sx| |sx mx ex], y as [sy|sy| |sy my ey];
    try discriminate; cbn [SFmul] in *; try (exists 0; split; [reflexivity|lia]).
  cbn [float_nonneg] in Hx, Hy.
  apply negb_true_iff in Hx, Hy. subst sx sy.
  pose proof (binary_round_aux_sign 53 1024 (xorb false false)
                (Z.pos (mx * my)) (ex + ey) loc_Exact) as Hs.
  destruct (binary_round_aux 53 1024 _ _ _ _) as [s|s| |s m e]; try discriminate.
  - exists 0. split; [reflexivity|lia].
  - cbn [py_round]. rewrite Hs. cbn [xorb cond_Zopp].
    eexists. split; [reflexivity|]. apply round_half_even_nonneg.
Qed.

(** ** [format_timestamp] *)

(** The string for a number of milliseconds, with the fields obtained by
    division and remainder. *)
Lemma format_timestamp_fields seconds always_include_hours decimal_marker ms :
  py_round (float_mul seconds f1000) = Ok ms -> 0 <= ms ->
  format_timestamp seconds always_include_hours decimal_marker
  = Ok ((if negb always_include_hours && (ms / 3600000 =? 0) then []
         else format_0d 2 (ms / 3600000) ++ pys ":")
        ++ two_digits (ms mod 3600000 / 60000) ++ pys ":"
        ++ two_digits (ms mod 60000 / 1000) ++ decimal_marker
        ++ three_digits (ms mod 1000)).
Proof.
  intros Hr Hms. unfold format_timestamp. rewrite Hr. cbn [mbind outcome_bind].
  set (h := ms / 3600000).
  assert (Hh : 0 <= h) by (apply Z.div_pos; lia).
  replace (ms - h * 3600000) with (ms mod 3600000) by (unfold h; euclid).
  set (ms1 := ms mod 3600000).
  replace (ms1 - ms1 / 60000 * 60000) with (ms mod 60000) by (unfold ms1; euclid).
  set (ms2 := ms mod 60000).
  replace (ms2 - ms2 / 1000 * 1000) with (ms mod 1000) by (unfold ms2; euclid).
  rewrite (format_0d_two (ms1 / 60000)), (format_0d_two (ms2 / 1000)),
    format_0d_three by (unfold ms1, ms2; euclid).
  f_equal. f_equal.
  destruct always_include_hours; cbn [orb negb andb]; [reflexivity|].
  destruct (Z.ltb_spec 0 h), (Z.eqb_spec h 0); try lia; reflexivity.
Qed.

(** C1. For a non-negative [seconds] whose product with [1000.0] is finite,
    [format_timestamp] rounds the product to the integer [ms] of
    milliseconds, splits [ms] by successive division into hours, minutes
    (below 60), seconds (below 60) and milliseconds (below 1000), writes
    minutes and seconds with two digits and milliseconds with three, pads the
    hours to two digits, and leaves the hours and their colon out exactly
    when the hours are 0 and [always_include_hours] is false.  Moreover
    [format_timestamp(0)] is ["00:00.000"] and
    [format_timestamp(3661.5, always_include_hours=True)] is
    ["01:01:01.500"]. *)
Theorem format_timestamp_spec :
  (forall (seconds : float) (always_include_hours : bool) (decimal_marker : str),
      float_nonneg seconds = true ->
      float_is_finite (float_mul seconds f1000) = true ->
      exists ms,
        py_round (float_mul seconds f1000) = Ok ms /\ 0 <= ms /\
        let h := ms / 3600000 in
        let m := ms mod 3600000 / 60000 in
        let s := ms mod 60000 / 1000 in
        let r := ms mod 1000 in
        ms = ((h * 60 + m) * 60 + s) * 1000 + r
        /\ 0 <= h /\ 0 <= m < 60 /\ 0 <= s < 60 /\ 0 <= r < 1000
        /\ format_timestamp seconds always_include_hours decimal_marker
           = Ok ((if negb always_include_hours && (h =? 0) then []
                  else format_0d 2 h ++ pys ":")
                 ++ two_digits m ++ pys ":" ++ two_digits s
                 ++ decimal_marker ++ three_digits r)
        /\ (h < 100 -> format_0d 2 h = two_digits h)
        /\ (100 <= h -> format_0d 2 h = dec_digits h))
  /\ format_timestamp (S754_zero false) false (pys ".") = Ok (pys "00:00.000")
  /\ format_timestamp (float_of 7323 (-1)) true (pys ".") = Ok (pys "01:01:01.500").
Proof.
  split; [|split; vm_compute; reflexivity].
  intros seconds aih mk Hnn Hfin.
  destruct (py_round_mul_nonneg seconds f1000 Hnn eq_refl Hfin) as (ms & Hr & Hms).
  exists ms. split; [exact Hr|]. split; [exact Hms|]. cbv zeta.
  assert (0 <= ms / 3600000) by (apply Z.div_pos; lia).
  repeat split; try euclid.
  - apply format_timestamp_fields; assumption.
  - intros Hh. apply format_0d_two. lia.
  - intros Hh. apply (format_0d_wide 2). exact Hh.
Qed.

Lemma format_timestamp_spec_witness :
  float_nonneg (float_of 7323 (-1)) = true
  /\ float_is_finite (float_mul (float_of 7323 (-1)) f1000) = true
  /\ exists ms, py_round (float_mul (float_of 7323 (-1)) f1000) = Ok ms /\ 0 <= ms.
Proof.
  split; [reflexivity|]. split; [reflexivity|].
  destruct (proj1 format_timestamp_spec (float_of 7323 (-1)) true (pys ".")
              eq_refl eq_refl) as (ms & Hr & Hms & _).
  exists ms. split; assumption.
Defined.

(** ** Reading digits back *)

Lemma decimal_value_digit_char d :
  0 <= d <= 9 -> decimal_value (digit_char d) = Some d.
Proof.
  intros Hd.
  assert (d = 0 \/ d = 1 \/ d = 2 \/ d = 3 \/ d = 4 \/ d = 5 \/ d = 6
          \/ d = 7 \/ d = 8 \/ d = 9) as Hc by lia.
  repeat (destruct Hc as [->|Hc]; [reflexivity|]). subst d. reflexivity.
Qed.

Lemma digits_value_app acc s1 s2 :
  digits_value acc (s1 ++ s2) = digits_value acc s1 ≫= fun v => digits_value v s2.
Proof.
  revert acc. induction s1 as [|c s1 IH]; intros acc; cbn [digits_value app].
  - reflexivity.
  - destruct (decimal_value c); [apply IH | reflexivity].
Qed.

Lemma digits_value_dec_digits n :
  0 <= n -> digits_value 0 (dec_digits n) = Some n.
Proof.
  intros Hn.
  assert (exists k : nat, n < 10 ^ Z.of_nat (S k)) as [k Hk].
  { exists (Z.to_nat n). rewrite Nat2Z.inj_succ, Z2Nat.id by lia.
    pose proof (Z.pow_gt_lin_r 10 (Z.succ n) ltac:(lia) ltac:(lia)). lia. }
  revert n Hn Hk. induction k as [|k IH]; intros n Hn Hk.
  - simpl in Hk. rewrite dec_digits_small by lia. cbn [digits_value].
    rewrite decimal_value_digit_char by lia. f_equal.
  - destruct (Z.ltb_spec n 10) as [Hlt|Hge].
    + rewrite dec_digits_small by lia. cbn [digits_value].
      rewrite decimal_value_digit_char by lia. f_equal.
    + rewrite Nat2Z.inj_succ, Z.pow_succ_r in Hk by lia.
      rewrite dec_digits_step, digits_value_app by lia.
      rewrite IH; [| apply Z.div_pos; lia | apply Z.div_lt_upper_bound; lia].
      cbn [mbind option_bind digits_value].
      rewrite decimal_value_digit_char by euclid. f_equal. euclid.
Qed.

Lemma digits_value_zeros j s :
  digits_value 0 (repeat 48%N j ++ s) = digits_value 0 s.
Proof. induction j as [|j IH]; [reflexivity | exact IH]. Qed.

(** The hours field spells the number of hours, whatever its width. *)
Lemma digits_value_format_0d w n :
  0 <= n -> digits_value 0 (format_0d w n) = Some n.
Proof.
  intros Hn. rewrite format_0d_nonneg, digits_value_zeros by lia.
  apply digits_value_dec_digits. exact Hn.
Qed.

Lemma py_round_Ok_finite x ms : py_round x = Ok ms -> float_is_finite x = true.
Proof. destruct x; [reflexivity | discriminate | discriminate | reflexivity]. Qed.

Lemma fits_two_digit_hours h m s r marker :
  fits_fixed_pattern true marker
    (two_digits h ++ pys ":" ++ two_digits m ++ pys ":" ++ two_digits s
       ++ marker ++ three_digits r).
Proof.
  unfold fits_fixed_pattern. cbn [two_digits app pys map list_ascii_of_string].
  split; [|split; [|split]].
  - cbn [length]. rewrite length_app. cbn [three_digits length]. lia.
  - reflexivity.
  - reflexivity.
  - cbn [drop Nat.add]. apply take_app_length.
Qed.

Lemma fits_no_hours m s r marker :
  fits_fixed_pattern false marker
    (two_digits m ++ pys ":" ++ two_digits s ++ marker ++ three_digits r).
Proof.
  unfold fits_fixed_pattern. cbn [two_digits app pys map list_ascii_of_string].
  split; [|split; [|split]].
  - cbn [length]. rewrite length_app. cbn [three_digits length]. lia.
  - discriminate.
  - reflexivity.
  - cbn [drop Nat.add]. apply take_app_length.
Qed.

Lemma format_timestamp_Ok t always_include_hours marker s :
  float_nonneg t = true ->
  format_timestamp t always_include_hours marker = Ok s ->
  exists ms, py_round (float_mul t f1000) = Ok ms /\ 0 <= ms.
Proof.
  intros Hnn Hs. unfold format_timestamp in Hs.
  destruct (py_round (float_mul t f1000)) as [ms|e] eqn:Hr; [|discriminate].
  destruct (py_round_mul_nonneg t f1000 Hnn eq_refl (py_round_Ok_finite _ _ Hr))
    as (ms' & Hr' & Hms').
  exists ms. split; [reflexivity|]. congruence.
Qed.

(** C2, as stated, fails at 100 hours: [format_timestamp(360000.0)] is
    ["100:00:00.000"], one character longer than [HH:MM:SS.mmm], with its
    first colon at index 3. *)
Lemma format_timestamp_hundred_hours :
  float_nonneg (float_of 360000 0) = true
  /\ format_timestamp (float_of 360000 0) false (pys ".") = Ok (pys "100:00:00.000")
  /\ ~ fits_fixed_pattern true (pys ".") (pys "100:00:00.000").
Proof.
  split; [reflexivity|]. split; [vm_compute; reflexivity|].
  intros (Hlen & _). vm_compute in Hlen. discriminate.
Qed.

(** C2, amended. For every [t >= 0] on which [format_timestamp] returns a
    string, minutes and seconds take two digits and milliseconds three, and
    the hours, when shown, are written in full with at least two digits:
    the field reads back as the number of hours.  The length of the string
    and the places of the colons and of the marker are those of the fixed
    pattern when the hours are below 100; from 100 hours on the hours field
    is wider and the string no longer fits the pattern. *)
Theorem format_timestamp_pattern (t : float) (always_include_hours : bool)
    (marker s : str) :
  float_nonneg t = true ->
  format_timestamp t always_include_hours marker = Ok s ->
  exists ms,
    py_round (float_mul t f1000) = Ok ms /\ 0 <= ms /\
    let h := ms / 3600000 in
    let shown := always_include_hours || (0 <? h) in
    s = (if shown then format_0d 2 h ++ pys ":" else [])
        ++ two_digits (ms mod 3600000 / 60000) ++ pys ":"
        ++ two_digits (ms mod 60000 / 1000) ++ marker
        ++ three_digits (ms mod 1000)
    /\ digits_value 0 (format_0d 2 h) = Some h
    /\ (2 <= length (format_0d 2 h))%nat
    /\ (h < 100 -> fits_fixed_pattern shown marker s)
    /\ (100 <= h -> ~ fits_fixed_pattern shown marker s).
Proof.
  intros Hnn Hs.
  destruct (format_timestamp_Ok _ _ _ _ Hnn Hs) as (ms & Hr & Hms).
  exists ms. split; [exact Hr|]. split; [exact Hms|]. cbv zeta.
  rewrite (format_timestamp_fields _ always_include_hours marker ms Hr Hms) in Hs.
  injection Hs as Hs.
  set (h := ms / 3600000) in *.
  assert (Hh : 0 <= h) by (apply Z.div_pos; lia).
  assert (Hshown : negb always_include_hours && (h =? 0)
                   = negb (always_include_hours || (0 <? h))).
  { destruct always_include_hours; [reflexivity|]. cbn [negb andb orb].
    destruct (Z.eqb_spec h 0), (Z.ltb_spec 0 h); try lia; reflexivity. }
  rewrite Hshown in Hs.
  assert (Hs' : s = (if always_include_hours || (0 <? h)
                     then format_0d 2 h ++ pys ":" else [])
                    ++ two_digits (ms mod 3600000 / 60000) ++ pys ":"
                    ++ two_digits (ms mod 60000 / 1000) ++ marker
                    ++ three_digits (ms mod 1000)).
  { rewrite <- Hs. destruct (always_include_hours || (0 <? h)); reflexivity. }
  clear Hs Hshown. split; [exact Hs'|].
  split; [apply digits_value_format_0d; exact Hh|].
  split; [|split].
  - destruct (Z.ltb_spec h 100) as [Hlt|Hge].
    + rewrite format_0d_two by lia. simpl. lia.
    + destruct (format_0d_wide 2 h Hge) as [-> Hlen]. lia.
  - intros Hlt. rewrite Hs'. destruct (always_include_hours || (0 <? h)).
    + rewrite format_0d_two, <- app_assoc by lia. apply fits_two_digit_hours.
    + apply fits_no_hours.
  - intros Hge (Hlen & _). revert Hlen. rewrite Hs'.
    assert (Hsh : always_include_hours || (0 <? h) = true).
    { destruct (Z.ltb_spec 0 h); [|lia]. apply orb_true_r. }
    rewrite Hsh. destruct (format_0d_wide 2 h Hge) as [-> Hwide].
    rewrite !length_app. simpl. lia.
Qed.

Lemma format_timestamp_pattern_witness :
  float_nonneg (float_of 360000 0) = true
  /\ format_timestamp (float_of 360000 0) false (pys ".") = Ok (pys "100:00:00.000")
  /\ exists ms, py_round (float_mul (float_of 360000 0) f1000) = Ok ms /\ 0 <= ms.
Proof.
  assert (Hs : format_timestamp (float_of 360000 0) false (pys ".")
               = Ok (pys "100:00:00.000")) by (vm_compute; reflexivity).
  split; [reflexivity|]. split; [exact Hs|].
  destruct (format_timestamp_pattern (float_of 360000 0) false (pys ".")
              (pys "100:00:00.000") eq_refl Hs) as (ms & Hr & Hms & _).
  exists ms. split; assumption.
Defined.

(** ** The writers *)



(** *** Where an arrow can survive *)

Lemma replace_arrow_match t :
  replace (pys "-->") (pys "->") (45 :: 45 :: 62 :: t)%N
  = (45 :: 62 :: replace (pys "-->") (pys "->") t)%N.
Proof. reflexivity. Qed.

Lemma replace_arrow_copy c s :
  startswith (pys "-->") (c :: s) = false ->
  replace (pys "-->") (pys "->") (c :: s)
  = c :: replace (pys "-->") (pys "->") s.
Proof. intros E. unfold replace. cbn [replace_from]. rewrite E. reflexivity. Qed.

Lemma startswith_arrow s :
  startswith (pys "-->") s = true -> exists t, s = (45 :: 45 :: 62 :: t)%N.
Proof.
  change (pys "-->") with [45; 45; 62]%N.
  destruct s as [|a [|b [|c t]]]; cbn [startswith];
    rewrite ?andb_false_r; try discriminate.
  rewrite andb_true_r. intros E.
  apply andb_true_iff in E as [Ea E]. apply andb_true_iff in E as [Eb Ec].
  apply N.eqb_eq in Ea, Eb, Ec. subst. eauto.
Qed.

Lemma contains_cons sub c s : contains sub s = true -> contains sub (c :: s) = true.
Proof. intros E. cbn [contains]. rewrite E. apply orb_true_r. Qed.

Lemma replace_arrow_head s :
  startswith [62%N] (replace (pys "-->") (pys "->") s) = true ->
  startswith [62%N] s = true.
Proof.
  destruct s as [|c s]; [discriminate|].
  destruct (startswith (pys "-->") (c :: s)) eqn:E.
  - apply startswith_arrow in E as (t & ->). rewrite replace_arrow_match. discriminate.
  - rewrite replace_arrow_copy by exact E. exact id.
Qed.

Lemma replace_arrow_head2 s :
  startswith [45; 62]%N (replace (pys "-->") (pys "->") s) = true ->
  startswith (pys "-->") s = true \/ startswith [45; 62]%N s = true.
Proof.
  destruct s as [|c s]; [discriminate|].
  destruct (startswith (pys "-->") (c :: s)) eqn:E; [left; reflexivity|].
  rewrite replace_arrow_copy by exact E. cbn [startswith].
  intros H. apply andb_true_iff in H as [Hc H]. right. rewrite Hc. cbn [andb].
  change (startswith [62%N] s = true). apply replace_arrow_head. exact H.
Qed.

(** After the replacement an arrow ["-->"] is left only where the text
    held ["--->"]. *)
Lemma replace_arrow_left s :
  contains (pys "-->") (replace (pys "-->") (pys "->") s) = true ->
  contains (pys "--->") s = true.
Proof.
  remember (length s) as n eqn:Hn. revert s Hn.
  induction n as [n IH] using lt_wf_ind. intros s Hn.
  destruct s as [|c s]; [discriminate|].
  destruct (startswith (pys "-->") (c :: s)) eqn:E.
  - apply startswith_arrow in E as (t & E). injection E as -> ->.
    rewrite replace_arrow_match. intros H. do 3 apply contains_cons.
    apply (IH (length t)); [cbn in Hn; lia | reflexivity |].
    cbn [contains] in H. exact H.
  - rewrite replace_arrow_copy by exact E. cbn [contains]. intros H.
    apply orb_true_iff in H as [H|H].
    + change (pys "-->") with [45; 45; 62]%N in H. cbn [startswith] in H.
      apply andb_true_iff in H as [Hc H]. apply N.eqb_eq in Hc. subst c.
      apply replace_arrow_head2 in H as [H|H].
      * apply startswith_arrow in H as (t & ->). reflexivity.
      * change (pys "-->") with [45; 45; 62]%N in E. cbn [startswith] in E, H.
        rewrite N.eqb_refl in E. cbn [andb] in E. congruence.
    + apply orb_true_iff. right.
      apply (IH (length s)); [cbn in Hn; lia | reflexivity | exact H].
Qed.

(** And where the text held ["--->"], an arrow is left. *)
Lemma replace_arrow_kept s :
  contains (pys "--->") s = true ->
  contains (pys "-->") (replace (pys "-->") (pys "->") s) = true.
Proof.
  remember (length s) as n eqn:Hn. revert s Hn.
  induction n as [n IH] using lt_wf_ind. intros s Hn.
  destruct s as [|c s]; [discriminate|].
  cbn [contains]. intros H. apply orb_true_iff in H as [H|H].
  - change (pys "--->") with [45; 45; 45; 62]%N in H.
    destruct s as [|b [|c' [|d t]]]; cbn [startswith] in H;
      rewrite ?andb_false_r in H; try discriminate.
    rewrite andb_true_r in H.
    apply andb_true_iff in H as [Ha H]. apply andb_true_iff in H as [Hb H].
    apply andb_true_iff in H as [Hc Hd].
    apply N.eqb_eq in Ha, Hb, Hc, Hd. subst. reflexivity.
  - destruct (startswith (pys "-->") (c :: s)) eqn:E.
    + apply startswith_arrow in E as (t & E). injection E as -> ->.
      rewrite replace_arrow_match. do 2 apply contains_cons.
      apply (IH (length t)); [cbn in Hn; lia | reflexivity |].
      cbn [contains] in H. exact H.
    + rewrite replace_arrow_copy by exact E. apply contains_cons.
      apply (IH (length s)); [cbn in Hn; lia | reflexivity | exact H].
Qed.

Lemma replace_arrow_contains s :
  contains (pys "-->") (replace (pys "-->") (pys "->") s)
  = contains (pys "--->") s.
Proof.
  destruct (contains (pys "--->") s) eqn:E.
  - apply replace_arrow_kept. exact E.
  - destruct (contains (pys "-->") _) eqn:E'; [|reflexivity].
    apply replace_arrow_left in E'. congruence.
Qed.

(** C3. The cue text written by the WebVTT and the SubRip writer holds a
    literal ["-->"] exactly when the trimmed text of the segment holds
    ["--->"]: the replacement of ["-->"] by ["->"] runs once, and a hyphen in
    front of an arrow makes a new arrow with what replaces it.  For the text
    ["--->"] both writers write the cue text ["-->"]. *)
Theorem arrow_survives_in_cue_text :
  (forall segment,
      contains (pys "-->") (WriteVTT.cue_text segment)
      = contains (pys "--->") (strip (text segment)))
  /\ (forall segment,
        contains (pys "-->") (WriteSRT.cue_text segment)
        = contains (pys "--->") (strip (text segment)))
  /\ let segment := {| start := S754_zero false; end_ := float_of 1 0;
                       text := pys "--->" |} in
     WriteVTT.cue_text segment = pys "-->"
     /\ WriteSRT.cue_text segment = pys "-->"
     /\ WriteVTT.write_result {[ "segments" := [segment] ]} []
        = (pys "WEBVTT" ++ nl ++ nl ++ pys "00:00.000 --> 00:01.000" ++ nl
             ++ pys "-->" ++ nl ++ nl, Ok tt)
     /\ WriteSRT.write_result {[ "segments" := [segment] ]} []
        = (pys "1" ++ nl ++ pys "00:00:00,000 --> 00:00:01,000" ++ nl
             ++ pys "-->" ++ nl ++ nl, Ok tt).
Proof.
  split; [intros segment; apply replace_arrow_contains|].
  split; [intros segment; apply replace_arrow_contains|].
  cbv zeta. repeat split; vm_compute; reflexivity.
Qed.

Lemma replace_char c d s :
  replace [c] [d] s = map (fun x => if (x =? c)%N then d else x) s.
Proof.
  unfold replace. induction s as [|x s IH]; [reflexivity|].
  cbn [replace_from startswith length Nat.sub map app].
  rewrite andb_true_r, IH, (N.eqb_sym c x). destruct (x =? c)%N; reflexivity.
Qed.

Lemma untab_no_tab s : 9%N ∉ untab s.
Proof.
  unfold untab. intros Hin. apply list_elem_of_In, in_map_iff in Hin.
  destruct Hin as (c & Hc & _). destruct (N.eqb_spec c 9); [discriminate|congruence].
Qed.

Lemma text_field_untab segment :
  WriteTSV.text_field segment = untab (strip (text segment)).
Proof. apply replace_char. Qed.

(** A loop whose body only appends to the file. *)
Lemma for_each_appends {A} (l : list A) (body : A -> IO unit) (line : A -> str) f :
  (forall x f', x ∈ l -> body x f' = (f' ++ line x, Ok tt)) ->
  for_each l body f = (f ++ concat (map line l), Ok tt).
Proof.
  revert f. induction l as [|x l IH]; intros f Hbody; cbn [for_each map concat].
  - rewrite app_nil_r. reflexivity.
  - unfold mbind, IO_bind. rewrite Hbody by (left).
    rewrite IH by (intros; apply Hbody; right; assumption).
    rewrite <- app_assoc. reflexivity.
Qed.

Lemma str_of_int_nonneg z : 0 <= z -> str_of_int z = dec_digits z.
Proof.
  intros Hz. unfold str_of_int. destruct (Z.ltb_spec z 0); [lia|].
  rewrite Z.abs_eq by lia. reflexivity.
Qed.

Lemma digit_char_range d : 0 <= d <= 9 -> (48 <= digit_char d <= 57)%N.
Proof. unfold digit_char. lia. Qed.

Lemma dec_digits_are_digits n :
  0 <= n -> Forall (fun c => (48 <= c <= 57)%N) (dec_digits n).
Proof.
  intros Hn.
  assert (exists k : nat, n < 10 ^ Z.of_nat (S k)) as [k Hk].
  { exists (Z.to_nat n). rewrite Nat2Z.inj_succ, Z2Nat.id by lia.
    pose proof (Z.pow_gt_lin_r 10 (Z.succ n) ltac:(lia) ltac:(lia)). lia. }
  revert n Hn Hk. induction k as [|k IH]; intros n Hn Hk.
  - simpl in Hk. rewrite dec_digits_small by lia.
    constructor; [apply digit_char_range; lia | constructor].
  - destruct (Z.ltb_spec n 10) as [Hlt|Hge].
    + rewrite dec_digits_small by lia.
      constructor; [apply digit_char_range; lia | constructor].
    + rewrite Nat2Z.inj_succ, Z.pow_succ_r in Hk by lia.
      rewrite dec_digits_step by lia. apply Forall_app. split.
      * apply IH; [apply Z.div_pos; lia | apply Z.div_lt_upper_bound; lia].
      * constructor; [apply digit_char_range; euclid | constructor].
Qed.

Lemma millis_finite x :
  float_is_finite (float_mul f1000 x) = true ->
  py_round (float_mul f1000 x) = Ok (millis x).
Proof.
  unfold millis. destruct (float_mul f1000 x); try discriminate; reflexivity.
Qed.

Lemma millis_nonneg x :
  float_nonneg x = true -> float_is_finite (float_mul f1000 x) = true ->
  0 <= millis x.
Proof.
  intros Hnn Hfin. unfold millis.
  destruct (py_round_mul_nonneg f1000 x eq_refl Hnn Hfin) as (a & -> & Ha). exact Ha.
Qed.

Lemma tsv_body segment f :
  finite_times segment ->
  (a ← lift (py_round (float_mul f1000 (start segment)));
   _ ← print (str_of_int a) tab;
   b ← lift (py_round (float_mul f1000 (end_ segment)));
   _ ← print (str_of_int b) tab;
   print (WriteTSV.text_field segment) nl) f
  = (f ++ tsv_row segment, Ok tt).
Proof.
  intros (Hfs & Hfe).
  unfold mbind, IO_bind, lift, print, tsv_row.
  rewrite (millis_finite _ Hfs), (millis_finite _ Hfe), text_field_untab.
  rewrite <- !app_assoc. reflexivity.
Qed.

(** C7. On segments whose times stay finite in milliseconds, the TSV writer
    writes the line [start<TAB>end<TAB>text] and then one line for each
    segment, in order: the integers [round(1000*start)] and
    [round(1000*end)], each followed by a tab, then the trimmed text in
    which every tab has become a space, so that the text field holds no tab.
    When [start] and [end] are not negative the two integers are not
    negative either and are written with decimal digits only. *)
Theorem tsv_rows (result : gmap string (list Segment)) (segments : list Segment)
    (file : str) :
  result !! "segments" = Some segments ->
  Forall finite_times segments ->
  WriteTSV.write_result result file
  = (file ++ (pys "start" ++ tab ++ pys "end" ++ tab ++ pys "text" ++ nl)
       ++ concat (map tsv_row segments), Ok tt)
  /\ Forall (fun segment =>
       exists a b,
         py_round (float_mul f1000 (start segment)) = Ok a
         /\ py_round (float_mul f1000 (end_ segment)) = Ok b
         /\ tsv_row segment
            = str_of_int a ++ tab ++ str_of_int b ++ tab
              ++ WriteTSV.text_field segment ++ nl
         /\ WriteTSV.text_field segment = untab (strip (text segment))
         /\ (9%N ∉ WriteTSV.text_field segment)
         /\ (float_nonneg (start segment) = true ->
             0 <= a /\ str_of_int a = dec_digits a
             /\ Forall (fun c => (48 <= c <= 57)%N) (dec_digits a))
         /\ (float_nonneg (end_ segment) = true ->
             0 <= b /\ str_of_int b = dec_digits b
             /\ Forall (fun c => (48 <= c <= 57)%N) (dec_digits b))) segments.
Proof.
  intros Hseg Hfin. split.
  - unfold WriteTSV.write_result, mbind, IO_bind, lift, getitem.
    rewrite Hseg. unfold print at 1.
    rewrite (for_each_appends segments _ tsv_row).
    + rewrite <- !app_assoc. reflexivity.
    + intros x f' Hx. apply tsv_body.
      rewrite Forall_forall in Hfin. apply Hfin, Hx.
  - eapply Forall_impl; [exact Hfin|].
    intros segment (Hfs & Hfe).
    exists (millis (start segment)), (millis (end_ segment)).
    split; [apply millis_finite, Hfs|]. split; [apply millis_finite, Hfe|].
    split; [unfold tsv_row; rewrite text_field_untab; reflexivity|].
    split; [apply text_field_untab|].
    split; [rewrite text_field_untab; apply untab_no_tab|].
    split; intros Hnn.
    + pose proof (millis_nonneg _ Hnn Hfs) as Ha.
      split; [exact Ha|]. split; [apply str_of_int_nonneg, Ha|].
      apply dec_digits_are_digits, Ha.
    + pose proof (millis_nonneg _ Hnn Hfe) as Hb.
      split; [exact Hb|]. split; [apply str_of_int_nonneg, Hb|].
      apply dec_digits_are_digits, Hb.
Qed.

Lemma tsv_rows_witness :
  ({[ "segments" := [tsv_sample] ]} : gmap string (list Segment)) !! "segments"
  = Some [tsv_sample]
  /\ Forall finite_times [tsv_sample]
  /\ WriteTSV.write_result {[ "segments" := [tsv_sample] ]} []
     = (pys "start" ++ tab ++ pys "end" ++ tab ++ pys "text" ++ nl
          ++ pys "1500" ++ tab ++ pys "2500" ++ tab ++ pys "a b" ++ nl, Ok tt).
Proof.
  assert (Hfin : Forall finite_times [tsv_sample]).
  { constructor; [|constructor]. split; reflexivity. }
  assert (Hl : ({[ "segments" := [tsv_sample] ]} : gmap string (list Segment))
                 !! "segments" = Some [tsv_sample]) by reflexivity.
  split; [exact Hl|]. split; [exact Hfin|].
  destruct (tsv_rows {[ "segments" := [tsv_sample] ]} [tsv_sample] []
              Hl Hfin) as [-> _].
  vm_compute. reflexivity.
Defined.

(** ** The JSON writer *)

Lemma setitem_fresh d name v :
  Forall (fun kv => WriteJSON.is_key name (fst kv) = false) d ->
  WriteJSON.setitem d name v = d ++ [(WriteJSON.PyStr name, v)].
Proof.
  induction 1 as [|[k w] d Hk Hd IH]; [reflexivity|].
  cbn [WriteJSON.setitem app]. cbn [fst] in Hk. rewrite Hk, IH. reflexivity.
Qed.

Lemma load_members (members : list (str * WriteJSON.json)) acc :
  NoDup (map fst members) ->
  (forall m kv, m ∈ members -> kv ∈ acc -> WriteJSON.is_key (fst m) (fst kv) = false) ->
  fold_left (fun d m => WriteJSON.setitem d (fst m) (WriteJSON.load (snd m))) members acc
  = acc ++ map (fun m => (WriteJSON.PyStr (fst m), WriteJSON.load (snd m))) members.
Proof.
  revert acc. induction members as [|m members IH]; intros acc Hnd Hfresh.
  - cbn. rewrite app_nil_r. reflexivity.
  - cbn [fold_left map]. cbn [map] in Hnd. apply NoDup_cons in Hnd as [Hm Hnd].
    rewrite setitem_fresh.
    + rewrite IH; [rewrite <- app_assoc; reflexivity | exact Hnd |].
      intros m' kv Hm' Hkv. apply elem_of_app in Hkv as [Hkv|Hkv].
      * apply Hfresh; [right; exact Hm' | exact Hkv].
      * apply list_elem_of_singleton in Hkv. subst kv. cbn.
        apply bool_decide_eq_false. intros Heq. apply Hm. rewrite Heq.
        apply list_elem_of_fmap. exists m'. split; [reflexivity | exact Hm'].
    + apply Forall_forall. intros kv Hkv. apply Hfresh; [left | exact Hkv].
Qed.

Section RoundTrip.
Variable float_repr : float -> str.

Lemma round_trips_items l :
  Forall (round_trips float_repr) l -> forallb WriteJSON.native l = true ->
  exists js, WriteJSON.sequence (map (WriteJSON.dump float_repr) l) = Ok js
             /\ map WriteJSON.load js = l.
Proof.
  induction 1 as [|o l Ho Hl IH]; cbn [forallb map WriteJSON.sequence]; intros Hn.
  - exists []. split; reflexivity.
  - apply andb_true_iff in Hn as [Hno Hnl].
    destruct (Ho Hno) as (j & -> & Hj). destruct (IH Hnl) as (js & -> & Hjs).
    exists (j :: js). split; [reflexivity|]. cbn [map]. rewrite Hj, Hjs. reflexivity.
Qed.

Lemma round_trips_members (d : list (WriteJSON.pyobj * WriteJSON.pyobj)) :
  Forall (fun kv => round_trips float_repr (snd kv)) d ->
  forallb (fun kv => match WriteJSON.str_key (fst kv) with
                     | Some _ => true | None => false end) d = true ->
  forallb (fun kv => WriteJSON.native (snd kv)) d = true ->
  exists ms,
    WriteJSON.sequence
      (map (fun kv => name ← WriteJSON.key_name float_repr (fst kv);
                      j ← WriteJSON.dump float_repr (snd kv);
                      Ok (name, j)) d) = Ok ms
    /\ map (fun m => (WriteJSON.PyStr (fst m), WriteJSON.load (snd m))) ms = d.
Proof.
  induction 1 as [|[k v] d Hv Hd IH]; cbn [forallb map WriteJSON.sequence fst snd];
    intros Hk Hn.
  - exists []. split; reflexivity.
  - apply andb_true_iff in Hk as [Hk Hks]. apply andb_true_iff in Hn as [Hn Hns].
    destruct k; try discriminate. cbn [WriteJSON.key_name].
    cbn [snd] in Hv. destruct (Hv Hn) as (j & Hj & Hl).
    destruct (IH Hks Hns) as (ms & Hms & Hd').
    exists ((s, j) :: ms). split.
    + rewrite Hj, Hms. reflexivity.
    + cbn [map fst snd]. rewrite Hl, Hd'. reflexivity.
Qed.

Lemma native_round_trips obj : round_trips float_repr obj.
Proof.
  induction obj using WriteJSON.pyobj_nested_ind; unfold round_trips;
    cbn [WriteJSON.native WriteJSON.dump]; intros Hn; try discriminate;
    try (eexists; split; reflexivity).
  - destruct (round_trips_items l H Hn) as (js & -> & Hjs).
    exists (WriteJSON.JArray js). split; [reflexivity|].
    cbn [WriteJSON.load]. rewrite Hjs. reflexivity.
  - apply andb_true_iff in Hn as [Hn Hvals]. apply andb_true_iff in Hn as [Hkeys Hnd].
    apply bool_decide_eq_true in Hnd.
    destruct (round_trips_members d H Hkeys Hvals) as (ms & -> & Hd).
    exists (WriteJSON.JObject ms). split; [reflexivity|].
    cbn [WriteJSON.load]. rewrite load_members.
    + cbn [app]. rewrite Hd. reflexivity.
    + rewrite <- Hd, map_map in Hnd. cbn [fst WriteJSON.str_key] in Hnd.
      rewrite <- (map_map fst Some) in Hnd.
      apply (NoDup_fmap (@Some str)) in Hnd. exact Hnd.
    + intros m kv _ Hkv. apply elem_of_nil in Hkv. destruct Hkv.
Qed.
End RoundTrip.

(** C6, as stated, fails on a tuple: a result whose segment is the tuple
    [(0.0, 1.0, " hi ")] is written as an array and read back as a list. *)
Lemma tuple_read_back_as_list :
  WriteJSON.read_back WriteJSON.no_repr WriteJSON.tuple_result
  = Ok (WriteJSON.PyDict
          [(WriteJSON.PyStr (pys "segments"),
            WriteJSON.PyList
              [WriteJSON.PyList
                 [WriteJSON.PyFloat (S754_zero false);
                  WriteJSON.PyFloat (float_of 1 0);
                  WriteJSON.PyStr (pys " hi ")]])])
  /\ WriteJSON.read_back WriteJSON.no_repr WriteJSON.tuple_result
     <> Ok WriteJSON.tuple_result.
Proof. split; [vm_compute; reflexivity | vm_compute; discriminate]. Qed.

(** C6, amended. The JSON writer hands the whole result to [json.dump], once
    and as it is, the text of the segments included; reading the document
    back gives an object identical to the result when the result is made of
    [None], booleans, integers, floats, strings, lists, and dicts whose keys
    are strings. *)
Theorem json_round_trip (float_repr : float -> str) (result : WriteJSON.pyobj) :
  WriteJSON.native result = true ->
  WriteJSON.write_result float_repr result = WriteJSON.dump float_repr result
  /\ WriteJSON.read_back float_repr result = Ok result.
Proof.
  intros Hn. split; [reflexivity|].
  destruct (native_round_trips float_repr result Hn) as (j & Hj & Hl).
  unfold WriteJSON.read_back, WriteJSON.write_result. rewrite Hj.
  cbn. rewrite Hl. reflexivity.
Qed.

Lemma json_round_trip_witness :
  WriteJSON.native WriteJSON.dict_result = true
  /\ WriteJSON.read_back WriteJSON.no_repr WriteJSON.dict_result
     = Ok WriteJSON.dict_result.
Proof.
  split; [vm_compute; reflexivity|].
  apply (json_round_trip WriteJSON.no_repr WriteJSON.dict_result).
  vm_compute. reflexivity.
Defined.

(** A tuple is written as the list of its items is, and a key that is not a
    string is written as its name. *)
Lemma json_tuple_as_list float_repr l :
  WriteJSON.dump float_repr (WriteJSON.PyTuple l)
  = WriteJSON.dump float_repr (WriteJSON.PyList l).
Proof. reflexivity. Qed.

Example json_int_key :
  WriteJSON.read_back WriteJSON.no_repr
    (WriteJSON.PyDict [(WriteJSON.PyInt 1, WriteJSON.PyStr (pys "a"))])
  = Ok (WriteJSON.PyDict [(WriteJSON.PyStr (pys "1"), WriteJSON.PyStr (pys "a"))]).
Proof. vm_compute. reflexivity. Qed.

(** ** Splitting and trimming *)

Lemma split_char c cur s :
  split_from [c] 0 cur s <> []
  /\ join [c] (split_from [c] 0 cur s) = rev cur ++ s
  /\ (c ∉ cur -> Forall (fun part => c ∉ part) (split_from [c] 0 cur s)).
Proof.
  revert cur. induction s as [|x s IH]; intros cur.
  - cbn [split_from join]. rewrite app_nil_r. split; [discriminate|].
    split; [reflexivity|]. intros Hc. constructor; [|constructor].
    rewrite list_elem_of_In, <- in_rev, <- list_elem_of_In. exact Hc.
  - cbn [split_from startswith length Nat.sub]. rewrite andb_true_r.
    destruct (N.eqb_spec c x) as [->|Hne].
    + destruct (IH []) as (Hnil & Hjoin & Hall). split; [discriminate|]. split.
      * cbn [join]. destruct (split_from [x] 0 [] s) as [|p ps] eqn:E;
          [congruence|]. rewrite Hjoin. reflexivity.
      * intros Hc. constructor.
        -- rewrite list_elem_of_In, <- in_rev, <- list_elem_of_In. exact Hc.
        -- apply Hall. apply not_elem_of_nil.
    + destruct (IH (x :: cur)) as (Hnil & Hjoin & Hall). split; [exact Hnil|]. split.
      * rewrite Hjoin. cbn [rev]. rewrite <- app_assoc. reflexivity.
      * intros Hc. apply Hall. intros Hin. apply elem_of_cons in Hin as [->|Hin];
          [congruence | exact (Hc Hin)].
Qed.

(** Splitting at a character cuts exactly at its occurrences: joining the
    parts with it gives the string back, and no part holds it. *)
Lemma split_join c s :
  join [c] (split [c] s) = s /\ Forall (fun part => c ∉ part) (split [c] s).
Proof.
  destruct (split_char c [] s) as (_ & Hjoin & Hall). split.
  - exact Hjoin.
  - apply Hall. apply not_elem_of_nil.
Qed.

Lemma lstrip_spec s :
  exists l, s = l ++ lstrip s /\ Forall (fun c => isspace c = true) l
            /\ match lstrip s with c :: _ => isspace c = false | [] => True end.
Proof.
  induction s as [|c s (l & Hs & Hl & Hhd)].
  - exists []. repeat split. constructor.
  - cbn [lstrip]. destruct (isspace c) eqn:Hc.
    + exists (c :: l). split; [cbn; congruence|]. split; [constructor; assumption|].
      exact Hhd.
    + exists []. split; [reflexivity|]. split; [constructor | exact Hc].
Qed.

(** [strip] removes whitespace at both ends and nothing else: what is left
    neither starts nor ends with whitespace. *)
Lemma strip_spec s :
  exists l r,
    s = l ++ strip s ++ r
    /\ Forall (fun c => isspace c = true) l
    /\ Forall (fun c => isspace c = true) r
    /\ match strip s with c :: _ => isspace c = false | [] => True end
    /\ match rev (strip s) with c :: _ => isspace c = false | [] => True end.
Proof.
  unfold strip, rstrip.
  destruct (lstrip_spec s) as (l & Hs & Hl & Hhd).
  destruct (lstrip_spec (rev (lstrip s))) as (r & Hr & Hrs & Htl).
  exists l, (rev r). split; [|split; [exact Hl|split; [|split]]].
  - rewrite Hs at 1. f_equal. rewrite <- rev_app_distr, <- Hr, rev_involutive.
    reflexivity.
  - apply Forall_forall. intros c Hc. rewrite Forall_forall in Hrs. apply Hrs.
    rewrite list_elem_of_In in *. apply in_rev. exact Hc.
  - apply (f_equal (@rev N)) in Hr. rewrite rev_involutive, rev_app_distr in Hr.
    destruct (rev (lstrip (rev (lstrip s)))) as [|c t] eqn:E; [exact I|].
    rewrite Hr in Hhd. cbn in Hhd. exact Hhd.
  - rewrite rev_involutive. exact Htl.
Qed.

(** ** Matching *)

Lemma rmatch_app r s g m rest :
  In (g, m, rest) (rmatch r s) -> s = m ++ rest.
Proof.
  revert s g m rest. induction r as [p|r1 IH1 r2 IH2|r1 IH1 r2 IH2|name r IH];
    intros s g m rest Hin; cbn [rmatch] in Hin.
  - destruct s as [|c s]; [destruct Hin|]. destruct (p c); [|destruct Hin].
    destruct Hin as [E|[]]. injection E as <- <- <-. reflexivity.
  - apply in_flat_map in Hin as ([[g1 m1] s1] & H1 & Hin).
    apply in_map_iff in Hin as ([[g2 m2] s2] & E & H2). injection E as <- <- <-.
    rewrite (IH1 _ _ _ _ H1), (IH2 _ _ _ _ H2), app_assoc. reflexivity.
  - apply in_app_or in Hin as [Hin|Hin]; eauto.
  - apply in_map_iff in Hin as ([[g' m'] s'] & E & Hin). injection E as <- <- <-.
    eauto.
Qed.

Lemma rmatch_length r s g m rest :
  In (g, m, rest) (rmatch r s) -> (min_len r <= length m <= max_len r)%nat.
Proof.
  revert s g m rest. induction r as [p|r1 IH1 r2 IH2|r1 IH1 r2 IH2|name r IH];
    intros s g m rest Hin; cbn [rmatch min_len max_len] in *.
  - destruct s as [|c s]; [destruct Hin|]. destruct (p c); [|destruct Hin].
    destruct Hin as [E|[]]. injection E as <- <- <-. cbn. lia.
  - apply in_flat_map in Hin as ([[g1 m1] s1] & H1 & Hin).
    apply in_map_iff in Hin as ([[g2 m2] s2] & E & H2). injection E as <- <- <-.
    rewrite length_app. specialize (IH1 _ _ _ _ H1). specialize (IH2 _ _ _ _ H2). lia.
  - apply in_app_or in Hin as [Hin|Hin];
      [specialize (IH1 _ _ _ _ Hin) | specialize (IH2 _ _ _ _ Hin)]; lia.
  - apply in_map_iff in Hin as ([[g' m'] s'] & E & Hin). injection E as <- <- <-.
    eauto.
Qed.

Lemma rmatch_chars (P : N -> Prop) r s g m rest :
  classes_within P r -> In (g, m, rest) (rmatch r s) -> Forall P m.
Proof.
  revert s g m rest. induction r as [p|r1 IH1 r2 IH2|r1 IH1 r2 IH2|name r IH];
    intros s g m rest Hcl Hin; cbn [rmatch classes_within] in *.
  - destruct s as [|c s]; [destruct Hin|]. destruct (p c) eqn:Hp; [|destruct Hin].
    destruct Hin as [E|[]]. injection E as <- <- <-. constructor; [auto|constructor].
  - destruct Hcl as [Hc1 Hc2].
    apply in_flat_map in Hin as ([[g1 m1] s1] & H1 & Hin).
    apply in_map_iff in Hin as ([[g2 m2] s2] & E & H2). injection E as <- <- <-.
    apply Forall_app. split; eauto.
  - destruct Hcl as [Hc1 Hc2]. apply in_app_or in Hin as [Hin|Hin]; eauto.
  - apply in_map_iff in Hin as ([[g' m'] s'] & E & Hin). injection E as <- <- <-.
    eauto.
Qed.

(** A match of a sequence that is as long as can be is made of matches of
    its two parts that are as long as can be. *)
Lemma rmatch_cat_full r1 r2 s g m rest :
  In (g, m, rest) (rmatch (Cat r1 r2) s) ->
  length m = (max_len r1 + max_len r2)%nat ->
  exists g1 m1 g2 m2,
    In (g1, m1, drop (max_len r1) s) (rmatch r1 s)
    /\ length m1 = max_len r1
    /\ In (g2, m2, rest) (rmatch r2 (drop (max_len r1) s))
    /\ length m2 = max_len r2.
Proof.
  intros Hin Hlen. cbn [rmatch] in Hin.
  apply in_flat_map in Hin as ([[g1 m1] s1] & H1 & Hin).
  apply in_map_iff in Hin as ([[g2 m2] s2] & E & H2). injection E as <- <- <-.
  pose proof (rmatch_length _ _ _ _ _ H1) as L1.
  pose proof (rmatch_length _ _ _ _ _ H2) as L2.
  rewrite length_app in Hlen.
  assert (E1 : length m1 = max_len r1) by lia.
  assert (Hs1 : drop (max_len r1) s = s1).
  { rewrite (rmatch_app _ _ _ _ _ H1), <- E1. apply drop_app_length. }
  rewrite Hs1. exists g1, m1, g2, m2. repeat split; [assumption|lia|assumption|lia].
Qed.

(** The first match of a sequence, from the first matches of its parts. *)
Lemma rmatch_cat_first r1 r2 s g1 m1 s1 t1 g2 m2 s2 t2 :
  rmatch r1 s = (g1, m1, s1) :: t1 ->
  rmatch r2 s1 = (g2, m2, s2) :: t2 ->
  exists t, rmatch (Cat r1 r2) s = (g1 ++ g2, m1 ++ m2, s2) :: t.
Proof.
  intros E1 E2. cbn [rmatch]. rewrite E1. cbn [flat_map]. rewrite E2.
  cbn [map app]. eexists. reflexivity.
Qed.

(** ** The fields of the date pattern on ASCII digits *)

(** One case for each value of a digit. *)
Ltac each_digit a :=
  let E := fresh in
  assert (E : a = 0 \/ a = 1 \/ a = 2 \/ a = 3 \/ a = 4 \/ a = 5 \/ a = 6
              \/ a = 7 \/ a = 8 \/ a = 9) by lia;
  destruct E as [->|[->|[->|[->|[->|[->|[->|[->|[->| ->]]]]]]]]].

Lemma re_m_matches a b rest :
  0 <= a <= 9 -> 0 <= b <= 9 ->
  rmatch re_m (digit_char a :: digit_char b :: rest)
  = field_matches "m" ((1 <=? 10 * a + b) && (10 * a + b <=? 12)) (1 <=? a) a b rest.
Proof. intros Ha Hb. each_digit a; each_digit b; reflexivity. Qed.

Lemma re_d_matches a b rest :
  0 <= a <= 9 -> 0 <= b <= 9 ->
  rmatch re_d (digit_char a :: digit_char b :: rest)
  = field_matches "d" ((1 <=? 10 * a + b) && (10 * a + b <=? 31)) (1 <=? a) a b rest.
Proof. intros Ha Hb. each_digit a; each_digit b; reflexivity. Qed.

Lemma re_H_matches a b rest :
  0 <= a <= 9 -> 0 <= b <= 9 ->
  rmatch re_H (digit_char a :: digit_char b :: rest)
  = field_matches "H" (10 * a + b <=? 23) true a b rest.
Proof. intros Ha Hb. each_digit a; each_digit b; reflexivity. Qed.

Lemma re_M_matches a b rest :
  0 <= a <= 9 -> 0 <= b <= 9 ->
  rmatch re_M (digit_char a :: digit_char b :: rest)
  = field_matches "M" (10 * a + b <=? 59) true a b rest.
Proof. intros Ha Hb. each_digit a; each_digit b; reflexivity. Qed.

Lemma re_S_matches a b rest :
  0 <= a <= 9 -> 0 <= b <= 9 ->
  rmatch re_S (digit_char a :: digit_char b :: rest)
  = field_matches "S" (10 * a + b <=? 61) true a b rest.
Proof. intros Ha Hb. each_digit a; each_digit b; reflexivity. Qed.

Lemma is_decimal_digit_char a : 0 <= a <= 9 -> is_decimal (digit_char a) = true.
Proof.
  intros Ha. unfold is_decimal. rewrite decimal_value_digit_char by lia. reflexivity.
Qed.

Lemma re_Y_matches a b c d rest :
  0 <= a <= 9 -> 0 <= b <= 9 -> 0 <= c <= 9 -> 0 <= d <= 9 ->
  rmatch re_Y (digit_char a :: digit_char b :: digit_char c :: digit_char d :: rest)
  = [([("Y", [digit_char a; digit_char b; digit_char c; digit_char d])],
      [digit_char a; digit_char b; digit_char c; digit_char d], rest)].
Proof.
  intros Ha Hb Hc Hd. unfold re_Y, dig. cbn [rmatch].
  rewrite !is_decimal_digit_char by assumption. cbn [flat_map map app].
  rewrite !is_decimal_digit_char by assumption. cbn [flat_map map app].
  rewrite !is_decimal_digit_char by assumption. cbn [flat_map map app].
  rewrite !is_decimal_digit_char by assumption. reflexivity.
Qed.

(** A field that matched two digits holds a value the pattern allows. *)
Lemma field_matches_two name two one a b rest g m rest' :
  In (g, m, rest') (field_matches name two one a b rest) ->
  length m = 2%nat -> two = true.
Proof.
  unfold field_matches. intros Hin Hlen. destruct two; [reflexivity|].
  destruct one; cbn in Hin; [|destruct Hin].
  destruct Hin as [E|[]]. injection E as <- <- <-. discriminate.
Qed.

Lemma isspace_digit_char a : 0 <= a <= 9 -> isspace (digit_char a) = false.
Proof. intros Ha. each_digit a; reflexivity. Qed.

Lemma py_int_two a b :
  0 <= a <= 9 -> 0 <= b <= 9 ->
  py_int [digit_char a; digit_char b] = Ok (10 * a + b).
Proof. intros Ha Hb. each_digit a; each_digit b; reflexivity. Qed.

Lemma py_int_four a b c d :
  0 <= a <= 9 -> 0 <= b <= 9 -> 0 <= c <= 9 -> 0 <= d <= 9 ->
  py_int [digit_char a; digit_char b; digit_char c; digit_char d]
  = Ok (1000 * a + 100 * b + 10 * c + d).
Proof.
  intros Ha Hb Hc Hd. unfold py_int, strip, rstrip. cbn [lstrip].
  rewrite (isspace_digit_char a) by assumption. cbn [rev app lstrip].
  rewrite (isspace_digit_char d) by assumption. cbn [rev app digits_value].
  rewrite !decimal_value_digit_char by assumption. f_equal. lia.
Qed.

(** ** [strptime] on fourteen ASCII digits *)

Lemma rmatch_cat_field R f (k : nat) s g m rest :
  max_len R = k -> max_len f = 2%nat ->
  In (g, m, rest) (rmatch (Cat R f) s) ->
  length m = (k + 2)%nat ->
  exists g1 m1 g2 m2,
    In (g1, m1, drop k s) (rmatch R s) /\ length m1 = k
    /\ In (g2, m2, rest) (rmatch f (drop k s)) /\ length m2 = 2%nat.
Proof.
  intros <- Hf Hin Hlen. rewrite <- Hf in Hlen.
  destruct (rmatch_cat_full _ _ _ _ _ _ Hin Hlen) as (g1 & m1 & g2 & m2 & H1 & L1 & H2 & L2).
  exists g1, m1, g2, m2. rewrite <- Hf. auto.
Qed.

Section FourteenDigits.
Variables y1 y2 y3 y4 m1 m2 d1 d2 h1 h2 n1 n2 s1 s2 : Z.
Hypothesis Hy1 : 0 <= y1 <= 9.
Hypothesis Hy2 : 0 <= y2 <= 9.
Hypothesis Hy3 : 0 <= y3 <= 9.
Hypothesis Hy4 : 0 <= y4 <= 9.
Hypothesis Hm1 : 0 <= m1 <= 9.
Hypothesis Hm2 : 0 <= m2 <= 9.
Hypothesis Hd1 : 0 <= d1 <= 9.
Hypothesis Hd2 : 0 <= d2 <= 9.
Hypothesis Hh1 : 0 <= h1 <= 9.
Hypothesis Hh2 : 0 <= h2 <= 9.
Hypothesis Hn1 : 0 <= n1 <= 9.
Hypothesis Hn2 : 0 <= n2 <= 9.
Hypothesis Hs1 : 0 <= s1 <= 9.
Hypothesis Hs2 : 0 <= s2 <= 9.

Abbreviation text :=
  (digits_text [y1; y2; y3; y4; m1; m2; d1; d2; h1; h2; n1; n2; s1; s2]).
Abbreviation allowed := (pattern_allows m1 m2 d1 d2 h1 h2 n1 n2 s1 s2).

(** When every field holds a value the pattern allows, the first match
    takes two digits for each. *)
Lemma rmatch_fourteen_first :
  allowed = true ->
  exists t,
    rmatch format_regex text
    = ([("Y", [digit_char y1; digit_char y2; digit_char y3; digit_char y4]);
        ("m", [digit_char m1; digit_char m2]);
        ("d", [digit_char d1; digit_char d2]);
        ("H", [digit_char h1; digit_char h2]);
        ("M", [digit_char n1; digit_char n2]);
        ("S", [digit_char s1; digit_char s2])], text, []) :: t.
Proof.
  unfold pattern_allows. intros Hp.
  apply andb_true_iff in Hp as [Hp HS]. apply andb_true_iff in Hp as [Hp HM].
  apply andb_true_iff in Hp as [Hp HH]. apply andb_true_iff in Hp as [Hm Hd].
  unfold format_regex, digits_text. cbn [map].
  pose proof (re_Y_matches y1 y2 y3 y4
                [digit_char m1; digit_char m2; digit_char d1; digit_char d2;
                 digit_char h1; digit_char h2; digit_char n1; digit_char n2;
                 digit_char s1; digit_char s2] Hy1 Hy2 Hy3 Hy4) as EY.
  pose proof (re_m_matches m1 m2
                [digit_char d1; digit_char d2; digit_char h1; digit_char h2;
                 digit_char n1; digit_char n2; digit_char s1; digit_char s2]
                Hm1 Hm2) as Em.
  pose proof (re_d_matches d1 d2
                [digit_char h1; digit_char h2; digit_char n1; digit_char n2;
                 digit_char s1; digit_char s2] Hd1 Hd2) as Ed.
  pose proof (re_H_matches h1 h2
                [digit_char n1; digit_char n2; digit_char s1; digit_char s2]
                Hh1 Hh2) as EH.
  pose proof (re_M_matches n1 n2 [digit_char s1; digit_char s2] Hn1 Hn2) as EM.
  pose proof (re_S_matches s1 s2 [] Hs1 Hs2) as ES.
  unfold field_matches in *.
  rewrite Hm in Em. rewrite Hd in Ed. rewrite HH in EH. rewrite HM in EM.
  rewrite HS in ES. cbn [app] in *.
  destruct (rmatch_cat_first _ _ _ _ _ _ _ _ _ _ _ EY Em) as (t1 & E1).
  destruct (rmatch_cat_first _ _ _ _ _ _ _ _ _ _ _ E1 Ed) as (t2 & E2).
  destruct (rmatch_cat_first _ _ _ _ _ _ _ _ _ _ _ E2 EH) as (t3 & E3).
  destruct (rmatch_cat_first _ _ _ _ _ _ _ _ _ _ _ E3 EM) as (t4 & E4).
  destruct (rmatch_cat_first _ _ _ _ _ _ _ _ _ _ _ E4 ES) as (t5 & E5).
  exists t5. exact E5.
Qed.

(** A match that takes the fourteen digits takes two for each field, so
    every field holds a value the pattern allows. *)
Lemma rmatch_fourteen_full g m :
  In (g, m, []) (rmatch format_regex text) -> allowed = true.
Proof.
  intros Hin.
  assert (Hlen : length m = 14%nat).
  { apply rmatch_app in Hin. rewrite app_nil_r in Hin. rewrite <- Hin. reflexivity. }
  unfold format_regex in Hin.
  apply (rmatch_cat_field _ _ 12) in Hin as (g5 & m5 & gS & mS & H5 & L5 & HS & LS);
    [|reflexivity|reflexivity|exact Hlen].
  apply (rmatch_cat_field _ _ 10) in H5 as (g4 & m4 & gM & mM & H4 & L4 & HM & LM);
    [|reflexivity|reflexivity|exact L5].
  apply (rmatch_cat_field _ _ 8) in H4 as (g3 & m3 & gH & mH & H3 & L3 & HH & LH);
    [|reflexivity|reflexivity|exact L4].
  apply (rmatch_cat_field _ _ 6) in H3 as (g2 & m2' & gd & md & H2 & L2 & Hd & Ld);
    [|reflexivity|reflexivity|exact L3].
  apply (rmatch_cat_field _ _ 4) in H2 as (g1 & m1' & gm & mm & H1 & L1 & Hm & Lm);
    [|reflexivity|reflexivity|exact L2].
  unfold digits_text in *. cbn [map drop] in *.
  rewrite re_S_matches in HS by assumption.
  rewrite re_M_matches in HM by assumption.
  rewrite re_H_matches in HH by assumption.
  rewrite re_d_matches in Hd by assumption.
  rewrite re_m_matches in Hm by assumption.
  apply field_matches_two in HS, HM, HH, Hd, Hm; try assumption.
  unfold pattern_allows. rewrite HS, HM, HH, Hd, Hm. reflexivity.
Qed.

Lemma strptime_fourteen :
  strptime text
  = if allowed
       && date_exists (1000 * y1 + 100 * y2 + 10 * y3 + y4) (10 * m1 + m2)
            (10 * d1 + d2)
    then Ok {| tm_year := 1000 * y1 + 100 * y2 + 10 * y3 + y4;
               tm_mon := 10 * m1 + m2; tm_mday := 10 * d1 + d2;
               tm_hour := 10 * h1 + h2; tm_min := 10 * n1 + n2;
               tm_sec := 10 * s1 + s2 |}
    else Raise ValueError.
Proof.
  destruct allowed eqn:Hp; cbn [andb].
  - destruct (rmatch_fourteen_first Hp) as (t & E). unfold strptime. rewrite E.
    change (group "Y" _)
      with [digit_char y1; digit_char y2; digit_char y3; digit_char y4].
    rewrite py_int_four by assumption. cbn [mbind outcome_bind].
    change (group "m" _) with [digit_char m1; digit_char m2].
    change (group "d" _) with [digit_char d1; digit_char d2].
    change (group "H" _) with [digit_char h1; digit_char h2].
    change (group "M" _) with [digit_char n1; digit_char n2].
    change (group "S" _) with [digit_char s1; digit_char s2].
    rewrite !py_int_two by assumption. reflexivity.
  - unfold strptime.
    destruct (rmatch format_regex text) as [|[[g m] rest] t] eqn:E; [reflexivity|].
    destruct rest as [|c rest]; [|reflexivity].
    assert (Hin : In (g, m, []) (rmatch format_regex text)) by (rewrite E; left; reflexivity).
    apply rmatch_fourteen_full in Hin. congruence.
Qed.
End FourteenDigits.

(** ** [strptime] in general *)

Lemma ascii_digit_is_decimal c : (48 <= c <= 57)%N -> is_decimal c = true.
Proof.
  intros Hc.
  assert (E : (c = 48 \/ c = 49 \/ c = 50 \/ c = 51 \/ c = 52 \/ c = 53
               \/ c = 54 \/ c = 55 \/ c = 56 \/ c = 57)%N) by lia.
  destruct E as [->|[->|[->|[->|[->|[->|[->|[->|[->| ->]]]]]]]]]; reflexivity.
Qed.

Lemma rng_class a b lo hi (P : N -> Prop) :
  pys a = [lo] -> pys b = [hi] ->
  (forall c, (lo <= c <= hi)%N -> P c) ->
  classes_within P (rng a b).
Proof.
  intros Ea Eb HP c. unfold rng. cbn [classes_within]. rewrite Ea, Eb.
  intros Hc. apply andb_true_iff in Hc as [H1 H2].
  apply HP. split; [apply N.leb_le, H1 | apply N.leb_le, H2].
Qed.

Lemma chr_class a x (P : N -> Prop) :
  pys a = [x] -> P x -> classes_within P (chr a).
Proof.
  intros Ea HP c. unfold chr. cbn [classes_within]. rewrite Ea.
  intros Hc. apply bool_decide_eq_true in Hc. injection Hc as ->. exact HP.
Qed.

(** The pattern matches decimal digits and, in front of a day, a space. *)
Lemma format_regex_classes :
  classes_within (fun c => is_decimal c = true \/ c = 32%N) format_regex.
Proof.
  assert (Hd : classes_within (fun c => is_decimal c = true \/ c = 32%N) dig).
  { intros c Hc. left. exact Hc. }
  assert (Hr : forall a b lo hi, pys a = [lo] -> pys b = [hi] ->
                 (48 <=? lo)%N = true -> (hi <=? 57)%N = true ->
                 classes_within (fun c => is_decimal c = true \/ c = 32%N) (rng a b)).
  { intros a b lo hi Ea Eb Hlo Hhi. apply (rng_class a b lo hi); try assumption.
    apply N.leb_le in Hlo, Hhi.
    intros c Hc. left. apply ascii_digit_is_decimal. lia. }
  assert (Hc : forall a x, pys a = [x] -> is_decimal x = true ->
                 classes_within (fun c => is_decimal c = true \/ c = 32%N) (chr a)).
  { intros a x Ea Hx. apply (chr_class a x); [assumption|]. left. exact Hx. }
  unfold format_regex, re_Y, re_m, re_d, re_H, re_M, re_S.
  cbn [classes_within].
  repeat split;
    first [ exact Hd
          | eapply Hr; reflexivity
          | eapply Hc; reflexivity
          | apply (chr_class " " 32%N); [reflexivity | right; reflexivity] ].
Qed.

Lemma py_int_raises s e : py_int s = Raise e -> e = ValueError.
Proof.
  unfold py_int. destruct (strip s) as [|c t]; [congruence|].
  destruct (digits_value 0 (c :: t)); congruence.
Qed.

Lemma strptime_raises data_string e :
  strptime data_string = Raise e -> e = ValueError.
Proof.
  unfold strptime.
  destruct (rmatch format_regex data_string) as [|[[g m] rest] t]; [congruence|].
  destruct rest as [|c rest]; [|congruence].
  repeat match goal with
         | |- context [py_int ?x] =>
             let E := fresh "E" in
             destruct (py_int x) as [?|?] eqn:E; cbn [mbind outcome_bind];
             [|apply py_int_raises in E; congruence]
         end.
  destruct (date_exists _ _ _); congruence.
Qed.

(** A string that [strptime] accepts has 9 to 14 characters, all decimal
    digits or spaces, and gives a date that exists. *)
Lemma strptime_Ok data_string ts :
  strptime data_string = Ok ts ->
  (9 <= length data_string <= 14)%nat
  /\ Forall (fun c => is_decimal c = true \/ c = 32%N) data_string
  /\ date_exists (tm_year ts) (tm_mon ts) (tm_mday ts) = true.
Proof.
  unfold strptime.
  destruct (rmatch format_regex data_string) as [|[[g m] rest] t] eqn:E; [discriminate|].
  destruct rest as [|c rest]; [|discriminate].
  assert (Hin : In (g, m, []) (rmatch format_regex data_string))
    by (rewrite E; left; reflexivity).
  pose proof (rmatch_app _ _ _ _ _ Hin) as Happ. rewrite app_nil_r in Happ. subst m.
  pose proof (rmatch_length _ _ _ _ _ Hin) as Hlen.
  pose proof (rmatch_chars _ _ _ _ _ _ format_regex_classes Hin) as Hch.
  repeat match goal with
         | |- context [py_int ?x] =>
             destruct (py_int x) as [?|?]; cbn [mbind outcome_bind]; [|discriminate]
         end.
  destruct (date_exists _ _ _) eqn:Hd; [|discriminate].
  intros Heq. injection Heq as <-. cbn [tm_year tm_mon tm_mday].
  split; [exact Hlen|]. split; [exact Hch | exact Hd].
Qed.

Lemma date_exists_ranges y m d :
  date_exists y m d = true -> 1 <= y <= 9999 /\ 1 <= m <= 12 /\ 1 <= d <= 31.
Proof.
  unfold date_exists, days_in_month. intros Hx.
  repeat (apply andb_true_iff in Hx as [Hx ?]).
  destruct (m =? 2); [destruct (is_leap y)|];
    [| |destruct ((m =? 4) || (m =? 6) || (m =? 9) || (m =? 11))]; lia.
Qed.

(** ** Slices *)

Lemma py_slice_length s : length (py_slice s 2 (-7)) = (length s - 9)%nat.
Proof.
  unfold py_slice, clamp_index.
  change (2 <? 0) with false. change (-7 <? 0) with true. cbv iota.
  rewrite length_take, length_drop. lia.
Qed.

Lemma py_slice_core (prefix c suffix : str) :
  length prefix = 2%nat -> length suffix = 7%nat ->
  py_slice (prefix ++ c ++ suffix) 2 (-7) = c.
Proof.
  intros Hp Hs. unfold py_slice, clamp_index.
  change (2 <? 0) with false. change (-7 <? 0) with true. cbv iota.
  rewrite !length_app, Hp, Hs.
  replace (Z.to_nat (Z.min _ 2)) with 2%nat by lia.
  replace (Z.to_nat _) with (length c) by lia.
  rewrite <- Hp, drop_app_length. apply take_app_length.
Qed.

Lemma strptime_core Y m d H M S :
  0 <= Y <= 9999 -> 0 <= m <= 99 -> 0 <= d <= 99 ->
  0 <= H <= 99 -> 0 <= M <= 99 -> 0 <= S <= 99 ->
  strptime (core Y m d H M S)
  = if fields_valid Y m d H M S
    then Ok {| tm_year := Y; tm_mon := m; tm_mday := d;
               tm_hour := H; tm_min := M; tm_sec := S |}
    else Raise ValueError.
Proof.
  intros HY Hm Hd HH HM HS.
  change (core Y m d H M S)
    with (digits_text [Y / 1000; Y / 100 mod 10; Y / 10 mod 10; Y mod 10;
                       m / 10; m mod 10; d / 10; d mod 10; H / 10; H mod 10;
                       M / 10; M mod 10; S / 10; S mod 10]).
  rewrite strptime_fourteen by euclid. unfold pattern_allows.
  replace (1000 * (Y / 1000) + 100 * (Y / 100 mod 10) + 10 * (Y / 10 mod 10) + Y mod 10)
    with Y by euclid.
  replace (10 * (m / 10) + m mod 10) with m by euclid.
  replace (10 * (d / 10) + d mod 10) with d by euclid.
  replace (10 * (H / 10) + H mod 10) with H by euclid.
  replace (10 * (M / 10) + M mod 10) with M by euclid.
  replace (10 * (S / 10) + S mod 10) with S by euclid.
  unfold fields_valid.
  destruct (date_exists Y m d) eqn:Hex.
  - apply date_exists_ranges in Hex as (_ & Hm' & Hd').
    replace (1 <=? m) with true by (symmetry; apply Z.leb_le; lia).
    replace (m <=? 12) with true by (symmetry; apply Z.leb_le; lia).
    replace (1 <=? d) with true by (symmetry; apply Z.leb_le; lia).
    replace (d <=? 31) with true by (symmetry; apply Z.leb_le; lia).
    cbn [andb]. destruct (H <=? 23), (M <=? 59), (S <=? 61); reflexivity.
  - rewrite andb_false_r. reflexivity.
Qed.

(** ** [get_document_metadata] *)

(** Two different literals are different keys. *)
Ltac keys_ne := let E := fresh in intros E; vm_compute in E; discriminate E.

Section MetadataProps.
Context `{LocalTime}.

Lemma visit_set_field key value (metadata : gmap string mdvalue) :
  visit key value metadata
  = if bool_decide (key = pys "Author")
    then set_field "authors" (names_of (pys ";") value) metadata
    else if bool_decide (key = pys "Title")
    then set_field "title" (title_of value) metadata
    else if bool_decide (key = pys "Keywords")
    then set_field "keywords" (names_of (pys ",") value) metadata
    else if bool_decide (key = pys "CreationDate")
    then set_field "createdAt" (date_of value) metadata
    else if bool_decide (key = pys "ModDate")
    then set_field "updatedAt" (date_of value) metadata
    else metadata.
Proof.
  unfold visit, names_of, title_of, date_of, try_pass, set_field.
  repeat case_bool_decide; try reflexivity;
    destruct (decode value) as [s|e];
    cbn [fmap outcome_fmap mbind outcome_bind]; try reflexivity;
    try (destruct (0 <? length (strip s))%nat; reflexivity);
    destruct (to_date s) as [[dt|]|e]; reflexivity.
Qed.

Lemma lookup_set_field name o (metadata : gmap string mdvalue) k :
  set_field name o metadata !! k
  = if decide (k = name)
    then match o with Some v => Some v | None => metadata !! k end
    else metadata !! k.
Proof.
  unfold set_field. destruct o as [v|].
  - rewrite lookup_insert. repeat case_decide; congruence.
  - case_decide; reflexivity.
Qed.

Lemma visit_lookup key value (metadata : gmap string mdvalue) items pages :
  items !! key = None ->
  (forall k, metadata !! k = expected items pages k) ->
  forall k, visit key value metadata !! k = expected (<[key := value]> items) pages k.
Proof.
  intros Hfresh Hmd k. rewrite visit_set_field.
  repeat case_bool_decide; subst; try rewrite lookup_set_field;
    rewrite !Hmd; unfold expected;
    rewrite ?lookup_insert_eq;
    repeat (rewrite lookup_insert_ne by keys_ne);
    try rewrite Hfresh;
    repeat (case_decide; subst; try discriminate; try reflexivity);
    try (cbn [mbind option_bind]; match goal with
                                  | |- context [match ?o with _ => _ end] =>
                                      destruct o; reflexivity
                                  end).
  all: repeat (rewrite lookup_insert_ne by congruence); reflexivity.
Qed.

(** The record, key by key. *)
Lemma metadata_lookup doc pages k :
  get_document_metadata doc pages !! k = expected (items_of doc) pages k.
Proof.
  unfold get_document_metadata, items_of. destruct (info doc) as [|items rest].
  - unfold expected. rewrite lookup_singleton.
    repeat (case_decide; subst; try discriminate; try congruence);
      rewrite ?lookup_empty; reflexivity.
  - revert k. apply (map_fold_weak_ind
      (fun r (m : gmap str pdfvalue) => forall k, r !! k = expected m pages k)).
    + intros k. unfold expected. rewrite lookup_singleton.
      repeat (case_decide; subst; try discriminate; try congruence);
        rewrite ?lookup_empty; reflexivity.
    + intros key value m r Hfresh IH. apply visit_lookup; assumption.
Qed.

(** The order in which the items of the dictionary are visited does not
    matter: visiting them in any order, as a list of items with distinct
    keys, gives the record [get_document_metadata] returns. *)
Lemma metadata_any_order (l : list (str * pdfvalue)) rest (pages : Z) :
  NoDup l.*1 ->
  fold_left (fun metadata kv => visit (fst kv) (snd kv) metadata) l
    {[ "properties" := properties_of pages ]}
  = get_document_metadata {| info := list_to_map l :: rest |} pages.
Proof.
  intros Hnd. apply map_eq. intros k. rewrite metadata_lookup.
  unfold items_of. cbn [info]. revert k.
  induction l as [|[key value] l IH] using rev_ind; intros k.
  - cbn [fold_left]. unfold expected. rewrite lookup_singleton.
    repeat (case_decide; subst; try discriminate; try congruence);
      rewrite ?lookup_empty; reflexivity.
  - rewrite fmap_app in Hnd. apply NoDup_app in Hnd as (Hnd & Hfresh & _).
    assert (Hkey : key ∉ l.*1).
    { intros Hin. apply (Hfresh key Hin). cbn. left. }
    rewrite fold_left_app. cbn [fold_left fst snd].
    rewrite list_to_map_snoc by exact Hkey.
    apply visit_lookup; [apply not_elem_of_list_to_map_1, Hkey | apply IH, Hnd].
Qed.

(** C8. When [doc.info] is empty, or when its first dictionary is empty, the
    record is exactly [{properties: {kind: "text", attrs: {pages: pages}}}]:
    it has no other key. *)
Theorem metadata_of_empty_info (pages : Z) :
  get_document_metadata {| info := [] |} pages
  = {[ "properties" :=
         MDict {[ "kind" := MStr (pys "text");
                  "attrs" := MDict {[ "pages" := MInt pages ]} ]} ]}
  /\ forall rest,
       get_document_metadata {| info := ∅ :: rest |} pages
       = {[ "properties" :=
              MDict {[ "kind" := MStr (pys "text");
                       "attrs" := MDict {[ "pages" := MInt pages ]} ]} ]}.
Proof.
  split; [reflexivity|]. intros rest.
  unfold get_document_metadata. cbn [info]. apply map_fold_empty.
Qed.

(** C4. The record always holds [properties], whose [attrs] hold the page
    count.  Each optional field is a function of the value of its own key
    alone: [authors] of [Author], [title] of [Title], [keywords] of
    [Keywords], [createdAt] of [CreationDate], [updatedAt] of [ModDate]; a
    value that does not decode or does not parse leaves out its own field
    and no other.  Hence giving [CreationDate] another value changes none of
    [title], [authors], [keywords], [updatedAt]; and with a malformed
    [CreationDate] next to a title, authors and keywords, the record holds
    these three and no [createdAt]. *)
Theorem metadata_fields_independent :
  (forall (doc : PDFDocument) (pages : Z),
      let md := get_document_metadata doc pages in
      let items := items_of doc in
      md !! "properties"
      = Some (MDict {[ "kind" := MStr (pys "text");
                       "attrs" := MDict {[ "pages" := MInt pages ]} ]})
      /\ md !! "authors" = items !! pys "Author" ≫= names_of (pys ";")
      /\ md !! "title" = items !! pys "Title" ≫= title_of
      /\ md !! "keywords" = items !! pys "Keywords" ≫= names_of (pys ",")
      /\ md !! "createdAt" = items !! pys "CreationDate" ≫= date_of
      /\ md !! "updatedAt" = items !! pys "ModDate" ≫= date_of)
  /\ (forall (items : gmap str pdfvalue) rest (value : pdfvalue) (pages : Z),
        let md := get_document_metadata {| info := items :: rest |} pages in
        let md' := get_document_metadata
                     {| info := <[pys "CreationDate" := value]> items :: rest |}
                     pages in
        md' !! "title" = md !! "title"
        /\ md' !! "authors" = md !! "authors"
        /\ md' !! "keywords" = md !! "keywords"
        /\ md' !! "updatedAt" = md !! "updatedAt"
        /\ md' !! "properties" = md !! "properties")
  /\ get_document_metadata
       {| info := [ {[ pys "CreationDate" := PBytes (pyb "D:2023-01-01 12:00:00Z");
                       pys "Title" := PBytes (pyb " Report ");
                       pys "Author" := PBytes (pyb "Ann; Bob");
                       pys "Keywords" := PBytes (pyb "a, b ,c") ]} ] |} 7
     = {[ "properties" :=
            MDict {[ "kind" := MStr (pys "text");
                     "attrs" := MDict {[ "pages" := MInt 7 ]} ]};
          "title" := MStr (pys "Report");
          "authors" := MList [pys "Ann"; pys "Bob"];
          "keywords" := MList [pys "a"; pys "b"; pys "c"] ]}.
Proof.
  split; [|split].
  - intros doc pages md items. subst md items.
    rewrite !metadata_lookup. repeat split; reflexivity.
  - intros items rest value pages md md'. subst md md'.
    rewrite !metadata_lookup. unfold items_of, expected. cbn [info].
    repeat split; repeat (case_decide; try discriminate);
      rewrite ?lookup_insert_ne by keys_ne; reflexivity.
  - apply map_eq. intros k. rewrite metadata_lookup.
    unfold items_of, expected. cbn [info].
    repeat case_decide; subst; try reflexivity.
    rewrite !lookup_insert_ne by congruence.
    rewrite lookup_singleton_ne by congruence. reflexivity.
Qed.

(** C9. When the value of [Keywords] decodes as UTF-8 to a string that is
    not blank, [keywords] is the list of the parts of the trimmed string
    between its commas, each part trimmed: the parts joined by commas give
    the trimmed string back and hold no comma.  The value ["a, b ,c"] gives
    [["a", "b", "c"]]. *)
Theorem keywords_split :
  (forall (doc : PDFDocument) (pages : Z) (value : pdfvalue) (s : str),
      items_of doc !! pys "Keywords" = Some value ->
      decode value = Ok s ->
      strip s <> [] ->
      exists parts,
        parts = split (pys ",") (strip s)
        /\ join (pys ",") parts = strip s
        /\ Forall (fun part => 44%N ∉ part) parts
        /\ get_document_metadata doc pages !! "keywords"
           = Some (MList (map strip parts)))
  /\ forall pages,
       get_document_metadata
         {| info := [ {[ pys "Keywords" := PBytes (pyb "a, b ,c") ]} ] |} pages
       !! "keywords"
       = Some (MList [pys "a"; pys "b"; pys "c"]).
Proof.
  split.
  - intros doc pages value s Hkw Hdec Hne.
    exists (split (pys ",") (strip s)). split; [reflexivity|].
    destruct (split_join 44%N (strip s)) as [Hjoin Hall].
    split; [exact Hjoin|]. split; [exact Hall|].
    rewrite metadata_lookup. unfold expected.
    repeat (case_decide; try discriminate; try congruence).
    rewrite Hkw. cbn [mbind option_bind]. unfold names_of. rewrite Hdec.
    destruct (strip s) as [|c t]; [congruence|]. reflexivity.
  - intros pages. rewrite metadata_lookup. reflexivity.
Qed.
End MetadataProps.

(** ** [to_date] *)

Section ToDateProps.
Context `{LocalTime}.

Lemma to_date_parsed date_str ts :
  strptime (py_slice date_str 2 (-7)) = Ok ts ->
  to_date date_str = local_datetime ts.
Proof.
  intros E. unfold to_date, local_datetime. rewrite E. cbn [mbind outcome_bind].
  destruct (mktime ts) as [t|e]; cbn [mbind outcome_bind]; [|reflexivity].
  destruct (fromtimestamp t); reflexivity.
Qed.

Lemma to_date_failed date_str e :
  strptime (py_slice date_str 2 (-7)) = Raise e -> to_date date_str = Ok None.
Proof.
  intros E. pose proof (strptime_raises _ _ E) as ->.
  unfold to_date. rewrite E. reflexivity.
Qed.

Lemma to_date_Some date_str dt :
  to_date date_str = Ok (Some dt) ->
  exists ts, strptime (py_slice date_str 2 (-7)) = Ok ts
             /\ mktime ts ≫= fromtimestamp = Ok dt.
Proof.
  intros E. destruct (strptime (py_slice date_str 2 (-7))) as [ts|e] eqn:Ep.
  - exists ts. split; [reflexivity|].
    rewrite (to_date_parsed _ _ Ep) in E. unfold local_datetime in E.
    destruct (mktime ts ≫= fromtimestamp) as [dt'|e]; [congruence|].
    destruct (is_ValueError e); discriminate.
  - rewrite (to_date_failed _ _ Ep) in E. discriminate.
Qed.

Lemma to_date_bad_length date_str :
  (length date_str < 18 \/ 23 < length date_str)%nat -> to_date date_str = Ok None.
Proof.
  intros Hlen. destruct (strptime (py_slice date_str 2 (-7))) as [ts|e] eqn:Ep.
  - apply strptime_Ok in Ep as (Hl & _). rewrite py_slice_length in Hl. lia.
  - exact (to_date_failed _ _ Ep).
Qed.

Lemma to_date_core prefix suffix Y m d H' M S :
  length prefix = 2%nat -> length suffix = 7%nat ->
  0 <= Y <= 9999 -> 0 <= m <= 99 -> 0 <= d <= 99 ->
  0 <= H' <= 99 -> 0 <= M <= 99 -> 0 <= S <= 99 ->
  to_date (prefix ++ core Y m d H' M S ++ suffix)
  = if fields_valid Y m d H' M S
    then local_datetime {| tm_year := Y; tm_mon := m; tm_mday := d;
                           tm_hour := H'; tm_min := M; tm_sec := S |}
    else Ok None.
Proof.
  intros Hp Hs HY Hm Hd HH HM HS.
  pose proof (strptime_core Y m d H' M S HY Hm Hd HH HM HS) as E.
  rewrite <- (py_slice_core prefix (core Y m d H' M S) suffix Hp Hs) in E.
  destruct (fields_valid Y m d H' M S).
  - exact (to_date_parsed _ _ E).
  - exact (to_date_failed _ _ E).
Qed.

(** C5. On every parse failure [to_date] returns [None] and does not raise:
    when [strptime] refuses the string cut by [date_str[2:-7]]; in
    particular when the length is wrong (fewer than 18 or more than 23
    characters), when a character of the cut is neither a digit nor a space,
    and when the fourteen digits [YYYYMMDDHHMMSS] of a string of 23
    characters do not form a date that exists and a time of the day.  On a
    successful parse [to_date] returns the local [datetime] the host gives
    for the fields read; for fourteen valid digits these are the fields
    [YYYY], [MM], [DD], [HH], [MM], [SS].  An exception can only come out of
    the host's conversion of a parsed time, and not as a [ValueError]; on a
    host whose [mktime] and [fromtimestamp] raise nothing else, [to_date]
    never raises. *)
Theorem to_date_spec :
  (forall date_str e,
      strptime (py_slice date_str 2 (-7)) = Raise e -> to_date date_str = Ok None)
  /\ (forall date_str ts,
        strptime (py_slice date_str 2 (-7)) = Ok ts ->
        to_date date_str = local_datetime ts)
  /\ (forall date_str,
        (length date_str < 18 \/ 23 < length date_str)%nat ->
        to_date date_str = Ok None)
  /\ (forall date_str c,
        c ∈ py_slice date_str 2 (-7) -> is_decimal c = false -> c <> 32%N ->
        to_date date_str = Ok None)
  /\ (forall prefix suffix Y m d H' M S,
        length prefix = 2%nat -> length suffix = 7%nat ->
        0 <= Y <= 9999 -> 0 <= m <= 99 -> 0 <= d <= 99 ->
        0 <= H' <= 99 -> 0 <= M <= 99 -> 0 <= S <= 99 ->
        to_date (prefix ++ core Y m d H' M S ++ suffix)
        = if fields_valid Y m d H' M S
          then local_datetime {| tm_year := Y; tm_mon := m; tm_mday := d;
                                 tm_hour := H'; tm_min := M; tm_sec := S |}
          else Ok None)
  /\ (forall date_str e,
        to_date date_str = Raise e ->
        is_ValueError e = false
        /\ exists ts, strptime (py_slice date_str 2 (-7)) = Ok ts
                      /\ mktime ts ≫= fromtimestamp = Raise e)
  /\ ((forall ts e, mktime ts = Raise e -> is_ValueError e = true) ->
      (forall t e, fromtimestamp t = Raise e -> is_ValueError e = true) ->
      forall date_str, exists r, to_date date_str = Ok r).
Proof.
  assert (Hraise : forall date_str e,
             to_date date_str = Raise e ->
             is_ValueError e = false
             /\ exists ts, strptime (py_slice date_str 2 (-7)) = Ok ts
                           /\ mktime ts ≫= fromtimestamp = Raise e).
  { intros date_str e E.
    destruct (strptime (py_slice date_str 2 (-7))) as [ts|e'] eqn:Ep.
    - rewrite (to_date_parsed _ _ Ep) in E. unfold local_datetime in E.
      destruct (mktime ts ≫= fromtimestamp) as [dt|e'] eqn:Eh; [discriminate|].
      destruct (is_ValueError e') eqn:Ev; [discriminate|].
      injection E as <-. split; [exact Ev|]. exists ts.
      split; [reflexivity | exact Eh].
    - rewrite (to_date_failed _ _ Ep) in E. discriminate. }
  split; [exact to_date_failed|]. split; [exact to_date_parsed|].
  split; [exact to_date_bad_length|].
  split; [|split; [exact to_date_core|split; [exact Hraise|]]].
  - intros date_str c Hc Hd Hsp.
    destruct (strptime (py_slice date_str 2 (-7))) as [ts|e] eqn:Ep.
    + apply strptime_Ok in Ep as (_ & Hch & _). rewrite Forall_forall in Hch.
      destruct (Hch c Hc); congruence.
    + exact (to_date_failed _ _ Ep).
  - intros Hmk Hft date_str. destruct (to_date date_str) as [r|e] eqn:E; [eauto|].
    destruct (Hraise _ _ E) as (Hv & ts & _ & Eh).
    destruct (mktime ts) as [t|e'] eqn:Em; cbn [mbind outcome_bind] in Eh.
    + apply Hft in Eh. congruence.
    + injection Eh as ->. apply Hmk in Em. congruence.
Qed.

(** C10, amended. [to_date] succeeds only on strings of 18 to 23 characters
    whose cut [date_str[2:-7]] (9 to 14 characters) [strptime] accepts: four
    digits for the year, then one or two digits for each of month, day, hour,
    minute and second, naming a date that exists.  When the string has 23
    characters and the cut is fourteen digits, these must form a valid
    [YYYYMMDDHHMMSS].  On every string of fewer than 18 or more than 23
    characters, ["D:20230101120000"] among them, [strptime] fails and
    [to_date] returns [None], and a [CreationDate] or [ModDate] on which
    [to_date] returns [None] leaves [createdAt] or [updatedAt] out. *)
Theorem to_date_succeeds_only :
  (forall date_str dt,
      to_date date_str = Ok (Some dt) ->
      (18 <= length date_str <= 23)%nat
      /\ exists ts,
           strptime (py_slice date_str 2 (-7)) = Ok ts
           /\ (9 <= length (py_slice date_str 2 (-7)) <= 14)%nat
           /\ date_exists (tm_year ts) (tm_mon ts) (tm_mday ts) = true
           /\ mktime ts ≫= fromtimestamp = Ok dt)
  /\ (forall prefix suffix Y m d H' M S dt,
        length prefix = 2%nat -> length suffix = 7%nat ->
        0 <= Y <= 9999 -> 0 <= m <= 99 -> 0 <= d <= 99 ->
        0 <= H' <= 99 -> 0 <= M <= 99 -> 0 <= S <= 99 ->
        to_date (prefix ++ core Y m d H' M S ++ suffix) = Ok (Some dt) ->
        fields_valid Y m d H' M S = true)
  /\ (forall date_str,
        (length date_str < 18 \/ 23 < length date_str)%nat ->
        to_date date_str = Ok None)
  /\ to_date (pys "D:20230101120000") = Ok None
  /\ (forall doc pages value s,
        decode value = Ok s -> to_date s = Ok None ->
        (items_of doc !! pys "CreationDate" = Some value ->
         get_document_metadata doc pages !! "createdAt" = None)
        /\ (items_of doc !! pys "ModDate" = Some value ->
            get_document_metadata doc pages !! "updatedAt" = None)).
Proof.
  split; [|split; [|split; [exact to_date_bad_length|split; [reflexivity|]]]].
  - intros date_str dt E. destruct (to_date_Some _ _ E) as (ts & Ep & Eh).
    destruct (strptime_Ok _ _ Ep) as (Hl & _ & Hd).
    split; [rewrite py_slice_length in Hl; lia|].
    exists ts. repeat split; try assumption; lia.
  - intros prefix suffix Y m d H' M S dt Hp Hs HY Hm Hd HH HM HS E.
    rewrite to_date_core in E by assumption.
    destruct (fields_valid Y m d H' M S); [reflexivity|discriminate].
  - intros doc pages value s Hdec Hnone. split; intros Hk;
      rewrite metadata_lookup; unfold expected;
      repeat (case_decide; try discriminate; try congruence);
      rewrite Hk; cbn [mbind option_bind]; unfold date_of;
      rewrite Hdec; cbn [mbind outcome_bind]; rewrite Hnone; reflexivity.
Qed.
End ToDateProps.

(** C10, as stated, fails on a string of 19 characters: the cut of
    ["D:2023111111+00'00'"] is ["2023111111"], which [strptime] reads as
    2023-11-01 01:01:01, each field after the year taking one digit. *)
Lemma to_date_nineteen_characters :
  length (pys "D:2023111111+00'00'") = 19%nat
  /\ strptime (py_slice (pys "D:2023111111+00'00'") 2 (-7))
     = Ok {| tm_year := 2023; tm_mon := 11; tm_mday := 1;
             tm_hour := 1; tm_min := 1; tm_sec := 1 |}
  /\ to_date (H := UTC.local_time) (pys "D:2023111111+00'00'")
     = Ok (Some {| year := 2023; month := 11; day := 1;
                   hour := 1; minute := 1; second := 1 |}).
Proof. repeat split; vm_compute; reflexivity. Qed.

Lemma to_date_spec_witness :
  length (pys "D:") = 2%nat /\ length (pys "+00'00'") = 7%nat
  /\ to_date (H := UTC.local_time)
       (pys "D:" ++ core 2023 1 1 12 0 0 ++ pys "+00'00'")
     = Ok (Some {| year := 2023; month := 1; day := 1;
                   hour := 12; minute := 0; second := 0 |})
  /\ strptime (py_slice (pys "D:2023-01-01") 2 (-7)) = Raise ValueError
  /\ to_date (H := UTC.local_time) (pys "D:2023-01-01") = Ok None
  /\ exists r, to_date (H := UTC.local_time) (pys "D:00010101000000+00'00'") = Ok r.
Proof.
  destruct (to_date_spec (H := UTC.local_time))
    as (Hfail & _ & _ & _ & Hcore & _ & Hnever).
  split; [reflexivity|]. split; [reflexivity|]. split; [|split; [|split]].
  - rewrite (Hcore (pys "D:") (pys "+00'00'") 2023 1 1 12 0 0)
      by (reflexivity || lia).
    vm_compute. reflexivity.
  - vm_compute. reflexivity.
  - apply (Hfail (pys "D:2023-01-01") ValueError). vm_compute. reflexivity.
  - apply Hnever.
    + intros ts e Hmk. discriminate Hmk.
    + intros t e Hft. cbn [fromtimestamp UTC.local_time] in Hft.
      destruct (UTC.civil_from_days (t / 86400)) as [[y m] d].
      destruct (UTC.civil_from_days ((t - 86400) / 86400)) as [[y0 m0] d0].
      destruct ((1 <=? y0) && (y <=? 9999)); [discriminate|].
      injection Hft as <-. reflexivity.
Defined.

Lemma to_date_succeeds_only_witness :
  to_date (H := UTC.local_time) (pys "D:2023111111+00'00'")
  = Ok (Some {| year := 2023; month := 11; day := 1;
                hour := 1; minute := 1; second := 1 |})
  /\ (18 <= length (pys "D:2023111111+00'00'") <= 23)%nat.
Proof.
  assert (E : to_date (H := UTC.local_time) (pys "D:2023111111+00'00'")
              = Ok (Some {| year := 2023; month := 11; day := 1;
                            hour := 1; minute := 1; second := 1 |}))
    by (vm_compute; reflexivity).
  split; [exact E|].
  destruct (to_date_succeeds_only (H := UTC.local_time)) as (Honly & _).
  destruct (Honly _ _ E) as (Hlen & _). exact Hlen.
Defined.

Lemma keywords_split_witness :
  items_of {| info := [ {[ pys "Keywords" := PBytes (pyb "a, b ,c") ]} ] |}
    !! pys "Keywords" = Some (PBytes (pyb "a, b ,c"))
  /\ decode (PBytes (pyb "a, b ,c")) = Ok (pys "a, b ,c")
  /\ strip (pys "a, b ,c") <> []
  /\ exists parts,
       parts = [pys "a"; pys " b "; pys "c"]
       /\ get_document_metadata (H := UTC.local_time)
            {| info := [ {[ pys "Keywords" := PBytes (pyb "a, b ,c") ]} ] |} 3
          !! "keywords" = Some (MList (map strip parts)).
Proof.
  assert (H1 : items_of {| info := [ {[ pys "Keywords" := PBytes (pyb "a, b ,c") ]} ] |}
                 !! pys "Keywords" = Some (PBytes (pyb "a, b ,c"))) by reflexivity.
  assert (H2 : decode (PBytes (pyb "a, b ,c")) = Ok (pys "a, b ,c")) by reflexivity.
  assert (H3 : strip (pys "a, b ,c") <> []) by (vm_compute; discriminate).
  split; [exact H1|]. split; [exact H2|]. split; [exact H3|].
  destruct (proj1 (keywords_split (H := UTC.local_time)) _ 3 _ _ H1 H2 H3)
    as (parts & Hp & _ & _ & Hk).
  exists parts. split; [rewrite Hp; vm_compute; reflexivity | exact Hk].
Defined.

(** * Further properties *)

(** ** Timestamps of any sign *)

Lemma format_timestamp_clock seconds always_include_hours decimal_marker ms :
  py_round (float_mul seconds f1000) = Ok ms ->
  format_timestamp seconds always_include_hours decimal_marker
  = Ok (clock ms always_include_hours decimal_marker).
Proof.
  intros Hr. unfold format_timestamp, clock. rewrite Hr. cbn [mbind outcome_bind].
  set (h := ms / 3600000).
  replace (ms - h * 3600000) with (ms mod 3600000) by (unfold h; euclid).
  set (ms1 := ms mod 3600000).
  replace (ms1 - ms1 / 60000 * 60000) with (ms mod 60000) by (unfold ms1; euclid).
  set (ms2 := ms mod 60000).
  replace (ms2 - ms2 / 1000 * 1000) with (ms mod 1000) by (unfold ms2; euclid).
  rewrite (format_0d_two (ms1 / 60000)), (format_0d_two (ms2 / 1000)),
    format_0d_three by (unfold ms1, ms2; euclid).
  reflexivity.
Qed.

Lemma float_mul_comm x y : float_mul x y = float_mul y x.
Proof.
  unfold float_mul.
  destruct x as [sx|sx| |sx mx ex], y as [sy|sy| |sy my ey]; cbn [SFmul];
    rewrite ?(xorb_comm sx sy); try reflexivity.
  rewrite (Pos.mul_comm mx my), (Z.add_comm ex ey). reflexivity.
Qed.

(** X1. A negative time is not refused: its milliseconds are taken modulo
    one hour.  Without [always_include_hours] the hours are dropped and the
    string is the timestamp of [ms mod 3600000], in the fixed pattern
    [MM:SS<marker>mmm]; with it the string starts with a minus sign. *)
Theorem format_timestamp_negative (seconds : float) (marker : str) (ms : Z) :
  py_round (float_mul seconds f1000) = Ok ms ->
  ms < 0 ->
  format_timestamp seconds false marker = Ok (clock (ms mod 3600000) false marker)
  /\ (exists s, format_timestamp seconds false marker = Ok s
                /\ fits_fixed_pattern false marker s)
  /\ exists rest, format_timestamp seconds true marker = Ok (45%N :: rest).
Proof.
  intros Hr Hneg.
  assert (E : clock ms false marker = clock (ms mod 3600000) false marker).
  { unfold clock. cbn [orb].
    replace (0 <? ms / 3600000) with false by (symmetry; apply Z.ltb_ge; euclid).
    replace (0 <? ms mod 3600000 / 3600000) with false
      by (symmetry; apply Z.ltb_ge; euclid).
    replace (ms mod 3600000 mod 3600000) with (ms mod 3600000) by euclid.
    replace (ms mod 3600000 mod 60000) with (ms mod 60000) by euclid.
    replace (ms mod 3600000 mod 1000) with (ms mod 1000) by euclid.
    reflexivity. }
  split; [|split].
  - rewrite (format_timestamp_clock _ _ _ _ Hr). f_equal. exact E.
  - eexists. split; [apply (format_timestamp_clock _ _ _ _ Hr)|].
    unfold clock. cbn [orb].
    replace (0 <? ms / 3600000) with false by (symmetry; apply Z.ltb_ge; euclid).
    apply fits_no_hours.
  - rewrite (format_timestamp_clock _ _ _ _ Hr). unfold clock. cbn [orb].
    unfold format_0d.
    replace (ms / 3600000 <? 0) with true by (symmetry; apply Z.ltb_lt; euclid).
    eexists. reflexivity.
Qed.

Lemma format_timestamp_negative_witness :
  py_round (float_mul (SFopp (float_of 1 (-1))) f1000) = Ok (-500)
  /\ -500 < 0
  /\ format_timestamp (SFopp (float_of 1 (-1))) false (pys ".") = Ok (pys "59:59.500").
Proof.
  assert (Hr : py_round (float_mul (SFopp (float_of 1 (-1))) f1000) = Ok (-500))
    by (vm_compute; reflexivity).
  split; [exact Hr|]. split; [lia|].
  destruct (format_timestamp_negative _ (pys ".") _ Hr ltac:(lia)) as (-> & _).
  vm_compute. reflexivity.
Defined.

(** X2. The TSV writer and [format_timestamp] round the same float:
    [1000 * x] and [x * 1000.0] are equal, so the integer a TSV row holds is
    the number of milliseconds the timestamp of the same time spells. *)
Theorem tsv_agrees_with_timestamp (x : float) (always_include_hours : bool)
    (marker : str) :
  py_round (float_mul f1000 x) = py_round (float_mul x f1000)
  /\ (float_is_finite (float_mul f1000 x) = true ->
      py_round (float_mul f1000 x) = Ok (millis x)
      /\ format_timestamp x always_include_hours marker
         = Ok (clock (millis x) always_include_hours marker)).
Proof.
  split; [rewrite float_mul_comm; reflexivity|].
  intros Hfin. pose proof (millis_finite _ Hfin) as Hm. split; [exact Hm|].
  apply format_timestamp_clock. rewrite float_mul_comm. exact Hm.
Qed.

Lemma tsv_agrees_with_timestamp_witness :
  float_is_finite (float_mul f1000 (float_of 3 (-1))) = true
  /\ py_round (float_mul f1000 (float_of 3 (-1))) = Ok 1500
  /\ format_timestamp (float_of 3 (-1)) false (pys ".") = Ok (pys "00:01.500").
Proof.
  split; [reflexivity|].
  destruct (tsv_agrees_with_timestamp (float_of 3 (-1)) false (pys "."))
    as (_ & Hx).
  destruct (Hx eq_refl) as (-> & ->). split; vm_compute; reflexivity.
Defined.

(** ** Telling times apart *)

Lemma digit_char_inj a b :
  0 <= a <= 9 -> 0 <= b <= 9 -> digit_char a = digit_char b -> a = b.
Proof. unfold digit_char. lia. Qed.

Lemma two_digits_inj a b :
  0 <= a < 100 -> 0 <= b < 100 -> two_digits a = two_digits b -> a = b.
Proof.
  intros Ha Hb E. unfold two_digits in E. injection E as E1 E2.
  apply digit_char_inj in E1; [|euclid|euclid].
  apply digit_char_inj in E2; [|euclid|euclid]. euclid.
Qed.

Lemma three_digits_inj a b :
  0 <= a < 1000 -> 0 <= b < 1000 -> three_digits a = three_digits b -> a = b.
Proof.
  intros Ha Hb E. unfold three_digits in E. injection E as E1 E2 E3.
  apply digit_char_inj in E1; [|euclid|euclid].
  apply digit_char_inj in E2; [|euclid|euclid].
  apply digit_char_inj in E3; [|euclid|euclid]. euclid.
Qed.

Lemma clock_inj ms1 ms2 always_include_hours marker :
  0 <= ms1 -> 0 <= ms2 ->
  clock ms1 always_include_hours marker = clock ms2 always_include_hours marker ->
  ms1 = ms2.
Proof.
  intros H1 H2 E. unfold clock in E.
  apply app_inj_2 in E as [Eh Et];
    [|cbn [two_digits three_digits app pys map list_ascii_of_string length];
      rewrite !length_app; reflexivity].
  assert (Hh : ms1 / 3600000 = ms2 / 3600000).
  { assert (0 <= ms1 / 3600000) by (apply Z.div_pos; lia).
    assert (0 <= ms2 / 3600000) by (apply Z.div_pos; lia).
    destruct always_include_hours; cbn [orb] in Eh.
    - apply app_inj_2 in Eh as [Eh _]; [|reflexivity].
      apply (f_equal (digits_value 0)) in Eh.
      rewrite !digits_value_format_0d in Eh by assumption. congruence.
    - destruct (Z.ltb_spec 0 (ms1 / 3600000)), (Z.ltb_spec 0 (ms2 / 3600000)).
      + apply app_inj_2 in Eh as [Eh _]; [|reflexivity].
        apply (f_equal (digits_value 0)) in Eh.
        rewrite !digits_value_format_0d in Eh by assumption. congruence.
      + apply (f_equal (@length N)) in Eh. rewrite length_app in Eh.
        cbn in Eh. lia.
      + apply (f_equal (@length N)) in Eh. rewrite length_app in Eh.
        cbn in Eh. lia.
      + lia. }
  cbn [two_digits app pys map list_ascii_of_string] in Et.
  injection Et as Em1 Em2 Es1 Es2 Et.
  apply app_inv_head in Et. apply three_digits_inj in Et; [|euclid|euclid].
  apply digit_char_inj in Em1; [|euclid|euclid].
  apply digit_char_inj in Em2; [|euclid|euclid].
  apply digit_char_inj in Es1; [|euclid|euclid].
  apply digit_char_inj in Es2; [|euclid|euclid].
  euclid.
Qed.

(** X3. Two non-negative times are written as the same timestamp only when
    they round to the same number of milliseconds: the string determines
    the milliseconds, with or without the hours forced. *)
Theorem format_timestamp_injective (t1 t2 : float) (always_include_hours : bool)
    (marker s : str) :
  float_nonneg t1 = true -> float_nonneg t2 = true ->
  format_timestamp t1 always_include_hours marker = Ok s ->
  format_timestamp t2 always_include_hours marker = Ok s ->
  py_round (float_mul t1 f1000) = py_round (float_mul t2 f1000).
Proof.
  intros Hn1 Hn2 E1 E2.
  destruct (format_timestamp_Ok _ _ _ _ Hn1 E1) as (ms1 & Hr1 & Hms1).
  destruct (format_timestamp_Ok _ _ _ _ Hn2 E2) as (ms2 & Hr2 & Hms2).
  rewrite (format_timestamp_clock _ _ _ _ Hr1) in E1.
  rewrite (format_timestamp_clock _ _ _ _ Hr2) in E2.
  rewrite Hr1, Hr2. f_equal.
  apply (clock_inj _ _ always_include_hours marker); congruence.
Qed.

Lemma format_timestamp_injective_witness :
  float_nonneg (float_of 3 (-1)) = true
  /\ float_nonneg (float_of 6145 (-12)) = true
  /\ format_timestamp (float_of 3 (-1)) false (pys ".") = Ok (pys "00:01.500")
  /\ format_timestamp (float_of 6145 (-12)) false (pys ".") = Ok (pys "00:01.500")
  /\ py_round (float_mul (float_of 3 (-1)) f1000)
     = py_round (float_mul (float_of 6145 (-12)) f1000).
Proof.
  split; [reflexivity|]. split; [reflexivity|].
  split; [vm_compute; reflexivity|]. split; [vm_compute; reflexivity|].
  apply (format_timestamp_injective _ _ false (pys ".") (pys "00:01.500"));
    vm_compute; reflexivity.
Defined.

(** ** What each writer writes *)

Lemma format_timestamp_millis x always_include_hours marker :
  float_is_finite (float_mul f1000 x) = true ->
  format_timestamp x always_include_hours marker
  = Ok (clock (millis x) always_include_hours marker).
Proof.
  intros Hfin. apply format_timestamp_clock. rewrite float_mul_comm.
  apply millis_finite, Hfin.
Qed.

Lemma py_round_not_finite x :
  float_is_finite x = false -> py_round x = Raise (round_error x).
Proof. destruct x; try discriminate; reflexivity. Qed.

Lemma format_timestamp_not_finite x always_include_hours marker :
  float_is_finite (float_mul f1000 x) = false ->
  format_timestamp x always_include_hours marker
  = Raise (round_error (float_mul f1000 x)).
Proof.
  intros Hfin. unfold format_timestamp. rewrite (float_mul_comm x f1000).
  rewrite (py_round_not_finite _ Hfin). reflexivity.
Qed.

Lemma time_error_None segment : time_error segment = None <-> finite_times segment.
Proof.
  unfold time_error, finite_times.
  destruct (float_is_finite (float_mul f1000 (start segment)));
    destruct (float_is_finite (float_mul f1000 (end_ segment)));
    cbn [negb]; split; try discriminate; intuition congruence.
Qed.

(** A loop that stops at the first item whose turn raises. *)
Lemma for_each_stops {A} (pre : list A) x post (body : A -> IO unit)
    (line : A -> str) (partial : str) e f :
  (forall y f', y ∈ pre -> body y f' = (f' ++ line y, Ok tt)) ->
  (forall f', body x f' = (f' ++ partial, Raise e)) ->
  for_each (pre ++ x :: post) body f
  = (f ++ concat (map line pre) ++ partial, Raise e).
Proof.
  revert f. induction pre as [|y pre IH]; intros f Hpre Hx;
    cbn [app for_each map concat]; unfold mbind, IO_bind.
  - rewrite Hx. reflexivity.
  - rewrite Hpre by left. fold (@for_each A).
    change (for_each (pre ++ x :: post) body (f ++ line y)
            = (f ++ (line y ++ concat (map line pre)) ++ partial, Raise e)).
    rewrite IH by (auto; intros; apply Hpre; right; assumption).
    rewrite <- !app_assoc. reflexivity.
Qed.

Lemma enumerate_app {A} (l1 l2 : list A) k :
  enumerate (l1 ++ l2) k = enumerate l1 k ++ enumerate l2 (k + Z.of_nat (length l1)).
Proof.
  revert k. induction l1 as [|x l1 IH]; intros k; cbn [app enumerate length].
  - rewrite Z.add_0_r. reflexivity.
  - rewrite IH. do 3 f_equal. lia.
Qed.

Lemma enumerate_lookup {A} (l : list A) k (i : nat) :
  enumerate l k !! i = (fun x => (k + Z.of_nat i, x)) <$> l !! i.
Proof.
  revert k i. induction l as [|x l IH]; intros k i; [reflexivity|].
  destruct i as [|i]; cbn [enumerate].
  - cbn. rewrite Z.add_0_r. reflexivity.
  - change ((x :: l) !! S i) with (l !! i).
    change (((k, x) :: enumerate l (k + 1)) !! S i) with (enumerate l (k + 1) !! i).
    rewrite IH. destruct (l !! i); cbn; [do 2 f_equal; lia | reflexivity].
Qed.

Lemma enumerate_snd {A} (l : list A) k : map snd (enumerate l k) = l.
Proof.
  revert k. induction l as [|x l IH]; intros k; cbn [enumerate map snd];
    [reflexivity | rewrite IH; reflexivity].
Qed.

Lemma vtt_body segment f :
  finite_times segment ->
  (t0 ← lift (format_timestamp (start segment) false (pys "."));
   t1 ← lift (format_timestamp (end_ segment) false (pys "."));
   print (t0 ++ pys " --> " ++ t1 ++ nl ++ WriteVTT.cue_text segment ++ nl) nl) f
  = (f ++ vtt_cue segment, Ok tt).
Proof.
  intros (Hs & He). unfold mbind, IO_bind, lift, print, vtt_cue.
  rewrite (format_timestamp_millis _ _ _ Hs), (format_timestamp_millis _ _ _ He).
  rewrite <- !app_assoc. reflexivity.
Qed.

Lemma vtt_body_error segment e f :
  time_error segment = Some e ->
  (t0 ← lift (format_timestamp (start segment) false (pys "."));
   t1 ← lift (format_timestamp (end_ segment) false (pys "."));
   print (t0 ++ pys " --> " ++ t1 ++ nl ++ WriteVTT.cue_text segment ++ nl) nl) f
  = (f ++ [], Raise e).
Proof.
  unfold time_error. intros He. unfold mbind, IO_bind, lift. rewrite app_nil_r.
  destruct (float_is_finite (float_mul f1000 (start segment))) eqn:Hs; cbn [negb] in He.
  - rewrite (format_timestamp_millis _ _ _ Hs).
    destruct (float_is_finite (float_mul f1000 (end_ segment))) eqn:He';
      cbn [negb] in He; [discriminate|].
    rewrite (format_timestamp_not_finite _ _ _ He'). congruence.
  - rewrite (format_timestamp_not_finite _ _ _ Hs). congruence.
Qed.

Lemma srt_body numbered f :
  finite_times (snd numbered) ->
  (let '(i, segment) := numbered in
   t0 ← lift (format_timestamp (start segment) true (pys ","));
   t1 ← lift (format_timestamp (end_ segment) true (pys ","));
   print (str_of_int i ++ nl ++ t0 ++ pys " --> " ++ t1 ++ nl
            ++ WriteSRT.cue_text segment ++ nl) nl) f
  = (f ++ srt_cue numbered, Ok tt).
Proof.
  destruct numbered as [i segment]. cbn [snd]. intros (Hs & He).
  unfold mbind, IO_bind, lift, print, srt_cue. cbn [fst snd].
  rewrite (format_timestamp_millis _ _ _ Hs), (format_timestamp_millis _ _ _ He).
  rewrite <- !app_assoc. reflexivity.
Qed.

Lemma srt_body_error numbered e f :
  time_error (snd numbered) = Some e ->
  (let '(i, segment) := numbered in
   t0 ← lift (format_timestamp (start segment) true (pys ","));
   t1 ← lift (format_timestamp (end_ segment) true (pys ","));
   print (str_of_int i ++ nl ++ t0 ++ pys " --> " ++ t1 ++ nl
            ++ WriteSRT.cue_text segment ++ nl) nl) f
  = (f ++ [], Raise e).
Proof.
  destruct numbered as [i segment]. cbn [snd].
  unfold time_error. intros He. unfold mbind, IO_bind, lift. rewrite app_nil_r.
  destruct (float_is_finite (float_mul f1000 (start segment))) eqn:Hs; cbn [negb] in He.
  - rewrite (format_timestamp_millis _ _ _ Hs).
    destruct (float_is_finite (float_mul f1000 (end_ segment))) eqn:He';
      cbn [negb] in He; [discriminate|].
    rewrite (format_timestamp_not_finite _ _ _ He'). congruence.
  - rewrite (format_timestamp_not_finite _ _ _ Hs). congruence.
Qed.

Lemma elem_of_enumerate {A} (l : list A) k (y : Z * A) :
  y ∈ enumerate l k -> snd y ∈ l.
Proof.
  intros Hy. rewrite <- (enumerate_snd l k). apply list_elem_of_fmap.
  exists y. split; [reflexivity | exact Hy].
Qed.

(** X4. The text writer writes, for each segment in order, its trimmed text
    and a newline, and nothing else: no header, and no character of the
    trimmed text is changed.  It raises on no list of segments, and no text
    written starts or ends with whitespace. *)
Theorem txt_lines (result : gmap string (list Segment)) (segments : list Segment)
    (file : str) :
  result !! "segments" = Some segments ->
  WriteTXT.write_result result file
  = (file ++ concat (map txt_line segments), Ok tt)
  /\ Forall (fun segment =>
       txt_line segment = strip (text segment) ++ nl
       /\ trimmed (strip (text segment))) segments.
Proof.
  intros Hseg. split.
  - unfold WriteTXT.write_result, mbind, IO_bind, lift, getitem. rewrite Hseg.
    apply for_each_appends. intros x f' _. reflexivity.
  - apply Forall_forall. intros segment _. split; [reflexivity|].
    destruct (strip_spec (text segment)) as (l & r & _ & _ & _ & Hh & Ht).
    split; assumption.
Qed.

Lemma txt_lines_witness :
  ({[ "segments" := [tsv_sample] ]} : gmap string (list Segment)) !! "segments"
  = Some [tsv_sample]
  /\ WriteTXT.write_result {[ "segments" := [tsv_sample] ]} []
     = (pys "a" ++ tab ++ pys "b" ++ nl, Ok tt).
Proof.
  assert (Hl : ({[ "segments" := [tsv_sample] ]} : gmap string (list Segment))
                 !! "segments" = Some [tsv_sample]) by reflexivity.
  split; [exact Hl|].
  destruct (txt_lines {[ "segments" := [tsv_sample] ]} [tsv_sample] [] Hl) as [-> _].
  vm_compute. reflexivity.
Defined.

(** X5. On segments whose times stay finite in milliseconds the WebVTT
    writer writes the line [WEBVTT], an empty line, and then for each
    segment in order a cue: the timestamps of [round(1000*start)] and
    [round(1000*end)] with a dot, the hours only when they are positive,
    joined by [" --> "], then the cue text, then an empty line. *)
Theorem vtt_cues (result : gmap string (list Segment)) (segments : list Segment)
    (file : str) :
  result !! "segments" = Some segments ->
  Forall finite_times segments ->
  WriteVTT.write_result result file
  = (file ++ vtt_header ++ concat (map vtt_cue segments), Ok tt).
Proof.
  intros Hseg Hfin.
  unfold WriteVTT.write_result, mbind, IO_bind, lift, getitem.
  rewrite Hseg. unfold print at 1.
  rewrite (for_each_appends segments _ vtt_cue).
  - unfold vtt_header. rewrite <- !app_assoc. reflexivity.
  - intros x f' Hx. apply vtt_body. rewrite Forall_forall in Hfin. apply Hfin, Hx.
Qed.

Lemma vtt_cues_witness :
  ({[ "segments" := [tsv_sample] ]} : gmap string (list Segment)) !! "segments"
  = Some [tsv_sample]
  /\ Forall finite_times [tsv_sample]
  /\ WriteVTT.write_result {[ "segments" := [tsv_sample] ]} []
     = (pys "WEBVTT" ++ nl ++ nl ++ pys "00:01.500 --> 00:02.500" ++ nl
          ++ pys "a" ++ tab ++ pys "b" ++ nl ++ nl, Ok tt).
Proof.
  assert (Hl : ({[ "segments" := [tsv_sample] ]} : gmap string (list Segment))
                 !! "segments" = Some [tsv_sample]) by reflexivity.
  assert (Hfin : Forall finite_times [tsv_sample]).
  { constructor; [|constructor]. split; reflexivity. }
  split; [exact Hl|]. split; [exact Hfin|].
  rewrite (vtt_cues {[ "segments" := [tsv_sample] ]} [tsv_sample] [] Hl Hfin).
  vm_compute. reflexivity.
Defined.

(** X6. On segments whose times stay finite in milliseconds the SubRip
    writer writes no header and for each segment in order a cue: its
    number, counted from 1, on a line of its own, the two timestamps with
    the hours always shown and a comma before the milliseconds, the cue
    text, and an empty line.  The segment at index [i] has the number
    [i + 1]. *)
Theorem srt_cues (result : gmap string (list Segment)) (segments : list Segment)
    (file : str) :
  result !! "segments" = Some segments ->
  Forall finite_times segments ->
  WriteSRT.write_result result file
  = (file ++ concat (map srt_cue (enumerate segments 1)), Ok tt)
  /\ forall (i : nat) segment,
       segments !! i = Some segment ->
       enumerate segments 1 !! i = Some (Z.of_nat i + 1, segment).
Proof.
  intros Hseg Hfin. split.
  - unfold WriteSRT.write_result, mbind, IO_bind, lift, getitem. rewrite Hseg.
    apply for_each_appends. intros y f' Hy.
    apply (srt_body y f'). rewrite Forall_forall in Hfin.
    apply Hfin. apply (elem_of_enumerate _ 1). exact Hy.
  - intros i segment Hi. rewrite enumerate_lookup, Hi. cbn. do 2 f_equal. lia.
Qed.

Lemma srt_cues_witness :
  ({[ "segments" := [tsv_sample; tsv_sample] ]} : gmap string (list Segment))
    !! "segments" = Some [tsv_sample; tsv_sample]
  /\ Forall finite_times [tsv_sample; tsv_sample]
  /\ WriteSRT.write_result {[ "segments" := [tsv_sample; tsv_sample] ]} []
     = (pys "1" ++ nl ++ pys "00:00:01,500 --> 00:00:02,500" ++ nl
          ++ pys "a" ++ tab ++ pys "b" ++ nl ++ nl
          ++ pys "2" ++ nl ++ pys "00:00:01,500 --> 00:00:02,500" ++ nl
          ++ pys "a" ++ tab ++ pys "b" ++ nl ++ nl, Ok tt).
Proof.
  assert (Hl : ({[ "segments" := [tsv_sample; tsv_sample] ]}
                  : gmap string (list Segment))
                 !! "segments" = Some [tsv_sample; tsv_sample]) by reflexivity.
  assert (Hfin : Forall finite_times [tsv_sample; tsv_sample]).
  { repeat constructor. }
  split; [exact Hl|]. split; [exact Hfin|].
  destruct (srt_cues {[ "segments" := [tsv_sample; tsv_sample] ]}
              [tsv_sample; tsv_sample] [] Hl Hfin) as [-> _].
  vm_compute. reflexivity.
Defined.

(** X7. A result without the key ["segments"] makes every text writer
    raise [KeyError].  The text and the SubRip writer have then written
    nothing; the WebVTT and the TSV writer have already written their
    header. *)
Theorem writers_without_segments (result : gmap string (list Segment))
    (file : str) :
  result !! "segments" = None ->
  WriteTXT.write_result result file = (file, Raise KeyError)
  /\ WriteSRT.write_result result file = (file, Raise KeyError)
  /\ WriteVTT.write_result result file = (file ++ vtt_header, Raise KeyError)
  /\ WriteTSV.write_result result file = (file ++ tsv_header, Raise KeyError).
Proof.
  intros Hseg.
  unfold WriteTXT.write_result, WriteSRT.write_result, WriteVTT.write_result,
    WriteTSV.write_result, mbind, IO_bind, lift, getitem, print,
    vtt_header, tsv_header.
  rewrite Hseg. rewrite <- !app_assoc. repeat split; reflexivity.
Qed.

Lemma writers_without_segments_witness :
  (∅ : gmap string (list Segment)) !! "segments" = None
  /\ WriteVTT.write_result ∅ [] = (pys "WEBVTT" ++ nl ++ nl, Raise KeyError)
  /\ WriteTXT.write_result ∅ [] = ([], Raise KeyError).
Proof.
  assert (Hl : (∅ : gmap string (list Segment)) !! "segments" = None) by reflexivity.
  split; [exact Hl|].
  destruct (writers_without_segments ∅ [] Hl) as (Ht & _ & Hv & _).
  split; [exact Hv | exact Ht].
Defined.

(** X8. A cue is written whole or not at all.  When a segment has a time
    that is not finite in milliseconds, the WebVTT and the SubRip writer
    raise the exception of [round] ([OverflowError] on an infinity,
    [ValueError] on a NaN) at that segment; the file then holds the cues of
    the segments before it, nothing of that segment, and nothing of those
    after it. *)
Theorem cues_stop_at_bad_time (result : gmap string (list Segment))
    (before after : list Segment) (bad : Segment) (e : exn) (file : str) :
  result !! "segments" = Some (before ++ bad :: after) ->
  Forall finite_times before ->
  time_error bad = Some e ->
  WriteVTT.write_result result file
  = (file ++ vtt_header ++ concat (map vtt_cue before), Raise e)
  /\ WriteSRT.write_result result file
     = (file ++ concat (map srt_cue (enumerate before 1)), Raise e)
  /\ (e = OverflowError \/ e = ValueError).
Proof.
  intros Hseg Hfin Hbad. rewrite Forall_forall in Hfin. split; [|split].
  - unfold WriteVTT.write_result, mbind, IO_bind, lift, getitem.
    rewrite Hseg. unfold print at 1.
    rewrite (for_each_stops before bad after _ vtt_cue [] e).
    + unfold vtt_header. rewrite app_nil_r, <- !app_assoc. reflexivity.
    + intros y f' Hy. apply vtt_body, Hfin, Hy.
    + intros f'. apply vtt_body_error, Hbad.
  - unfold WriteSRT.write_result, mbind, IO_bind, lift, getitem.
    rewrite Hseg, enumerate_app. cbn [enumerate].
    rewrite (for_each_stops (enumerate before 1) _ _ _ srt_cue [] e).
    + rewrite app_nil_r. reflexivity.
    + intros y f' Hy. apply (srt_body y f'), Hfin.
      apply (elem_of_enumerate _ 1), Hy.
    + intros f'. apply (srt_body_error (_, bad)). exact Hbad.
  - unfold time_error in Hbad.
    destruct (negb _); [|destruct (negb _); [|discriminate]];
      injection Hbad as <-;
      match goal with |- context [round_error ?x] => destruct x end; auto.
Qed.

Lemma cues_stop_at_bad_time_witness :
  ({[ "segments" := [tsv_sample; endless_sample; tsv_sample] ]}
     : gmap string (list Segment)) !! "segments"
  = Some ([tsv_sample] ++ endless_sample :: [tsv_sample])
  /\ Forall finite_times [tsv_sample]
  /\ time_error endless_sample = Some OverflowError
  /\ WriteVTT.write_result
       {[ "segments" := [tsv_sample; endless_sample; tsv_sample] ]} []
     = (pys "WEBVTT" ++ nl ++ nl ++ pys "00:01.500 --> 00:02.500" ++ nl
          ++ pys "a" ++ tab ++ pys "b" ++ nl ++ nl, Raise OverflowError).
Proof.
  assert (Hl : ({[ "segments" := [tsv_sample; endless_sample; tsv_sample] ]}
                  : gmap string (list Segment)) !! "segments"
               = Some ([tsv_sample] ++ endless_sample :: [tsv_sample]))
    by reflexivity.
  assert (Hfin : Forall finite_times [tsv_sample]) by (repeat constructor).
  assert (He : time_error endless_sample = Some OverflowError) by reflexivity.
  split; [exact Hl|]. split; [exact Hfin|]. split; [exact He|].
  destruct (cues_stop_at_bad_time _ _ _ _ _ [] Hl Hfin He) as (-> & _).
  vm_compute. reflexivity.
Defined.

Lemma tsv_body_error segment e f :
  time_error segment = Some e ->
  (a ← lift (py_round (float_mul f1000 (start segment)));
   _ ← print (str_of_int a) tab;
   b ← lift (py_round (float_mul f1000 (end_ segment)));
   _ ← print (str_of_int b) tab;
   print (WriteTSV.text_field segment) nl) f
  = (f ++ tsv_partial segment, Raise e).
Proof.
  unfold time_error, tsv_partial. intros He. unfold mbind, IO_bind, lift, print.
  destruct (float_is_finite (float_mul f1000 (start segment))) eqn:Hs; cbn [negb] in He.
  - rewrite (millis_finite _ Hs).
    destruct (float_is_finite (float_mul f1000 (end_ segment))) eqn:He';
      cbn [negb] in He; [discriminate|].
    rewrite (py_round_not_finite _ He'). congruence.
  - rewrite (py_round_not_finite _ Hs), app_nil_r. congruence.
Qed.

(** X9. A row of the TSV file can be left unfinished.  When [round] raises
    on [1000 * end] of a segment the row already holds the integer of
    [start] and a tab, and stays so; when it raises on [1000 * start]
    nothing of the row is written.  The rows of the segments before are
    whole, and nothing is written for the segments after. *)
Theorem tsv_stops_at_bad_time (result : gmap string (list Segment))
    (before after : list Segment) (bad : Segment) (e : exn) (file : str) :
  result !! "segments" = Some (before ++ bad :: after) ->
  Forall finite_times before ->
  time_error bad = Some e ->
  WriteTSV.write_result result file
  = (file ++ tsv_header ++ concat (map tsv_row before) ++ tsv_partial bad, Raise e)
  /\ (float_is_finite (float_mul f1000 (start bad)) = true ->
      tsv_partial bad = str_of_int (millis (start bad)) ++ tab)
  /\ (float_is_finite (float_mul f1000 (start bad)) = false ->
      tsv_partial bad = []).
Proof.
  intros Hseg Hfin Hbad. rewrite Forall_forall in Hfin. split; [|split].
  - unfold WriteTSV.write_result, mbind, IO_bind, lift, getitem.
    rewrite Hseg. unfold print at 1.
    rewrite (for_each_stops before bad after _ tsv_row (tsv_partial bad) e).
    + unfold tsv_header. rewrite <- !app_assoc. reflexivity.
    + intros y f' Hy. apply tsv_body, Hfin, Hy.
    + intros f'. apply tsv_body_error, Hbad.
  - unfold tsv_partial. intros ->. reflexivity.
  - unfold tsv_partial. intros ->. reflexivity.
Qed.

Lemma tsv_stops_at_bad_time_witness :
  ({[ "segments" := [tsv_sample; endless_sample; tsv_sample] ]}
     : gmap string (list Segment)) !! "segments"
  = Some ([tsv_sample] ++ endless_sample :: [tsv_sample])
  /\ Forall finite_times [tsv_sample]
  /\ time_error endless_sample = Some OverflowError
  /\ WriteTSV.write_result
       {[ "segments" := [tsv_sample; endless_sample; tsv_sample] ]} []
     = (pys "start" ++ tab ++ pys "end" ++ tab ++ pys "text" ++ nl
          ++ pys "1500" ++ tab ++ pys "2500" ++ tab ++ pys "a b" ++ nl
          ++ pys "3500" ++ tab, Raise OverflowError)
  /\ float_is_finite (float_mul f1000 (start endless_sample)) = true
  /\ float_is_finite (float_mul f1000 (start startless_sample)) = false.
Proof.
  assert (Hl : ({[ "segments" := [tsv_sample; endless_sample; tsv_sample] ]}
                  : gmap string (list Segment)) !! "segments"
               = Some ([tsv_sample] ++ endless_sample :: [tsv_sample]))
    by reflexivity.
  assert (Hfin : Forall finite_times [tsv_sample]) by (repeat constructor).
  assert (He : time_error endless_sample = Some OverflowError) by reflexivity.
  split; [exact Hl|]. split; [exact Hfin|]. split; [exact He|].
  destruct (tsv_stops_at_bad_time _ _ _ _ _ [] Hl Hfin He) as (-> & _).
  split; [vm_compute; reflexivity|]. split; reflexivity.
Defined.

(** ** The path of the output file *)

Lemma elem_of_rev (c : N) (l : str) : c ∈ rev l <-> c ∈ l.
Proof. rewrite !list_elem_of_In. symmetry. apply in_rev. Qed.

Lemma basename_from_no_slash cur p :
  47%N ∉ cur -> 47%N ∉ basename_from cur p.
Proof.
  revert cur. induction p as [|c p IH]; intros cur Hcur; cbn [basename_from].
  - rewrite elem_of_rev. exact Hcur.
  - destruct (N.eqb_spec c 47) as [->|Hc].
    + apply IH. apply not_elem_of_nil.
    + apply IH. rewrite elem_of_cons. intros [E|E]; [congruence | exact (Hcur E)].
Qed.

Lemma basename_from_plain cur name :
  47%N ∉ name -> basename_from cur name = rev cur ++ name.
Proof.
  revert cur. induction name as [|c name IH]; intros cur Hn; cbn [basename_from].
  - rewrite app_nil_r. reflexivity.
  - rewrite not_elem_of_cons in Hn. destruct Hn as [Hc Hn].
    destruct (N.eqb_spec c 47) as [E|_]; [congruence|].
    rewrite (IH _ Hn). cbn [rev]. rewrite <- app_assoc. reflexivity.
Qed.

Lemma basename_from_slash cur dir rest :
  basename_from cur (dir ++ 47%N :: rest) = basename_from [] rest.
Proof.
  revert cur. induction dir as [|c dir IH]; intros cur; cbn [app basename_from].
  - reflexivity.
  - destruct (c =? 47)%N; apply IH.
Qed.

Lemma endswith_slash_app (a b : str) :
  b = [] \/ endswith (pys "/") b = true ->
  endswith (pys "/") (a ++ 47%N :: b) = true.
Proof.
  unfold endswith. rewrite rev_app_distr. cbn [rev]. intros [->|Hb].
  - reflexivity.
  - rewrite <- !app_assoc. destruct (rev b) as [|d r]; [discriminate|].
    exact Hb.
Qed.

Lemma basename_from_suffix cur p :
  exists dir, rev cur ++ p = dir ++ basename_from cur p
    /\ (dir = [] \/ endswith (pys "/") dir = true).
Proof.
  revert cur. induction p as [|c p IH]; intros cur; cbn [basename_from].
  - exists []. split; [rewrite app_nil_r; reflexivity | left; reflexivity].
  - destruct (N.eqb_spec c 47) as [->|Hc].
    + destruct (IH []) as (dir & E & Hd). cbn [rev app] in E.
      exists (rev cur ++ 47%N :: dir). split.
      * rewrite <- app_assoc. cbn [app]. rewrite <- E. reflexivity.
      * right. apply endswith_slash_app, Hd.
    + destruct (IH (c :: cur)) as (dir & E & Hd). cbn [rev] in E.
      rewrite <- app_assoc in E. cbn [app] in E.
      exists dir. split; assumption.
Qed.

Lemma startswith_slash_name (name rest : str) :
  47%N ∉ name -> startswith (pys "/") (name ++ pys "." ++ rest) = false.
Proof.
  intros Hn. destruct name as [|c name]; [reflexivity|].
  rewrite not_elem_of_cons in Hn. destruct Hn as [Hc _].
  change (pys "/") with [47%N]. cbn [app startswith].
  destruct (N.eqb_spec 47 c) as [E|_]; [congruence | reflexivity].
Qed.

(** X10. The output file of a writer is named after the audio file and the
    writer: the directory of the writer, a slash unless that directory is
    empty or already ends with one, the part of the audio path after its
    last slash, a dot, and the extension of the writer.  The directories
    of the audio path are dropped, and the directory of the writer is
    never discarded by the join.  The base class has no extension: there
    the path is never built, [AttributeError] is raised before any file is
    opened. *)
Theorem output_path_spec (w : writer) (output_dir audio_path : str) :
  (w = Base -> output_path w output_dir audio_path = Raise AttributeError)
  /\ (w <> Base ->
      exists extension,
        extension_of w = Ok extension
        /\ In extension [pys "txt"; pys "vtt"; pys "srt"; pys "tsv"; pys "json"]
        /\ output_path w output_dir audio_path
           = Ok (output_dir
                 ++ (if bool_decide (output_dir = [])
                        || endswith (pys "/") output_dir
                     then [] else pys "/")
                 ++ basename audio_path ++ pys "." ++ extension)
        /\ (47%N ∉ basename audio_path)
        /\ exists dir, audio_path = dir ++ basename audio_path
             /\ (dir = [] \/ endswith (pys "/") dir = true)).
Proof.
  split.
  - intros ->. reflexivity.
  - intros Hw.
    assert (Hno : 47%N ∉ basename audio_path).
    { apply basename_from_no_slash, not_elem_of_nil. }
    assert (exists extension, extension_of w = Ok extension
              /\ In extension
                   [pys "txt"; pys "vtt"; pys "srt"; pys "tsv"; pys "json"])
      as (extension & He & Hin).
    { destruct w; [congruence| | | | |]; eexists; (split; [reflexivity|]);
        cbn; tauto. }
    exists extension. split; [exact He|]. split; [exact Hin|].
    split; [|split; [exact Hno|]].
    + unfold output_path. rewrite He. cbn [mbind outcome_bind].
      unfold path_join. rewrite (startswith_slash_name _ _ Hno).
      destruct (bool_decide (output_dir = []) || endswith (pys "/") output_dir);
        reflexivity.
    + destruct (basename_from_suffix [] audio_path) as (dir & E & Hd).
      exists dir. split; [exact E | exact Hd].
Qed.

Lemma output_path_spec_witness :
  VTT <> Base
  /\ output_path VTT (pys "out") (pys "/data/in/talk.mp3")
     = Ok (pys "out/talk.mp3.vtt")
  /\ output_path Base (pys "out") (pys "/data/in/talk.mp3")
     = Raise AttributeError.
Proof.
  assert (Hw : VTT <> Base) by discriminate.
  split; [exact Hw|].
  destruct (output_path_spec VTT (pys "out") (pys "/data/in/talk.mp3"))
    as [_ Hok].
  destruct (output_path_spec Base (pys "out") (pys "/data/in/talk.mp3"))
    as [Hbase _].
  split; [|exact (Hbase eq_refl)].
  destruct (Hok Hw) as (extension & He & _ & -> & _).
  injection He as <-. vm_compute. reflexivity.
Defined.

(** X11. Only the last component of the audio path counts: audio files of
    the same name in different directories are written to the same output
    file, and an audio path that ends with a slash gives a file whose name
    is only the dot and the extension. *)
Theorem output_path_drops_directories (w : writer)
    (output_dir dir name : str) :
  47%N ∉ name ->
  basename (dir ++ pys "/" ++ name) = name
  /\ output_path w output_dir (dir ++ pys "/" ++ name)
     = output_path w output_dir name
  /\ forall extension, extension_of w = Ok extension ->
       output_path w output_dir (dir ++ pys "/")
       = Ok (path_join output_dir (pys "." ++ extension)).
Proof.
  intros Hn.
  assert (Hb : basename (dir ++ pys "/" ++ name) = name).
  { unfold basename. change (pys "/" ++ name) with (47%N :: name).
    rewrite basename_from_slash. apply (basename_from_plain [] name Hn). }
  assert (Hb0 : basename name = name) by apply (basename_from_plain [] name Hn).
  split; [exact Hb|]. split.
  - unfold output_path. rewrite Hb, Hb0. reflexivity.
  - intros extension He. unfold output_path. rewrite He.
    unfold basename. change (pys "/") with ([47%N] ++ []) at 1.
    cbn [app]. rewrite basename_from_slash. reflexivity.
Qed.

Lemma output_path_drops_directories_witness :
  (47%N ∉ pys "talk.mp3")
  /\ output_path SRT (pys "out/") (pys "a/b" ++ pys "/" ++ pys "talk.mp3")
     = output_path SRT (pys "out/") (pys "talk.mp3")
  /\ output_path SRT (pys "out/") (pys "talk.mp3") = Ok (pys "out/talk.mp3.srt").
Proof.
  assert (Hn : 47%N ∉ pys "talk.mp3").
  { intros H. vm_compute in H. repeat (apply elem_of_cons in H as [H|H];
      [discriminate|]). apply elem_of_nil in H. exact H. }
  split; [exact Hn|].
  destruct (output_path_drops_directories SRT (pys "out/") (pys "a/b")
              (pys "talk.mp3") Hn) as (_ & E & _).
  split; [exact E | reflexivity].
Defined.

(** ** The shape of the metadata record *)

Lemma strip_trimmed s : trimmed (strip s).
Proof.
  destruct (strip_spec s) as (l & r & _ & _ & _ & Hh & Ht). split; assumption.
Qed.

Lemma strip_without c s : c ∉ s -> c ∉ strip s.
Proof.
  intros Hc Hin. apply Hc.
  destruct (strip_spec s) as (l & r & E & _). rewrite E.
  rewrite !elem_of_app. tauto.
Qed.

Lemma strip_nonempty s : (0 <? length (strip s))%nat = true -> strip s <> [].
Proof. destruct (strip s); [discriminate | discriminate]. Qed.

Section MetadataShape.
Context `{LocalTime}.

Lemma names_of_shape (sep : N) value v :
  names_of [sep] value = Some v -> names_shape sep v.
Proof.
  unfold names_of. destruct (decode value) as [s|e]; [|discriminate].
  destruct (0 <? length (strip s))%nat; [|discriminate].
  intros [= <-]. exists (map strip (split [sep] (strip s))).
  split; [reflexivity|]. split.
  - destruct (split_char sep [] (strip s)) as (Hne & _).
    unfold split. destruct (split_from [sep] 0 [] (strip s)); [congruence | discriminate].
  - destruct (split_join sep (strip s)) as [_ Hall].
    rewrite Forall_forall in Hall. apply Forall_forall. intros name Hin.
    apply list_elem_of_fmap in Hin as (part & -> & Hpart).
    split; [apply strip_trimmed | apply strip_without, Hall, Hpart].
Qed.

Lemma date_of_shape value v :
  date_of value = Some v -> exists dt, v = MStr (isoformat dt).
Proof.
  unfold date_of. destruct (decode value ≫= to_date) as [[dt|]|e]; try discriminate.
  intros [= <-]. exists dt. reflexivity.
Qed.

(** X12. The record has a closed set of keys, and each holds a value of
    one shape: [properties] the kind and the page count; [authors] and
    [keywords] a list that is not empty, of names without whitespace at
    either end and without the separator ([;] or [,]), where a name can be
    empty; [title] a string that is not empty and has no whitespace at
    either end; [createdAt] and [updatedAt] the ISO text of a datetime.  No
    other key is ever set. *)
Theorem metadata_shape (doc : PDFDocument) (pages : Z) (k : string)
    (v : mdvalue) :
  get_document_metadata doc pages !! k = Some v ->
  field_shape pages k v.
Proof.
  rewrite metadata_lookup. unfold expected, field_shape.
  repeat case_decide; intros Hv.
  - congruence.
  - destruct (items_of doc !! pys "Author") as [value|]; [|discriminate].
    apply (names_of_shape 59 value), Hv.
  - destruct (items_of doc !! pys "Title") as [value|]; [|discriminate].
    cbn [mbind option_bind] in Hv. unfold title_of in Hv.
    destruct (decode value) as [s|e]; [|discriminate].
    destruct (0 <? length (strip s))%nat eqn:Hlen; [|discriminate].
    injection Hv as <-. exists (strip s).
    split; [reflexivity|]. split; [apply strip_nonempty, Hlen | apply strip_trimmed].
  - destruct (items_of doc !! pys "Keywords") as [value|]; [|discriminate].
    apply (names_of_shape 44 value), Hv.
  - destruct (items_of doc !! pys "CreationDate") as [value|]; [|discriminate].
    apply (date_of_shape value), Hv.
  - destruct (items_of doc !! pys "ModDate") as [value|]; [|discriminate].
    apply (date_of_shape value), Hv.
  - discriminate.
Qed.

(** X13. Only the five keys [Author], [Title], [Keywords], [CreationDate]
    and [ModDate] of the first information dictionary are read, with these
    exact names: setting or removing any other key (such as [author] or
    [Subject]) leaves the record as it is, and so does any further
    dictionary of [doc.info]. *)
Theorem metadata_ignores_other_keys (items : gmap str pdfvalue)
    (rest : list (gmap str pdfvalue)) (key : str) (value : pdfvalue)
    (pages : Z) :
  key ∉ read_keys ->
  get_document_metadata {| info := <[key := value]> items :: rest |} pages
  = get_document_metadata {| info := [items] |} pages
  /\ get_document_metadata {| info := delete key items :: rest |} pages
     = get_document_metadata {| info := [items] |} pages.
Proof.
  intros Hkey. unfold read_keys in Hkey.
  rewrite !not_elem_of_cons in Hkey.
  destruct Hkey as (Ha & Ht & Hk & Hc & Hm & _).
  split; apply map_eq; intros k; rewrite !metadata_lookup;
    unfold items_of, expected; cbn [info];
    rewrite ?lookup_insert_ne by congruence;
    rewrite ?lookup_delete_ne by congruence; reflexivity.
Qed.
End MetadataShape.

Lemma metadata_shape_witness :
  get_document_metadata (H := UTC.local_time)
    {| info := [ {[ pys "Author" := PBytes (pyb " Ann ;; Bob ") ]} ] |} 3
    !! "authors"
  = Some (MList [pys "Ann"; []; pys "Bob"])
  /\ field_shape 3 "authors" (MList [pys "Ann"; []; pys "Bob"]).
Proof.
  assert (Hl : get_document_metadata (H := UTC.local_time)
                 {| info := [ {[ pys "Author" := PBytes (pyb " Ann ;; Bob ") ]} ] |} 3
                 !! "authors"
               = Some (MList [pys "Ann"; []; pys "Bob"])).
  { rewrite metadata_lookup. reflexivity. }
  split; [exact Hl|].
  exact (metadata_shape _ 3 "authors" _ Hl).
Defined.

Lemma metadata_ignores_other_keys_witness :
  (pys "author" ∉ read_keys)
  /\ get_document_metadata (H := UTC.local_time)
       {| info := [ <[pys "author" := PBytes (pyb "Ann")]>
                      {[ pys "Title" := PBytes (pyb "Report") ]} ] |} 3
     = get_document_metadata (H := UTC.local_time)
         {| info := [ {[ pys "Title" := PBytes (pyb "Report") ]} ] |} 3.
Proof.
  assert (Hk : pys "author" ∉ read_keys).
  { unfold read_keys. rewrite !not_elem_of_cons.
    repeat split; try (intros E; vm_compute in E; discriminate).
    apply not_elem_of_nil. }
  split; [exact Hk|].
  exact (proj1 (metadata_ignores_other_keys (H := UTC.local_time)
                  {[ pys "Title" := PBytes (pyb "Report") ]} []
                  (pys "author") (PBytes (pyb "Ann")) 3 Hk)).
Defined.

(** ** Dates: what of the string is read *)

Section DateAffixes.
Context `{LocalTime}.

(** X14. [to_date] reads neither the first two characters nor the last
    seven: the prefix [D:] is not checked, and the time zone offset that
    follows the seconds has no effect on the result. *)
Theorem to_date_ignores_affixes (prefix prefix' c suffix suffix' : str) :
  length prefix = 2%nat -> length prefix' = 2%nat ->
  length suffix = 7%nat -> length suffix' = 7%nat ->
  to_date (prefix ++ c ++ suffix) = to_date (prefix' ++ c ++ suffix').
Proof.
  intros Hp Hp' Hs Hs'. unfold to_date.
  rewrite (py_slice_core prefix c suffix Hp Hs).
  rewrite (py_slice_core prefix' c suffix' Hp' Hs'). reflexivity.
Qed.
End DateAffixes.

Lemma to_date_ignores_affixes_witness :
  length (pys "D:") = 2%nat /\ length (pys "xy") = 2%nat
  /\ length (pys "+02'00'") = 7%nat /\ length (pys "-08'00'") = 7%nat
  /\ to_date (H := UTC.local_time) (pys "D:" ++ pys "20230101120000" ++ pys "+02'00'")
     = to_date (H := UTC.local_time) (pys "xy" ++ pys "20230101120000" ++ pys "-08'00'")
  /\ to_date (H := UTC.local_time) (pys "D:20230101120000+02'00'")
     = Ok (Some {| year := 2023; month := 1; day := 1;
                   hour := 12; minute := 0; second := 0 |}).
Proof.
  split; [reflexivity|]. split; [reflexivity|].
  split; [reflexivity|]. split; [reflexivity|]. split.
  - apply (to_date_ignores_affixes (H := UTC.local_time)); reflexivity.
  - vm_compute. reflexivity.
Defined.

(** ** What [json.dump] accepts, and what reading back gives *)

Section JsonDump.
Variable float_repr : float -> str.






Lemma setitem_keys d name v x :
  x ∈ map (fun kv => WriteJSON.str_key (fst kv)) (WriteJSON.setitem d name v) ->
  x ∈ map (fun kv => WriteJSON.str_key (fst kv)) d \/ x = Some name.
Proof.
  induction d as [|[k w] d IH]; cbn [WriteJSON.setitem map fst].
  - intros Hx. apply list_elem_of_singleton in Hx. right. exact Hx.
  - destruct (WriteJSON.is_key name k); cbn [map fst].
    + intros Hx. left. exact Hx.
    + rewrite !elem_of_cons. intros [Hx|Hx]; [left; left; exact Hx|].
      destruct (IH Hx) as [Hd|Hn]; [left; right; exact Hd | right; exact Hn].
Qed.

Lemma setitem_normal d name v :
  normal (WriteJSON.PyDict d) -> WriteJSON.native v = true ->
  normal (WriteJSON.PyDict (WriteJSON.setitem d name v)).
Proof.
  unfold normal. intros (Hk & Hnd & Hv) Hnv.
  induction d as [|[k w] d IH]; cbn [WriteJSON.setitem].
  - split; [|split].
    + constructor; [exists name; reflexivity | constructor].
    + cbn. apply NoDup_singleton.
    + constructor; [exact Hnv | constructor].
  - apply Forall_cons in Hk as [[s Hs] Hk]. cbn [fst] in Hs. subst k.
    cbn [map fst WriteJSON.str_key] in Hnd. apply NoDup_cons in Hnd as [Hs Hnd].
    apply Forall_cons in Hv as [Hw Hv]. cbn [snd] in Hw.
    cbn [WriteJSON.is_key]. case_bool_decide as Hname.
    + split; [|split].
      * constructor; [exists s; reflexivity | exact Hk].
      * cbn [map fst WriteJSON.str_key]. apply NoDup_cons. split; assumption.
      * constructor; [exact Hnv | exact Hv].
    + destruct (IH Hk Hnd Hv) as (Hk' & Hnd' & Hv'). split; [|split].
      * constructor; [exists s; reflexivity | exact Hk'].
      * cbn [map fst WriteJSON.str_key]. apply NoDup_cons. split; [|exact Hnd'].
        intros Hin. apply setitem_keys in Hin as [Hin|Hin]; [exact (Hs Hin)|].
        congruence.
      * constructor; [exact Hw | exact Hv'].
Qed.

Lemma normal_native d : normal (WriteJSON.PyDict d) -> WriteJSON.native (WriteJSON.PyDict d) = true.
Proof.
  intros (Hk & Hnd & Hv). cbn [WriteJSON.native].
  rewrite !andb_true_iff. split; [split|].
  - apply forallb_forall. intros kv Hin. rewrite Forall_forall in Hk.
    apply list_elem_of_In in Hin. destruct (Hk kv Hin) as [s ->]. reflexivity.
  - apply bool_decide_eq_true. exact Hnd.
  - apply forallb_forall. intros kv Hin. rewrite Forall_forall in Hv.
    apply list_elem_of_In in Hin. exact (Hv kv Hin).
Qed.

Lemma load_native j : WriteJSON.native (WriteJSON.load j) = true.
Proof.
  induction j as [| | | | |l IH|members IH] using json_nested_ind;
    cbn [WriteJSON.load WriteJSON.native]; try reflexivity.
  - apply forallb_forall. intros o Hin. apply in_map_iff in Hin as (x & <- & Hx).
    rewrite Forall_forall in IH. apply IH. apply list_elem_of_In, Hx.
  - apply normal_native.
    assert (Hgen : forall acc, normal (WriteJSON.PyDict acc) ->
              normal (WriteJSON.PyDict
                (fold_left (fun d m => WriteJSON.setitem d (fst m) (WriteJSON.load (snd m)))
                   members acc))).
    { induction IH as [|m members Hm _ IHm]; intros acc Hacc; cbn [fold_left].
      - exact Hacc.
      - apply IHm. apply setitem_normal; [exact Hacc | exact Hm]. }
    apply Hgen. split; [constructor|]. split; [constructor | constructor].
Qed.

(** X16. What is read back from the file of the JSON writer is always
    made of [None], booleans, integers, floats, strings, lists and dicts
    with distinct string keys, whatever was written; and writing that
    again and reading it back gives the same object: the changes of a
    round trip (tuples to lists, keys to strings) happen once. *)
Theorem json_read_back_stable (result r : WriteJSON.pyobj) :
  WriteJSON.read_back float_repr result = Ok r ->
  WriteJSON.native r = true
  /\ WriteJSON.read_back float_repr r = Ok r.
Proof.
  unfold WriteJSON.read_back, WriteJSON.write_result.
  destruct (WriteJSON.dump float_repr result) as [j|e]; [|discriminate].
  cbn [fmap outcome_fmap]. intros [= <-].
  pose proof (load_native j) as Hn. split; [exact Hn|].
  destruct (native_round_trips float_repr (WriteJSON.load j) Hn) as (j' & -> & Hj').
  cbn [fmap outcome_fmap]. rewrite Hj'. reflexivity.
Qed.
End JsonDump.


Lemma json_read_back_stable_witness :
  WriteJSON.read_back WriteJSON.no_repr WriteJSON.tuple_result
  = Ok (WriteJSON.PyDict
          [(WriteJSON.PyStr (pys "segments"),
            WriteJSON.PyList
              [WriteJSON.PyList [WriteJSON.PyFloat (S754_zero false);
                                 WriteJSON.PyFloat (float_of 1 0);
                                 WriteJSON.PyStr (pys " hi ")]])])
  /\ WriteJSON.read_back WriteJSON.no_repr
       (WriteJSON.PyDict
          [(WriteJSON.PyStr (pys "segments"),
            WriteJSON.PyList
              [WriteJSON.PyList [WriteJSON.PyFloat (S754_zero false);
                                 WriteJSON.PyFloat (float_of 1 0);
                                 WriteJSON.PyStr (pys " hi ")]])])
     = Ok (WriteJSON.PyDict
          [(WriteJSON.PyStr (pys "segments"),
            WriteJSON.PyList
              [WriteJSON.PyList [WriteJSON.PyFloat (S754_zero false);
                                 WriteJSON.PyFloat (float_of 1 0);
                                 WriteJSON.PyStr (pys " hi ")]])]).
Proof.
  assert (Hr : WriteJSON.read_back WriteJSON.no_repr WriteJSON.tuple_result
               = Ok (WriteJSON.PyDict
                       [(WriteJSON.PyStr (pys "segments"),
                         WriteJSON.PyList
                           [WriteJSON.PyList [WriteJSON.PyFloat (S754_zero false);
                                              WriteJSON.PyFloat (float_of 1 0);
                                              WriteJSON.PyStr (pys " hi ")]])]))
    by reflexivity.
  split; [exact Hr|].
  exact (proj2 (json_read_back_stable WriteJSON.no_repr _ _ Hr)).
Defined.
